(** * reservas-cabanas: the booking backend of [server.js]

    A shallow embedding of the handlers of [server.js]
    ([GET /disponibilidad], [POST /agendar], [GET /test-calendar], the
    two routes of health, the error handler and the route for unknown
    paths) and
    of the parts of the JavaScript runtime they rely on: [Date] time
    values, the date-time string format, [Set] with insertion order,
    truthiness, and [Number.prototype.toString(36)] on the results of
    [Math.random()].

    Conventions.
    - A time value is the number of milliseconds since the epoch, an
      integer; [None] stands for [NaN] (an invalid [Date]).
    - What depends on the host is gathered in a [Host]: the offset
      [LocalTZA] of its local time zone from UTC, in milliseconds, at
      each instant (a host on UTC has offset 0 throughout, a host with
      daylight saving two offsets), and what its engine makes of a date
      string outside the date-time string format, of a number that is
      not a safe integer, and of the radix-36 numeral of a number with
      a long expansion.
    - A handler is a tree of the calls it makes to the outside
      (credentials, calendar service, clock, random generator), each
      with a continuation for every possible answer, ending in the
      response that it sends.  Logging is left out. *)

From Stdlib Require Import ZArith List String Ascii Bool Lia DecimalString DecimalZ.
From Stdlib Require Import Sorted Permutation.
From Equations Require Import Equations.
Import ListNotations.
Local Open Scope string_scope.
Local Open Scope Z_scope.

(** * Part 1. Time values (ECMAScript, Date objects) *)

Module ES.

Definition msPerSecond : Z := 1000.
Definition msPerMinute : Z := 60000.
Definition msPerHour : Z := 3600000.
Definition msPerDay : Z := 86400000.

(** The largest magnitude of a time value: 100,000,000 days. *)
Definition maxTime : Z := 8640000000000000.

Definition Day (t : Z) : Z := t / msPerDay.
Definition TimeWithinDay (t : Z) : Z := t mod msPerDay.

Definition DaysInYear (y : Z) : Z :=
  if negb (y mod 4 =? 0) then 365
  else if negb (y mod 100 =? 0) then 366
  else if negb (y mod 400 =? 0) then 365
  else 366.

Definition DayFromYear (y : Z) : Z :=
  365 * (y - 1970) + (y - 1969) / 4 - (y - 1901) / 100 + (y - 1601) / 400.

Definition TimeFromYear (y : Z) : Z := msPerDay * DayFromYear y.

(** The year of a day number: an estimate from the mean length of a
    year, then one step up or down.  [YearFromDay_spec] shows that this
    is the largest year that starts on or before the day. *)
Definition YearFromDay (d : Z) : Z :=
  let y := 1970 + (d * 400) / 146097 in
  if DayFromYear (y + 1) <=? d then y + 1
  else if DayFromYear y <=? d then y
  else y - 1.

Definition YearFromTime (t : Z) : Z := YearFromDay (Day t).

(** 1 in a leap year, 0 otherwise. *)
Definition LeapOfYear (y : Z) : Z := if DaysInYear y =? 366 then 1 else 0.
Definition InLeapYear (t : Z) : Z := LeapOfYear (YearFromTime t).

Definition DayWithinYear (t : Z) : Z := Day t - DayFromYear (YearFromTime t).

(** Day within the year on which month [m] (0 to 11) starts. *)
Definition MonthStart (leap m : Z) : Z :=
  if m =? 0 then 0
  else if m =? 1 then 31
  else if m =? 2 then 59 + leap
  else if m =? 3 then 90 + leap
  else if m =? 4 then 120 + leap
  else if m =? 5 then 151 + leap
  else if m =? 6 then 181 + leap
  else if m =? 7 then 212 + leap
  else if m =? 8 then 243 + leap
  else if m =? 9 then 273 + leap
  else if m =? 10 then 304 + leap
  else 334 + leap.

Definition MonthOfYearDay (leap d : Z) : Z :=
  if d <? 31 then 0
  else if d <? 59 + leap then 1
  else if d <? 90 + leap then 2
  else if d <? 120 + leap then 3
  else if d <? 151 + leap then 4
  else if d <? 181 + leap then 5
  else if d <? 212 + leap then 6
  else if d <? 243 + leap then 7
  else if d <? 273 + leap then 8
  else if d <? 304 + leap then 9
  else if d <? 334 + leap then 10
  else 11.

(** The number of days of month [m] (1 to 12) of year [y]. *)
Definition DaysInMonth (y m : Z) : Z :=
  if m =? 2 then 28 + LeapOfYear y
  else if (m =? 4) || (m =? 6) || (m =? 9) || (m =? 11) then 30
  else 31.

Definition MonthFromTime (t : Z) : Z :=
  MonthOfYearDay (InLeapYear t) (DayWithinYear t).

Definition DateFromTime (t : Z) : Z :=
  DayWithinYear t - MonthStart (InLeapYear t) (MonthFromTime t) + 1.

Definition HourFromTime (t : Z) : Z := (t / msPerHour) mod 24.
Definition MinFromTime (t : Z) : Z := (t / msPerMinute) mod 60.
Definition SecFromTime (t : Z) : Z := (t / msPerSecond) mod 60.
Definition msFromTime (t : Z) : Z := t mod msPerSecond.

Definition MakeTime (hour min sec ms : Z) : Z :=
  hour * msPerHour + min * msPerMinute + sec * msPerSecond + ms.

(** The day number of the [date]-th day of month [month] of [year];
    months beyond 0..11 carry into the year, and [date] may lie outside
    the month. *)
Definition MakeDay (year month date : Z) : Z :=
  let ym := year + month / 12 in
  let mn := month mod 12 in
  DayFromYear ym + MonthStart (LeapOfYear ym) mn + date - 1.

Definition MakeDate (day time : Z) : Z := day * msPerDay + time.

Definition TimeClip (time : Z) : option Z :=
  if Z.abs time >? maxTime then None else Some time.

End ES.
Import ES.

(** * Part 2. Strings of digits *)

Definition digitChar (d : Z) : ascii := ascii_of_nat (48 + Z.to_nat d).

Definition digitVal (c : ascii) : option Z :=
  let n := Z.of_nat (nat_of_ascii c) in
  if (48 <=? n) && (n <=? 57) then Some (n - 48) else None.

(** [n] written with exactly [k] decimal digits (the low [k] digits). *)
Fixpoint padDigits (k : nat) (n : Z) : string :=
  match k with
  | O => ""
  | S k' => String (digitChar ((n / 10 ^ Z.of_nat k') mod 10)) (padDigits k' n)
  end.

(** Read exactly [k] decimal digits. *)
Fixpoint readDigits (k : nat) (s : string) : option (Z * string) :=
  match k with
  | O => Some (0, s)
  | S k' =>
      match s with
      | String c s' =>
          match digitVal c with
          | Some d =>
              match readDigits k' s' with
              | Some (v, r) => Some (d * 10 ^ Z.of_nat k' + v, r)
              | None => None
              end
          | None => None
          end
      | EmptyString => None
      end
  end.

Definition expect (c : ascii) (s : string) : option string :=
  match s with
  | String c' s' => if Ascii.eqb c c' then Some s' else None
  | EmptyString => None
  end.

(** [s.split('T')[0]]: the part of [s] before its first ["T"], all of
    [s] when it has none. *)
Fixpoint split_T_0 (s : string) : string :=
  match s with
  | EmptyString => EmptyString
  | String c s' => if Ascii.eqb c "T" then EmptyString else String c (split_T_0 s')
  end.

(** Sequencing of partial computations. *)
Notation "'let*' x ':=' e 'in' k" :=
  (match e with Some x => k | None => None end)
  (at level 10, x pattern, e at level 100, k at level 200).

(** * Part 3. Date objects *)

(** The [[DateValue]] of a Date object: a time value, or [None] for
    [NaN]. *)
Definition Date : Type := option Z.

(** The year of the date-time string format: four digits from 0 to
    9999, otherwise a sign and six digits. *)
Definition yearString (y : Z) : string :=
  if (0 <=? y) && (y <=? 9999) then padDigits 4 y
  else (if y <? 0 then "-" else "+") ++ padDigits 6 (Z.abs y).

(** ["YYYY-MM-DD"], with the month counted from 1. *)
Definition isoDate (y m d : Z) : string :=
  yearString y ++ "-" ++ padDigits 2 m ++ "-" ++ padDigits 2 d.

(** [Date.prototype.toISOString] on a finite time value (on [NaN] it
    throws a RangeError). *)
Definition toISOString (t : Z) : string :=
  isoDate (YearFromTime t) (MonthFromTime t + 1) (DateFromTime t)
  ++ "T" ++ padDigits 2 (HourFromTime t)
  ++ ":" ++ padDigits 2 (MinFromTime t)
  ++ ":" ++ padDigits 2 (SecFromTime t)
  ++ "." ++ padDigits 3 (msFromTime t) ++ "Z".

(** [a < b] on two Date objects: both are converted to their time
    values, and a comparison with [NaN] is false. *)
Definition Date_lt (a b : Date) : bool :=
  match a, b with
  | Some x, Some y => x <? y
  | _, _ => false
  end.

(** [a + b] on numbers, [NaN] absorbing. *)
Definition addNum (a b : option Z) : option Z :=
  match a, b with
  | Some x, Some y => Some (x + y)
  | _, _ => None
  end.

(** [HH:mm], [HH:mm:ss] or [HH:mm:ss.sss]: the milliseconds since the
    start of the day, and the rest of the string. *)
Definition parseTime (s : string) : option (Z * string) :=
  let* (h, s1) := readDigits 2 s in
  let* s2 := expect ":" s1 in
  let* (mi, s3) := readDigits 2 s2 in
  let* (sec, ms, rest) :=
    match expect ":" s3 with
    | None => Some (0, 0, s3)
    | Some s4 =>
        let* (sec, s5) := readDigits 2 s4 in
        match expect "." s5 with
        | None => Some (sec, 0, s5)
        | Some s6 =>
            let* (ms, s7) := readDigits 3 s6 in
            Some (sec, ms, s7)
        end
    end in
  if (h <=? 23) && (mi <=? 59) && (sec <=? 59)
  then Some (MakeTime h mi sec ms, rest)
  else None.

(** The zone designator that ends a date-time string: absent (local
    time, [Some None]), ["Z"], or [+HH:mm] / [-HH:mm]; the offset is in
    milliseconds east of UTC. *)
Definition parseZone (s : string) : option (option Z) :=
  match s with
  | EmptyString => Some None
  | String c s1 =>
      if Ascii.eqb c "Z" then
        match s1 with EmptyString => Some (Some 0) | _ => None end
      else if Ascii.eqb c "+" || Ascii.eqb c "-" then
        let* (h, s2) := readDigits 2 s1 in
        let* s3 := expect ":" s2 in
        let* (mi, s4) := readDigits 2 s3 in
        match s4 with
        | EmptyString =>
            if (h <=? 23) && (mi <=? 59) then
              let off := h * msPerHour + mi * msPerMinute in
              Some (Some (if Ascii.eqb c "-" then - off else off))
            else None
        | _ => None
        end
      else None
  end.

(** Twelve hours. *)
Definition msPerHalfDay : Z := 43200000.

(** The host.
    - [LocalTZA t isUTC] is the offset of its local time from UTC, in
      milliseconds: for [isUTC = true] the offset in effect at the
      instant [t]; for [isUTC = false] the offset in effect at the
      local time [t] (for a local time that a change of offset skips or
      repeats, the offset before the change).  The offset of a zone
      varies by its daylight saving; over all instants it varies by no
      more than 12 hours ([LocalTZA_varies]), so that a step of one
      local day always moves forward.
    - [parseOther s] is the time value that its engine gives to a
      string that is not in the format that [parseDateTime] reads
      ([None] for none).
    - [numberString n] is what its engine prints for the number read
      from the integer numeral [n] when [n] is not a safe integer.
    - [radix36 n h] is the radix-36 numeral that its engine prints for
      the number [n / 2 ^ h] when its expansion is long (see
      [toString36]). *)
Record Host : Type := {
  LocalTZA : Z -> bool -> Z;
  LocalTZA_varies :
    forall t u a b, Z.abs (LocalTZA t a - LocalTZA u b) <= msPerHalfDay;
  parseOther : string -> option Z;
  numberString : Z -> string;
  radix36 : Z -> nat -> string
}.

(** A host whose offset from UTC is the same at every instant. *)
Definition fixedOffset (host : Host) : Prop :=
  forall t u a b, LocalTZA host t a = LocalTZA host u b.

Lemma constant_varies (offset t u : Z) (a b : bool) :
  Z.abs ((fun (_ : Z) (_ : bool) => offset) t a
         - (fun (_ : Z) (_ : bool) => offset) u b) <= msPerHalfDay.
Proof. cbv beta. rewrite Z.sub_diag. unfold msPerHalfDay. simpl. lia. Qed.

(** A host at a fixed [offset] from UTC.  Its engine reads no other
    format of dates; the examples give it no number and no numeral that
    it would have to print by [numberString] or [radix36]. *)
Definition atOffset (offset : Z) : Host :=
  {| LocalTZA := fun _ _ => offset;
     LocalTZA_varies := constant_varies offset;
     parseOther := fun _ => None;
     numberString := fun _ => "";
     radix36 := fun _ _ => "" |}.

(** A host on UTC. *)
Definition utc : Host := atOffset 0.

(** The offsets of the time of Santiago de Chile around the summer of
    2024-2025: four hours behind UTC, and three hours behind from
    2024-09-08T04:00:00Z (midnight of Sunday 8 September, when the
    clocks go to 01:00) to 2025-04-06T03:00:00Z (midnight of Sunday 6
    April, when they go back to 23:00).  As local times, three hours
    behind are those from 01:00 of 8 September 2024 to midnight of 6
    April 2025: the hour that is skipped, from midnight to 01:00 of 8
    September, and the hour that comes twice, from 23:00 of 5 April to
    midnight, have the offset before the change. *)
Definition santiagoTZA (t : Z) (isUTC : bool) : Z :=
  if isUTC then
    if (1725768000000 <=? t) && (t <? 1743908400000)
    then - 3 * msPerHour else - 4 * msPerHour
  else
    if (1725757200000 <=? t) && (t <? 1743897600000)
    then - 3 * msPerHour else - 4 * msPerHour.

Lemma santiagoTZA_varies t u a b :
  Z.abs (santiagoTZA t a - santiagoTZA u b) <= msPerHalfDay.
Proof.
  unfold santiagoTZA, msPerHour, msPerHalfDay.
  repeat match goal with |- context [if ?c then _ else _] => destruct c end; lia.
Qed.

Definition santiago : Host :=
  {| LocalTZA := santiagoTZA;
     LocalTZA_varies := santiagoTZA_varies;
     parseOther := fun _ => None;
     numberString := fun _ => "";
     radix36 := fun _ _ => "" |}.

Section HostZone.

Variable host : Host.

Definition LocalTime (t : Z) : Z := t + LocalTZA host t true.
Definition UTC (t : Z) : Z := t - LocalTZA host t false.

(** The time value of a string [s] in the date-time string format with
    a full date: ["YYYY-MM-DD"] for a date of the calendar (a date
    alone is UTC), optionally followed by ["T"], a time, and a zone
    designator (a date-time without one is local time). *)
Definition parseDateTime (s : string) : option Z :=
  let* (y, s1) := readDigits 4 s in
  let* s2 := expect "-" s1 in
  let* (m, s3) := readDigits 2 s2 in
  let* s4 := expect "-" s3 in
  let* (d, s5) := readDigits 2 s4 in
  if (1 <=? m) && (m <=? 12) && (1 <=? d) && (d <=? DaysInMonth y m) then
    let day := MakeDay y (m - 1) d in
    match s5 with
    | EmptyString => Some (MakeDate day 0)
    | String c s6 =>
        if Ascii.eqb c "T" then
          let* (time, s7) := parseTime s6 in
          let* zone := parseZone s7 in
          match zone with
          | Some off => Some (MakeDate day time - off)
          | None => Some (UTC (MakeDate day time))
          end
        else None
    end
  else None.

(** [new Date(s)] for a string [s]: the time value of [s] in the format
    above or, for any other string, what the engine of the host makes
    of it. *)
Definition Date_parse (s : string) : Date :=
  match parseDateTime s with
  | Some tv => TimeClip tv
  | None => let* tv := parseOther host s in TimeClip tv
  end.

(** [d.getDate()]: the day of the month in local time. *)
Definition getDate (d : Date) : option Z :=
  match d with
  | Some t => Some (DateFromTime (LocalTime t))
  | None => None
  end.

(** [d.setDate(date)]: the new [[DateValue]] of [d]. *)
Definition setDate (d : Date) (date : option Z) : Date :=
  match d, date with
  | Some t, Some dt =>
      let t' := LocalTime t in
      let newDate :=
        MakeDate (MakeDay (YearFromTime t') (MonthFromTime t') dt)
                 (TimeWithinDay t') in
      TimeClip (UTC newDate)
  | _, _ => None
  end.

End HostZone.

(** ** The step of the walk

    [d.setDate(d.getDate() + 1)] moves a valid date to the same time of
    day on the next day of the local calendar.  On a host with a fixed
    offset this is one day of 24 hours later; across a change of
    offset it is more or less, and never less than 12 hours. *)

Lemma MonthOfYearDay_range leap d : 0 <= MonthOfYearDay leap d <= 11.
Proof.
  unfold MonthOfYearDay.
  repeat match goal with |- context [if ?b then _ else _] => destruct b end; lia.
Qed.

Lemma MonthFromTime_range t : 0 <= MonthFromTime t <= 11.
Proof. apply MonthOfYearDay_range. Qed.

Lemma MakeDay_in_year y m dt :
  0 <= m <= 11 ->
  MakeDay y m dt = DayFromYear y + MonthStart (LeapOfYear y) m + dt - 1.
Proof.
  intros Hm. unfold MakeDay.
  rewrite (Z.div_small m 12), (Z.mod_small m 12) by lia.
  rewrite Z.add_0_r. reflexivity.
Qed.

Lemma MakeDay_DateFromTime t k :
  MakeDay (YearFromTime t) (MonthFromTime t) (DateFromTime t + k) = Day t + k.
Proof.
  rewrite MakeDay_in_year by apply MonthFromTime_range.
  unfold DateFromTime, DayWithinYear, InLeapYear. lia.
Qed.

Lemma MakeDate_Day_TimeWithinDay t k :
  MakeDate (Day t + k) (TimeWithinDay t) = t + k * msPerDay.
Proof.
  unfold MakeDate, Day, TimeWithinDay.
  pose proof (Z.div_mod t msPerDay ltac:(discriminate)). lia.
Qed.

Lemma setDate_getDate_next host t :
  setDate host (Some t) (addNum (getDate host (Some t)) (Some 1))
  = TimeClip (UTC host (LocalTime host t + msPerDay)).
Proof.
  unfold setDate, getDate, addNum.
  rewrite MakeDay_DateFromTime, MakeDate_Day_TimeWithinDay.
  rewrite Z.mul_1_l. reflexivity.
Qed.

Lemma nextDay_forward host t :
  t + msPerHalfDay <= UTC host (LocalTime host t + msPerDay).
Proof.
  unfold UTC, LocalTime.
  pose proof (LocalTZA_varies host t (t + LocalTZA host t true + msPerDay) true false).
  unfold msPerDay, msPerHalfDay in *. lia.
Qed.

Lemma nextDay_fixed host t :
  fixedOffset host -> UTC host (LocalTime host t + msPerDay) = t + msPerDay.
Proof.
  intros F. unfold UTC, LocalTime.
  rewrite (F (t + LocalTZA host t true + msPerDay) t false true). lia.
Qed.

Lemma atOffset_fixed offset : fixedOffset (atOffset offset).
Proof. intros t u a b. reflexivity. Qed.

Lemma TimeClip_Some t u : TimeClip t = Some u -> u = t.
Proof.
  unfold TimeClip. destruct (Z.abs t >? maxTime); congruence.
Qed.

(** * Part 4. The occupied dates of [GET /disponibilidad] *)

(** The [start] and [end] of an event of the calendar service: [date]
    for an all-day event, [dateTime] otherwise; an absent property is
    [None] ([undefined]). *)
Record EventDateTime : Type := {
  date : option string;
  dateTime : option string
}.

Record Event : Type := {
  start : EventDateTime;
  end_ : EventDateTime
}.

(** [a || b] on two properties that hold a string or are absent: [a]
    when it is truthy (a string that is not empty), else [b]. *)
Definition or_else (a b : option string) : option string :=
  match a with
  | Some s => if String.eqb s "" then b else a
  | None => b
  end.

(** An all-day event from [s] to [e]. *)
Definition allDay (s e : string) : Event :=
  {| start := {| date := Some s; dateTime := None |};
     end_ := {| date := Some e; dateTime := None |} |}.

(** An event with a time of day, from [s] to [e]. *)
Definition timed (s e : string) : Event :=
  {| start := {| date := None; dateTime := Some s |};
     end_ := {| date := None; dateTime := Some e |} |}.

(** The loop [while (fechaActual < fin) { ...push...; ...advance... }]
    over its two parts: [fechaStringOf], the string pushed for a valid
    date, and [advance], the new value of the date after the body; the
    loop is defined by recursion on [remaining], which [advance] must
    decrease as long as the guard holds.  Its state is the date
    [fechaActual] and the array [fechasOcupadas], and its result is the
    array when the loop ends.  The guard is false as soon as one of the
    dates is invalid, so the body runs on a valid date only. *)
Section WhileLoop.

Variable fechaStringOf : Z -> string.
Variable advance : Z -> Date.
Variable remaining : Date -> Date -> nat.
Hypothesis remaining_advance :
  forall t f, t < f -> (remaining (advance t) (Some f) < remaining (Some t) (Some f))%nat.

Equations whileLoop (fechaActual fin : Date) (fechasOcupadas : list string)
  : list string by wf (remaining fechaActual fin) lt :=
  whileLoop (Some t) (Some f) fechasOcupadas with Z_lt_dec t f => {
    | left _ =>
        whileLoop (advance t) (Some f) (fechasOcupadas ++ [fechaStringOf t])%list;
    | right _ => fechasOcupadas };
  whileLoop _ _ fechasOcupadas := fechasOcupadas.

End WhileLoop.

Section Disponibilidad.

Variable host : Host.

(** [new Date(v)] for a string or [undefined]. *)
Definition newDate (v : option string) : Date :=
  match v with
  | Some s => Date_parse host s
  | None => None
  end.

(** [fechaActual.toISOString().split('T')[0]]. *)
Definition fechaString (t : Z) : string := split_T_0 (toISOString t).

(** [fechaActual.setDate(fechaActual.getDate() + 1)]. *)
Definition nextFecha (t : Z) : Date :=
  setDate host (Some t) (addNum (getDate host (Some t)) (Some 1)).

(** The distance to [fin], in days, rounded up. *)
Definition gap (fechaActual fin : Date) : nat :=
  match fechaActual, fin with
  | Some t, Some f => Z.to_nat ((f - t + msPerDay - 1) / msPerDay)
  | _, _ => O
  end.

(** What is left of the walk: the distance to [fin], in half days,
    rounded up.  Every step takes at least one off it. *)
Definition halfDaysLeft (fechaActual fin : Date) : nat :=
  match fechaActual, fin with
  | Some t, Some f => Z.to_nat ((f - t + msPerHalfDay - 1) / msPerHalfDay)
  | _, _ => O
  end.

Lemma halfDaysLeft_nextFecha t f :
  t < f -> (halfDaysLeft (nextFecha t) (Some f) < halfDaysLeft (Some t) (Some f))%nat.
Proof.
  intros Hlt. unfold nextFecha.
  rewrite setDate_getDate_next.
  pose proof (nextDay_forward host t) as Fw.
  set (t' := UTC host (LocalTime host t + msPerDay)) in *. clearbody t'.
  assert (Hgap : 0 < (f - t + msPerHalfDay - 1) / msPerHalfDay)
    by (unfold msPerHalfDay; Z.to_euclidean_division_equations; lia).
  destruct (TimeClip t') as [u|] eqn:E; unfold halfDaysLeft.
  - apply TimeClip_Some in E. subst u.
    assert ((f - t' + msPerHalfDay - 1) / msPerHalfDay
            < (f - t + msPerHalfDay - 1) / msPerHalfDay)
      by (unfold msPerHalfDay in *; Z.to_euclidean_division_equations; lia).
    lia.
  - lia.
Qed.

(** The loop of the handler:
    [while (fechaActual < fin) {
       const fechaString = fechaActual.toISOString().split('T')[0];
       fechasOcupadas.push(fechaString);
       fechaActual.setDate(fechaActual.getDate() + 1); }]. *)
Definition walk (fechaActual fin : Date) (fechasOcupadas : list string)
  : list string :=
  whileLoop fechaString nextFecha halfDaysLeft halfDaysLeft_nextFecha
            fechaActual fin fechasOcupadas.

(** [new Date(evento.start.date || evento.start.dateTime)] and
    [new Date(evento.end.date || evento.end.dateTime)]. *)
Definition inicio (evento : Event) : Date :=
  newDate (or_else (date (start evento)) (dateTime (start evento))).

Definition fin (evento : Event) : Date :=
  newDate (or_else (date (end_ evento)) (dateTime (end_ evento))).

(** The body of [eventos.forEach(evento => ...)] for one event. *)
Definition forEvento (fechasOcupadas : list string) (evento : Event) : list string :=
  let fechaActual := inicio evento in
  walk fechaActual (fin evento) fechasOcupadas.

(** The array [fechasOcupadas] after the [forEach]. *)
Definition fechasOcupadas (eventos : list Event) : list string :=
  fold_left forEvento eventos [].

End Disponibilidad.

(** ** Set, in insertion order *)

(** [s.add(v)]: a value already in the set leaves it as it is, a new
    one comes last. *)
Definition Set_add (s : list string) (v : string) : list string :=
  if existsb (String.eqb v) s then s else (s ++ [v])%list.

(** [[...new Set(values)]]: the elements of the set built from
    [values], in the order of their insertion. *)
Definition Set_from (values : list string) : list string :=
  fold_left Set_add values [].

Definition fechasUnicas (host : Host) (eventos : list Event) : list string :=
  Set_from (fechasOcupadas host eventos).

(** * Part 5. Values, requests and responses *)

(** The values that a JSON body, an error property or a response can
    hold.  A number is an integer here, the number that [JSON.parse]
    reads from an integer numeral: the handlers only test a number for
    being zero, compare it with 403 and 404, and print it. *)
#[warnings="-register-all"]
Inductive JSValue : Type :=
| JUndefined
| JNull
| JBool (b : bool)
| JNumber (n : Z)
| JString (s : string)
| JArray (items : list JSValue)
| JObject (props : list (string * JSValue)).

(** [!v] is [negb (truthy v)]. *)
Definition truthy (v : JSValue) : bool :=
  match v with
  | JUndefined | JNull => false
  | JBool b => b
  | JNumber n => negb (n =? 0)
  | JString s => negb (String.eqb s "")
  | JArray _ | JObject _ => true
  end.

(** [v === n] for a number literal [n]. *)
Definition strictEqNumber (v : JSValue) (n : Z) : bool :=
  match v with
  | JNumber m => m =? n
  | _ => false
  end.

(** The largest safe integer, [2 ^ 53 - 1]: up to it every integer is
    a number of its own, printed with all its digits. *)
Definition MAX_SAFE_INTEGER : Z := 9007199254740991.

(** The string of a number: the decimal numeral of a safe integer;
    what the engine of the host prints for the number read from any
    other integer numeral (rounded to a double, and in exponent
    notation from [1e21]). *)
Definition NumberToString (host : Host) (n : Z) : string :=
  if Z.abs n <=? MAX_SAFE_INTEGER then NilZero.string_of_int (Z.to_int n)
  else numberString host n.

(** Whether an object read from JSON has a property [key] of its own. *)
Definition hasOwn (key : string) (props : list (string * JSValue)) : bool :=
  existsb (fun p => String.eqb (fst p) key) props.

(** The string that a template literal substitutes for [v], or [None]
    when the conversion throws a TypeError.  An array is joined with
    commas, [null] and [undefined] giving nothing.  An object is
    converted by its [toString]: the one of [Object.prototype], which
    gives ["[object Object]"], unless the object has a property
    [toString] of its own; a value read from JSON is no function, so
    this property cannot be called, and [valueOf], whether inherited or
    of its own, gives no primitive value either: the conversion
    throws. *)
Fixpoint ToString (host : Host) (v : JSValue) : option string :=
  match v with
  | JUndefined => Some "undefined"
  | JNull => Some "null"
  | JBool b => Some (if b then "true" else "false")
  | JNumber n => Some (NumberToString host n)
  | JString s => Some s
  | JArray items =>
      (fix join (l : list JSValue) : option string :=
         match l with
         | [] => Some ""
         | x :: r =>
             let* e := match x with
                       | JUndefined | JNull => Some ""
                       | _ => ToString host x
                       end in
             match r with
             | [] => Some e
             | _ :: _ => let* rest := join r in Some (e ++ "," ++ rest)
             end
         end) items
  | JObject props =>
      if hasOwn "toString" props then None else Some "[object Object]"
  end.

(** [a || b]. *)
Definition JS_or (a b : JSValue) : JSValue := if truthy a then a else b.

(** A thrown error, by the two properties that the handlers read. *)
Record JSError : Type := {
  error_message : JSValue;
  error_code : JSValue
}.

(** The TypeError of a conversion to a string that fails, with the
    message of the engine of Node. *)
Definition TypeError_not_primitive : JSError :=
  {| error_message := JString "Cannot convert object to primitive value";
     error_code := JUndefined |}.

(** The outcome of an awaited call. *)
Inductive Settled (A : Type) : Type :=
| Fulfilled (a : A)
| Rejected (error : JSError).
Arguments Fulfilled {A} a.
Arguments Rejected {A} error.

Record GoogleAuthOptions : Type := {
  keyFile : string;
  scopes : list string
}.

(** The client that [auth.getClient()] resolves to, a handle chosen by
    the library. *)
Definition AuthClient : Type := nat.

Record EventsListParams : Type := {
  list_auth : AuthClient;
  list_calendarId : string;
  timeMin : string;
  timeMax : string;
  singleEvents : bool;
  orderBy : string
}.

Record EventsInsertParams : Type := {
  insert_auth : AuthClient;
  insert_calendarId : string;
  resource : JSValue
}.

Record CalendarsGetParams : Type := {
  get_auth : AuthClient;
  get_calendarId : string
}.

(** [response.data] of [events.insert]. *)
Record InsertedEvent : Type := {
  id : JSValue;
  htmlLink : JSValue
}.

(** [response.data] of [calendars.get]. *)
Record CalendarResource : Type := {
  calendar_id : JSValue;
  calendar_summary : JSValue;
  calendar_timeZone : JSValue;
  accessRole : JSValue
}.

(** A result of [Math.random()]: the number [numerator / 2 ^ halvings],
    at least 0 and less than 1. *)
Record Random : Type := {
  numerator : Z;
  halvings : nat
}.

Definition Random_ok (x : Random) : Prop :=
  0 <= numerator x < 2 ^ Z.of_nat (halvings x).

(** A handler: the calls that it makes, each with what it does on every
    answer, down to the response that it sends. *)
Inductive Handler : Type :=
| Respond (status : Z) (body : JSValue)
| GetClient (auth : GoogleAuthOptions) (k : Settled AuthClient -> Handler)
| EventsList (params : EventsListParams) (k : Settled (list Event) -> Handler)
| EventsInsert (params : EventsInsertParams) (k : Settled InsertedEvent -> Handler)
| CalendarsGet (params : CalendarsGetParams) (k : Settled CalendarResource -> Handler)
| NewDate (k : Z -> Handler)
| DateNow (k : Z -> Handler)
| MathRandom (k : Random -> Handler).

(** One call of a handler together with its answer. *)
Inductive Call : Type :=
| CallGetClient (auth : GoogleAuthOptions) (answer : Settled AuthClient)
| CallEventsList (params : EventsListParams) (answer : Settled (list Event))
| CallEventsInsert (params : EventsInsertParams) (answer : Settled InsertedEvent)
| CallCalendarsGet (params : CalendarsGetParams) (answer : Settled CalendarResource)
| CallNewDate (now : Z)
| CallDateNow (now : Z)
| CallMathRandom (x : Random).

(** [runs h calls status body]: handler [h] can make exactly the calls
    [calls], with these answers, and then respond with [status] and
    [body].  The clock and the library may answer anything; the random
    generator answers with a number in its range. *)
Inductive runs : Handler -> list Call -> Z -> JSValue -> Prop :=
| runs_Respond status body :
    runs (Respond status body) [] status body
| runs_GetClient auth k answer calls status body :
    runs (k answer) calls status body ->
    runs (GetClient auth k) (CallGetClient auth answer :: calls) status body
| runs_EventsList params k answer calls status body :
    runs (k answer) calls status body ->
    runs (EventsList params k) (CallEventsList params answer :: calls) status body
| runs_EventsInsert params k answer calls status body :
    runs (k answer) calls status body ->
    runs (EventsInsert params k) (CallEventsInsert params answer :: calls) status body
| runs_CalendarsGet params k answer calls status body :
    runs (k answer) calls status body ->
    runs (CalendarsGet params k) (CallCalendarsGet params answer :: calls) status body
| runs_NewDate k now calls status body :
    runs (k now) calls status body ->
    runs (NewDate k) (CallNewDate now :: calls) status body
| runs_DateNow k now calls status body :
    runs (k now) calls status body ->
    runs (DateNow k) (CallDateNow now :: calls) status body
| runs_MathRandom k x calls status body :
    Random_ok x ->
    runs (k x) calls status body ->
    runs (MathRandom k) (CallMathRandom x :: calls) status body.

Definition isInsert (c : Call) : bool :=
  match c with
  | CallEventsInsert _ _ => true
  | _ => false
  end.

Definition CALENDAR_ID : string :=
  "33f2b860648ddfba6f555ad436e9546153c69c1391de0143aad37415e76bc6a8@group.calendar.google.com".

(** * Part 6. The reservation code *)

(** Digit [d] (0 to 35) in radix 36: ["0"] to ["9"], then ["a"] to
    ["z"]. *)
Definition digit36 (d : Z) : ascii :=
  if d <? 10 then digitChar d else ascii_of_nat (87 + Z.to_nat d).

(** The digits of [n / den] after the point in radix 36, until nothing
    is left. *)
Fixpoint fractionDigits (fuel : nat) (n den : Z) : string :=
  match fuel with
  | O => ""
  | S fuel' =>
      if n =? 0 then ""
      else String (digit36 (n * 36 / den)) (fractionDigits fuel' (n * 36 mod den) den)
  end.

(** [x.toString(36)] for a result [x] of [Math.random()]: ["0"] for
    zero; for a multiple of [2 ^ -12], ["0."] and the digits of [x] in
    radix 36, at most six, which the engine computes without rounding
    (one half is ["0.i"]); for any other result, with a longer
    expansion, the numeral of the engine of the host, which stops at
    the digits that identify the number. *)
Definition toString36 (host : Host) (x : Random) : string :=
  if numerator x =? 0 then "0"
  else if (halvings x <=? 12)%nat then
    "0." ++ fractionDigits (halvings x) (numerator x) (2 ^ Z.of_nat (halvings x))
  else radix36 host (numerator x) (halvings x).

Definition upperChar (c : ascii) : ascii :=
  let n := nat_of_ascii c in
  if (97 <=? n)%nat && (n <=? 122)%nat then ascii_of_nat (n - 32) else c.

(** [s.toUpperCase()], on the characters of a radix-36 numeral. *)
Fixpoint toUpperCase (s : string) : string :=
  match s with
  | EmptyString => EmptyString
  | String c s' => String (upperChar c) (toUpperCase s')
  end.

(** [`CB-${new Date().getFullYear()}-${Math.random().toString(36).substr(2, 6).toUpperCase()}`]
    from the full year of the clock and the result of [Math.random()]. *)
Definition reservationCodeOf (host : Host) (fullYear : Z) (x : Random) : string :=
  "CB-" ++ NumberToString host fullYear ++ "-"
  ++ toUpperCase (substring 2 6 (toString36 host x)).

(** * Part 7. The handlers *)

Definition nl : string := String (ascii_of_nat 10) EmptyString.

Section Handlers.

Variable host : Host.

(** [d.getFullYear()] on a valid date. *)
Definition getFullYear (t : Z) : Z := YearFromTime (LocalTime host t).

(** ** GET /disponibilidad *)

Definition disponibilidad_catch (error : JSError) : Handler :=
  Respond 500 (JObject [
    ("success", JBool false);
    ("error", error_message error);
    ("message", JString "Error al obtener la disponibilidad del calendario")]).

(** The RangeError of [toISOString] on an invalid date. *)
Definition RangeError_invalid_time : JSError :=
  {| error_message := JString "Invalid time value"; error_code := JUndefined |}.

Definition disponibilidad : Handler :=
  let auth := {| keyFile := "./service-account-key.json";
                 scopes := ["https://www.googleapis.com/auth/calendar"] |} in
  GetClient auth (fun settled =>
  match settled with
  | Rejected error => disponibilidad_catch error
  | Fulfilled authClient =>
  NewDate (fun now =>
  let timeMin := toISOString now in
  DateNow (fun now' =>
  match TimeClip (now' + 90 * 24 * 60 * 60 * 1000) with
  | None => disponibilidad_catch RangeError_invalid_time
  | Some later =>
  let timeMax := toISOString later in
  EventsList {| list_auth := authClient;
                list_calendarId := CALENDAR_ID;
                timeMin := timeMin;
                timeMax := timeMax;
                singleEvents := true;
                orderBy := "startTime" |} (fun settled =>
  match settled with
  | Rejected error => disponibilidad_catch error
  | Fulfilled eventos =>
      Respond 200 (JObject [
        ("success", JBool true);
        ("fechasOcupadas", JArray (map JString (fechasUnicas host eventos)));
        ("totalEventos", JNumber (Z.of_nat (List.length eventos)));
        ("calendarId", JString CALENDAR_ID)])
  end)
  end))
  end).

(** ** POST /agendar *)

(** [req.body] after [const { checkInDate, ... } = req.body]; a
    property that the body does not have is [JUndefined]. *)
Record ReqBody : Type := {
  checkInDate : JSValue;
  checkOutDate : JSValue;
  name : JSValue;
  email : JSValue;
  phone : JSValue;
  guests : JSValue;
  message : JSValue
}.

(** The condition of the [if] under [// Validaciones]. *)
Definition faltanCampos (b : ReqBody) : bool :=
  negb (truthy (checkInDate b)) || negb (truthy (checkOutDate b))
  || negb (truthy (name b)) || negb (truthy (email b))
  || negb (truthy (phone b)) || negb (truthy (guests b)).

(** [const event = { ... }]: the object, or [None] when one of the
    template literals throws a TypeError; the fields are converted in
    the order of the source. *)
Definition event (b : ReqBody) : option JSValue :=
  let* summaryName := ToString host (name b) in
  let* nombre := ToString host (name b) in
  let* correo := ToString host (email b) in
  let* telefono := ToString host (phone b) in
  let* huespedes := ToString host (guests b) in
  let* checkIn := ToString host (checkInDate b) in
  let* checkOut := ToString host (checkOutDate b) in
  let* mensaje := ToString host (JS_or (message b) (JString "No especificado")) in
  Some (JObject [
    ("summary", JString ("🏡 Reserva Cabaña: " ++ summaryName));
    ("description", JString (
       nl ++ "Reserva de Cabaña - Sistema Automático"
       ++ nl ++ "--------------------------------------"
       ++ nl ++ "👤 Nombre: " ++ nombre
       ++ nl ++ "📧 Email: " ++ correo
       ++ nl ++ "📞 Teléfono: " ++ telefono
       ++ nl ++ "👥 Huéspedes: " ++ huespedes ++ " personas"
       ++ nl ++ "📅 Check-in: " ++ checkIn
       ++ nl ++ "📅 Check-out: " ++ checkOut
       ++ nl ++ "💬 Mensaje: " ++ mensaje
       ++ nl
       ++ nl ++ "Estado: Confirmada ✅"
       ++ nl ++ "      "));
    ("start", JObject [("date", checkInDate b);
                       ("timeZone", JString "America/Santiago")]);
    ("end", JObject [("date", checkOutDate b);
                     ("timeZone", JString "America/Santiago")]);
    ("colorId", JString "2")]).

(** The [catch] of the handler. *)
Definition agendar_catch (error : JSError) : Handler :=
  let errorMessage :=
    if strictEqNumber (error_code error) 403 then
      "Error de permisos. Verifica que el Service Account tenga acceso al calendario."
    else if strictEqNumber (error_code error) 404 then
      "Calendario no encontrado. Verifica el Calendar ID."
    else "Error al crear la reserva en el calendario" in
  Respond 500 (JObject [
    ("success", JBool false);
    ("error", error_message error);
    ("message", JString errorMessage);
    ("details", JObject [("code", error_code error);
                         ("calendarId", JString CALENDAR_ID)])]).

Definition agendar (b : ReqBody) : Handler :=
  if faltanCampos b then
    Respond 400 (JObject [
      ("success", JBool false);
      ("message", JString "Faltan campos requeridos")])
  else
  let auth := {| keyFile := "./service-account-key.json";
                 scopes := ["https://www.googleapis.com/auth/calendar.readonly";
                            "https://www.googleapis.com/auth/calendar.events"] |} in
  GetClient auth (fun settled =>
  match settled with
  | Rejected error => agendar_catch error
  | Fulfilled authClient =>
  match event b with
  | None => agendar_catch TypeError_not_primitive
  | Some event =>
  EventsInsert {| insert_auth := authClient;
                  insert_calendarId := CALENDAR_ID;
                  resource := event |} (fun settled =>
  match settled with
  | Rejected error => agendar_catch error
  | Fulfilled data =>
  NewDate (fun now =>
  MathRandom (fun x =>
  let reservationCode := reservationCodeOf host (getFullYear now) x in
  Respond 200 (JObject [
    ("success", JBool true);
    ("eventId", id data);
    ("reservationCode", JString reservationCode);
    ("message", JString "Reserva creada exitosamente en Google Calendar");
    ("eventLink", htmlLink data)])))
  end)
  end
  end).

(** ** GET /test-calendar *)

Definition test_calendar : Handler :=
  let auth := {| keyFile := "./service-account-key.json";
                 scopes := ["https://www.googleapis.com/auth/calendar.readonly"] |} in
  GetClient auth (fun settled =>
  match settled with
  | Rejected error =>
      Respond 500 (JObject [
        ("success", JBool false);
        ("error", error_message error);
        ("message", JString "Error accediendo al calendario")])
  | Fulfilled authClient =>
  CalendarsGet {| get_auth := authClient; get_calendarId := CALENDAR_ID |} (fun settled =>
  match settled with
  | Rejected error =>
      Respond 500 (JObject [
        ("success", JBool false);
        ("error", error_message error);
        ("message", JString "Error accediendo al calendario")])
  | Fulfilled data =>
      Respond 200 (JObject [
        ("success", JBool true);
        ("calendar", JObject [
           ("id", calendar_id data);
           ("summary", calendar_summary data);
           ("timeZone", calendar_timeZone data);
           ("access", accessRole data)])])
  end)
  end).

End Handlers.

(** ** GET / and GET /health *)

Definition root : Handler :=
  NewDate (fun now =>
  Respond 200 (JObject [
    ("status", JString "OK");
    ("message", JString "Backend de reservas funcionando");
    ("timestamp", JString (toISOString now));
    ("endpoints", JObject [
       ("disponibilidad", JString "GET /disponibilidad");
       ("agendar", JString "POST /agendar")])])).

Definition health : Handler :=
  NewDate (fun now =>
  Respond 200 (JObject [
    ("status", JString "healthy");
    ("service", JString "reservas-backend");
    ("timestamp", JString (toISOString now))])).

(** ** The error handler and the route for every other path *)

Definition errorGlobal (error : JSError) : Handler :=
  Respond 500 (JObject [
    ("success", JBool false);
    ("message", JString "Error interno del servidor");
    ("error", error_message error)]).

Definition notFound : Handler :=
  Respond 404 (JObject [
    ("success", JBool false);
    ("message", JString "Ruta no encontrada")]).


(** * Part 8. Notions used in the statements *)

(** ** Calendar dates *)

Record CalendarDate : Type := {
  year : Z;
  month : Z;
  day : Z
}.

(** A date of the calendar with a year of four digits. *)
Definition validDate (c : CalendarDate) : bool :=
  (0 <=? year c) && (year c <=? 9999)
  && (1 <=? month c) && (month c <=? 12)
  && (1 <=? day c) && (day c <=? DaysInMonth (year c) (month c)).

(** The number of the day of a date, counted from the epoch, and the
    date of a day. *)
Definition dayNumber (c : CalendarDate) : Z :=
  MakeDay (year c) (month c - 1) (day c).

Definition dateOfDay (n : Z) : CalendarDate :=
  let t := n * msPerDay in
  {| year := YearFromTime t; month := MonthFromTime t + 1; day := DateFromTime t |}.

(** ["YYYY-MM-DD"]. *)
Definition iso (c : CalendarDate) : string :=
  isoDate (year c) (month c) (day c).

(** The days from [a] up to but not including [b]. *)
Definition daysFromTo (a b : Z) : list Z :=
  map (fun k => a + Z.of_nat k) (seq 0 (Z.to_nat (b - a))).

(** The instants that the walk visits from [t]: [t], [t] + 1 day, ...,
    [n] of them. *)
Definition visited (t : Z) (n : nat) : list Z :=
  map (fun k => t + Z.of_nat k * msPerDay) (seq 0 n).

(** The least number of whole days that lead from [t] to [f] or beyond
    it; none when [t] is not before [f]. *)
Definition daysToReach (t f : Z) : Z :=
  Z.max 0 ((f - t + msPerDay - 1) / msPerDay).

(** The calendar date component ["YYYY-MM-DD"] of a date-time string. *)
Definition dateComponent (s : string) : string := substring 0 10 s.

(** The event whose date-time start is cut to its calendar date
    component: what the walk would start from if it truncated the start
    before walking. *)
Definition startTruncated (ev : Event) : Event :=
  match dateTime (start ev) with
  | Some s => {| start := {| date := Some (dateComponent s); dateTime := None |};
                 end_ := end_ ev |}
  | None => ev
  end.

(** ** Sequences and their first occurrences *)

(** A sequence with the later occurrences of each of its elements
    removed: the head stays where it is, and its other occurrences are
    removed from what follows.  This is the description of the result,
    to be compared with [Set_from]. *)
Fixpoint keepFirst (l : list string) : list string :=
  match l with
  | [] => []
  | x :: r => x :: remove string_dec x (keepFirst r)
  end.

(** The same by positions: the elements of [l] at the positions where
    they do not occur earlier in [l], after a prefix [seen] of elements
    already met. *)
Definition firstOccurrencesAfter (seen l : list string) : list string :=
  flat_map (fun i => match nth_error l i with
                     | Some x =>
                         if existsb (String.eqb x) (seen ++ firstn i l)%list
                         then [] else [x]
                     | None => []
                     end)
           (seq 0 (List.length l)).

Definition firstOccurrences (l : list string) : list string :=
  firstOccurrencesAfter [] l.

(** The elements of [l] that are not in [s]. *)
Definition notIn (s l : list string) : list string :=
  filter (fun y => negb (existsb (String.eqb y) s)) l.

(** ** Characters *)

Fixpoint noT (s : string) : bool :=
  match s with
  | EmptyString => true
  | String c s' => negb (Ascii.eqb c "T") && noT s'
  end.

Definition isDigit (c : ascii) : bool :=
  let n := nat_of_ascii c in (48 <=? n)%nat && (n <=? 57)%nat.

Definition isUpperAlnum (c : ascii) : bool :=
  let n := nat_of_ascii c in
  ((48 <=? n)%nat && (n <=? 57)%nat) || ((65 <=? n)%nat && (n <=? 90)%nat).

Definition allUpperAlnum (s : string) : bool :=
  forallb isUpperAlnum (list_ascii_of_string s).

(** A digit of radix 36: ["0"] to ["9"] or ["a"] to ["z"]. *)
Definition isDigit36 (c : ascii) : bool :=
  let n := nat_of_ascii c in
  ((48 <=? n)%nat && (n <=? 57)%nat) || ((97 <=? n)%nat && (n <=? 122)%nat).

(** A numeral in radix 36 of a number from 0 to 1: ["0"], ["1"], or
    ["0."] followed by digits. *)
Definition radix36Numeral (s : string) : bool :=
  match s with
  | String "0" (String "." digits) => forallb isDigit36 (list_ascii_of_string digits)
  | _ => String.eqb s "0" || String.eqb s "1"
  end.

(** [CB-<4 digits>-<6 digits or capital letters>]. *)
Definition matchesCodePattern (s : string) : bool :=
  (String.length s =? 14)%nat
  && String.eqb (substring 0 3 s) "CB-"
  && forallb isDigit (list_ascii_of_string (substring 3 4 s))
  && String.eqb (substring 7 1 s) "-"
  && allUpperAlnum (substring 8 6 s).

(** ** Requests and answers *)

(** The six values that the validation tests. *)
Definition requiredFields (b : ReqBody) : list JSValue :=
  [checkInDate b; checkOutDate b; name b; email b; phone b; guests b].

(** A property that is absent ([undefined] or [null]) or empty (the
    empty string). *)
Definition absentOrEmpty (v : JSValue) : bool :=
  match v with
  | JUndefined | JNull => true
  | JString s => String.eqb s ""
  | _ => false
  end.

(** The values that [!v] takes for missing. *)
Definition falsy (v : JSValue) : Prop :=
  v = JUndefined \/ v = JNull \/ v = JBool false \/ v = JNumber 0 \/ v = JString "".

(** The body of the response to a request with a missing field. *)
Definition faltanCamposResponse : JSValue :=
  JObject [("success", JBool false); ("message", JString "Faltan campos requeridos")].

(** The options of the credential of [POST /agendar]. *)
Definition agendarAuth : GoogleAuthOptions :=
  {| keyFile := "./service-account-key.json";
     scopes := ["https://www.googleapis.com/auth/calendar.readonly";
                "https://www.googleapis.com/auth/calendar.events"] |}.

(** A request with every field in order. *)
Definition reservaCompleta : ReqBody :=
  {| checkInDate := JString "2024-06-01";
     checkOutDate := JString "2024-06-04";
     name := JString "Ana";
     email := JString "ana@example.com";
     phone := JString "+56 9 1234 5678";
     guests := JNumber 2;
     message := JUndefined |}.

(** A request with every field present and not empty, for no guest. *)
Definition reservaSinHuespedes : ReqBody :=
  {| checkInDate := JString "2024-06-01";
     checkOutDate := JString "2024-06-04";
     name := JString "Ana";
     email := JString "ana@example.com";
     phone := JString "+56 9 1234 5678";
     guests := JNumber 0;
     message := JUndefined |}.

(** A request whose name is an object with a property [toString]. *)
Definition reservaNombreObjeto : ReqBody :=
  {| checkInDate := JString "2024-06-01";
     checkOutDate := JString "2024-06-04";
     name := JObject [("toString", JNumber 1)];
     email := JString "ana@example.com";
     phone := JString "+56 9 1234 5678";
     guests := JNumber 2;
     message := JUndefined |}.

(** The event of a request from which it can be built. *)
Definition built (o : option JSValue) : JSValue :=
  match o with
  | Some resource => resource
  | None => JUndefined
  end.

(** A request that leaves before it arrives, for a negative number of
    guests. *)
Definition reservaInvertida : ReqBody :=
  {| checkInDate := JString "2024-06-04";
     checkOutDate := JString "2024-06-01";
     name := JString "Ana";
     email := JString "ana@example.com";
     phone := JString "+56 9 1234 5678";
     guests := JNumber (-5);
     message := JUndefined |}.

(** The error of the calendar service when the service account may not
    write to the calendar. *)
Definition forbidden : JSError :=
  {| error_message := JString "The caller does not have permission";
     error_code := JNumber 403 |}.

(** The [response.data] of an insert that went through. *)
Definition insertado : InsertedEvent :=
  {| id := JString "evt1"; htmlLink := JString "https://calendar.example/evt1" |}.

(** One half, a possible result of [Math.random()]. *)
Definition oneHalf : Random := {| numerator := 1; halvings := 1 |}.

(** ** Scopes *)

(** Whether a scope of the calendar service lets the holder change
    events or calendars: [calendar] gives full access, [calendar.events]
    lets events be read and written, [calendar.readonly] only lets
    calendars and events be read. *)
Definition scopeAllowsWrite (scope : string) : bool :=
  String.eqb scope "https://www.googleapis.com/auth/calendar"
  || String.eqb scope "https://www.googleapis.com/auth/calendar.events".

(** The scopes with which a handler asks for its credential. *)
Definition credentialScopes (h : Handler) : list string :=
  match h with
  | GetClient auth _ => scopes auth
  | _ => []
  end.

(** A call that changes the calendar. *)
Definition isWrite (c : Call) : bool := isInsert c.

(** ** Notions used for the whole of the code *)

(** ** The days of an event *)

(** The string pushed for day [n]. *)
Definition dayString (n : Z) : string := iso (dateOfDay n).

(** The days whose dates an event pushes: from the day in UTC of its
    start, as many days as lead from the start to the end; none when
    the start or the end is not a date. *)
Definition eventDays (host : Host) (ev : Event) : list Z :=
  match inicio host ev, fin host ev with
  | Some t, Some f => daysFromTo (Day t) (Day t + daysToReach t f)
  | _, _ => []
  end.

(** [a] starts no later than [b]; an event whose start is not a date is
    not compared. *)
Definition startsNoLater (host : Host) (a b : Event) : Prop :=
  match inicio host a, inicio host b with
  | Some x, Some y => x <= y
  | _, _ => True
  end.

(** An instant of a year from 0 to 9999. *)
Definition inFourDigitYears (t : Z) : Prop := 0 <= YearFromTime t <= 9999.

(** An event with neither [date] nor [dateTime] in its start. *)
Definition sinInicio : Event :=
  {| start := {| date := None; dateTime := None |};
     end_ := {| date := Some "2024-06-04"; dateTime := None |} |}.

(** ** Properties of values *)

(** [v.key]: the property [key] of an object, [undefined] when the
    object has none.  The objects of the handlers are object literals
    with distinct keys. *)
Definition prop (key : string) (v : JSValue) : JSValue :=
  match v with
  | JObject props =>
      match find (fun p => String.eqb (fst p) key) props with
      | Some p => snd p
      | None => JUndefined
      end
  | _ => JUndefined
  end.

(** The string of a property that holds one. *)
Definition asString (v : JSValue) : option string :=
  match v with
  | JString s => Some s
  | _ => None
  end.

(** The event that the calendar lists for a resource that it stored as
    it was sent: its [start] and [end] with the strings of the
    resource. *)
Definition storedEvent (resource : JSValue) : Event :=
  {| start := {| date := asString (prop "date" (prop "start" resource));
                 dateTime := asString (prop "dateTime" (prop "start" resource)) |};
     end_ := {| date := asString (prop "date" (prop "end" resource));
                dateTime := asString (prop "dateTime" (prop "end" resource)) |} |}.

(** ** The answers of [GET /disponibilidad] *)

Definition disponibilidadAuth : GoogleAuthOptions :=
  {| keyFile := "./service-account-key.json";
     scopes := ["https://www.googleapis.com/auth/calendar"] |}.

(** 90 days, in milliseconds. *)
Definition ninetyDays : Z := 90 * 24 * 60 * 60 * 1000.

Definition disponibilidadError (error : JSError) : JSValue :=
  JObject [
    ("success", JBool false);
    ("error", error_message error);
    ("message", JString "Error al obtener la disponibilidad del calendario")].

Definition testCalendarAuth : GoogleAuthOptions :=
  {| keyFile := "./service-account-key.json";
     scopes := ["https://www.googleapis.com/auth/calendar.readonly"] |}.

Definition testCalendarError (error : JSError) : JSValue :=
  JObject [
    ("success", JBool false);
    ("error", error_message error);
    ("message", JString "Error accediendo al calendario")].

(** A call to the calendar service or for its credential. *)
Definition isCalendarCall (c : Call) : bool :=
  match c with
  | CallGetClient _ _ | CallEventsList _ _ | CallEventsInsert _ _
  | CallCalendarsGet _ _ => true
  | _ => false
  end.

(** The error of a call that was rejected. *)
Definition rejection (c : Call) : option JSError :=
  match c with
  | CallGetClient _ (Rejected error) | CallEventsList _ (Rejected error)
  | CallEventsInsert _ (Rejected error) | CallCalendarsGet _ (Rejected error) =>
      Some error
  | _ => None
  end.

Definition isList (c : Call) : bool :=
  match c with
  | CallEventsList _ _ => true
  | _ => false
  end.

(** ** The answers of [POST /agendar] *)

(** The body that the [catch] of [POST /agendar] sends for [error]. *)
Definition agendarError (error : JSError) : JSValue :=
  JObject [
    ("success", JBool false);
    ("error", error_message error);
    ("message", JString (
       if strictEqNumber (error_code error) 403 then
         "Error de permisos. Verifica que el Service Account tenga acceso al calendario."
       else if strictEqNumber (error_code error) 404 then
         "Calendario no encontrado. Verifica el Calendar ID."
       else "Error al crear la reserva en el calendario"));
    ("details", JObject [("code", error_code error);
                         ("calendarId", JString CALENDAR_ID)])].

(** A call that reads the calendar. *)
Definition isRead (c : Call) : bool :=
  match c with
  | CallEventsList _ _ | CallCalendarsGet _ _ => true
  | _ => false
  end.

(** The numeral that starts with the digit [k]. *)
Definition digitUint (k : Z) (rest : Decimal.uint) : Decimal.uint :=
  match k with
  | 0 => Decimal.D0 rest
  | 1 => Decimal.D1 rest
  | 2 => Decimal.D2 rest
  | 3 => Decimal.D3 rest
  | 4 => Decimal.D4 rest
  | 5 => Decimal.D5 rest
  | 6 => Decimal.D6 rest
  | 7 => Decimal.D7 rest
  | 8 => Decimal.D8 rest
  | _ => Decimal.D9 rest
  end.

(** * Part 9. The walk of one event *)

Section WalkFacts.

Variable host : Host.

Lemma walk_Some t f acc :
  walk host (Some t) (Some f) acc
  = if t <? f
    then walk host (nextFecha host t) (Some f) (acc ++ [fechaString t])
    else acc.
Proof.
  unfold walk. simp whileLoop.
  destruct (Z_lt_dec t f) as [Hlt|Hge]; destruct (Z.ltb_spec t f); try lia; reflexivity.
Qed.

Lemma walk_NaN_l fin acc : walk host None fin acc = acc.
Proof. unfold walk. simp whileLoop. reflexivity. Qed.

Lemma walk_NaN_r fechaActual acc : walk host fechaActual None acc = acc.
Proof. unfold walk. destruct fechaActual; simp whileLoop; reflexivity. Qed.

(** The guard fails at once: nothing is pushed. *)
Lemma walk_not_lt fechaActual fin acc :
  Date_lt fechaActual fin = false -> walk host fechaActual fin acc = acc.
Proof.
  destruct fechaActual as [t|], fin as [f|]; simpl; intros H;
    rewrite ?walk_NaN_l, ?walk_NaN_r; try reflexivity.
  rewrite walk_Some, H. reflexivity.
Qed.

Lemma visited_S t n : visited t (S n) = t :: visited (t + msPerDay) n.
Proof.
  unfold visited. simpl. f_equal; [lia|].
  rewrite <- seq_shift, map_map. apply map_ext. intros k. lia.
Qed.

Lemma gap_le t f : f <= t -> gap (Some t) (Some f) = O.
Proof.
  intros H. unfold gap, msPerDay.
  assert ((f - t + 86400000 - 1) / 86400000 <= 0)
    by (Z.to_euclidean_division_equations; lia).
  lia.
Qed.

Lemma gap_lt t f :
  t < f -> gap (Some t) (Some f) = S (gap (Some (t + msPerDay)) (Some f)).
Proof.
  intros H. unfold gap, msPerDay.
  rewrite <- Z2Nat.inj_succ by (Z.to_euclidean_division_equations; lia).
  f_equal. Z.to_euclidean_division_equations; lia.
Qed.

(** ** On every host *)

Lemma nextFecha_step t :
  nextFecha host t = TimeClip (UTC host (LocalTime host t + msPerDay)).
Proof. unfold nextFecha. apply setDate_getDate_next. Qed.

(** A step moves forward, by 12 hours or more. *)
Lemma nextFecha_forward t u :
  nextFecha host t = Some u -> t + msPerHalfDay <= u.
Proof.
  rewrite nextFecha_step. intros E. apply TimeClip_Some in E. subst u.
  apply nextDay_forward.
Qed.

(** What the walk pushes does not depend on the array that it pushes
    to. *)
Lemma walk_acc fechaActual fin acc :
  walk host fechaActual fin acc = (acc ++ walk host fechaActual fin [])%list.
Proof.
  destruct fechaActual as [t|]; [|rewrite !walk_NaN_l, app_nil_r; reflexivity].
  destruct fin as [f|]; [|rewrite !walk_NaN_r, app_nil_r; reflexivity].
  remember (halfDaysLeft (Some t) (Some f)) as n eqn:Hn.
  assert (halfDaysLeft (Some t) (Some f) <= n)%nat as Hle by lia. clear Hn.
  revert t acc Hle. induction n as [|n IH]; intros t acc Hle.
  - rewrite !walk_Some. destruct (Z.ltb_spec t f) as [Hlt|Hge];
      [|rewrite app_nil_r; reflexivity].
    pose proof (halfDaysLeft_nextFecha host t f Hlt). lia.
  - rewrite !walk_Some. destruct (Z.ltb_spec t f) as [Hlt|Hge];
      [|rewrite app_nil_r; reflexivity].
    pose proof (halfDaysLeft_nextFecha host t f Hlt) as Hdec.
    destruct (nextFecha host t) as [u|].
    + rewrite (IH u (acc ++ [fechaString t])%list), (IH u ([] ++ [fechaString t])%list)
        by lia.
      rewrite <- !app_assoc. reflexivity.
    + rewrite !walk_NaN_l. reflexivity.
Qed.

(** Every string pushed is the date of an instant from the start on and
    strictly before the end. *)
Lemma walk_instants t f x :
  In x (walk host (Some t) (Some f) []) ->
  exists u, t <= u < f /\ x = fechaString u.
Proof.
  remember (halfDaysLeft (Some t) (Some f)) as n eqn:Hn.
  assert (halfDaysLeft (Some t) (Some f) <= n)%nat as Hle by lia. clear Hn.
  revert t Hle. induction n as [|n IH]; intros t Hle.
  - rewrite walk_Some. destruct (Z.ltb_spec t f) as [Hlt|Hge]; [|intros []].
    pose proof (halfDaysLeft_nextFecha host t f Hlt). lia.
  - rewrite walk_Some. destruct (Z.ltb_spec t f) as [Hlt|Hge]; [|intros []].
    pose proof (halfDaysLeft_nextFecha host t f Hlt) as Hdec.
    rewrite walk_acc. cbn [app]. intros [<-|Hin].
    + exists t. split; [lia|reflexivity].
    + destruct (nextFecha host t) as [u|] eqn:E;
        [|rewrite walk_NaN_l in Hin; destruct Hin].
      apply nextFecha_forward in E.
      destruct (IH u ltac:(lia) Hin) as (v & Hv & ->).
      exists v. split; [unfold msPerHalfDay in *; lia|reflexivity].
Qed.


(** ** On a host with a fixed offset *)

Hypothesis fixed : fixedOffset host.

Lemma nextFecha_fixed t : nextFecha host t = TimeClip (t + msPerDay).
Proof. rewrite nextFecha_step, nextDay_fixed by exact fixed. reflexivity. Qed.

(** The walk pushes the date string of every instant [t], [t] + 1 day,
    ... that lies strictly before [fin], in this order. *)
Lemma walk_visited t f acc :
  - maxTime <= t -> f <= maxTime ->
  walk host (Some t) (Some f) acc
  = (acc ++ map fechaString (visited t (gap (Some t) (Some f))))%list.
Proof.
  remember (gap (Some t) (Some f)) as n eqn:Hn.
  revert t acc Hn. induction n as [|n IH]; intros t acc Hn Ht Hf.
  - rewrite walk_Some.
    destruct (Z.ltb_spec t f) as [Hlt|Hge].
    + rewrite gap_lt in Hn by assumption. discriminate.
    + unfold visited. simpl. rewrite app_nil_r. reflexivity.
  - rewrite walk_Some.
    destruct (Z.ltb_spec t f) as [Hlt|Hge].
    2:{ rewrite gap_le in Hn by assumption. discriminate. }
    rewrite gap_lt in Hn by assumption. injection Hn as Hn.
    rewrite visited_S. rewrite nextFecha_fixed.
    unfold TimeClip.
    destruct (Z.gtb_spec (Z.abs (t + msPerDay)) maxTime) as [Hbig|Hok].
    + rewrite walk_NaN_l.
      assert (n = O) as ->
        by (rewrite Hn; apply gap_le; unfold msPerDay, maxTime in *; lia).
      unfold visited. simpl. reflexivity.
    + rewrite IH by (try assumption; unfold msPerDay, maxTime in *; lia).
      rewrite <- app_assoc. reflexivity.
Qed.

End WalkFacts.

(** * Part 10. Calendar dates and their strings *)

(** ** Digits *)

Lemma digitVal_digitChar d : 0 <= d <= 9 -> digitVal (digitChar d) = Some d.
Proof.
  intros H.
  assert (d = 0 \/ d = 1 \/ d = 2 \/ d = 3 \/ d = 4 \/ d = 5 \/ d = 6
          \/ d = 7 \/ d = 8 \/ d = 9) as Hd by lia.
  repeat (destruct Hd as [->|Hd]; [reflexivity|]). subst d. reflexivity.
Qed.

Lemma digitChar_not_T d : 0 <= d <= 9 -> Ascii.eqb (digitChar d) "T" = false.
Proof.
  intros H.
  assert (d = 0 \/ d = 1 \/ d = 2 \/ d = 3 \/ d = 4 \/ d = 5 \/ d = 6
          \/ d = 7 \/ d = 8 \/ d = 9) as Hd by lia.
  repeat (destruct Hd as [->|Hd]; [reflexivity|]). subst d. reflexivity.
Qed.

Lemma readDigits_S k d s :
  0 <= d <= 9 ->
  readDigits (S k) (String (digitChar d) s)
  = match readDigits k s with
    | Some (v, r) => Some (d * 10 ^ Z.of_nat k + v, r)
    | None => None
    end.
Proof.
  intros H. cbn [readDigits]. rewrite digitVal_digitChar by assumption. reflexivity.
Qed.

Lemma mod10_range n : 0 <= n mod 10 <= 9.
Proof. pose proof (Z.mod_pos_bound n 10). lia. Qed.

Lemma readDigits_pad2 n rest :
  0 <= n <= 99 -> readDigits 2 (padDigits 2 n ++ rest) = Some (n, rest).
Proof.
  intros H.
  change (padDigits 2 n ++ rest)
    with (String (digitChar (n / 10 mod 10)) (String (digitChar (n / 1 mod 10)) rest)).
  rewrite !readDigits_S by apply mod10_range.
  cbn [readDigits]. do 2 f_equal.
  change (10 ^ Z.of_nat 1) with 10. change (10 ^ Z.of_nat 0) with 1.
  Z.to_euclidean_division_equations; lia.
Qed.

Lemma readDigits_pad4 n rest :
  0 <= n <= 9999 -> readDigits 4 (padDigits 4 n ++ rest) = Some (n, rest).
Proof.
  intros H.
  change (padDigits 4 n ++ rest)
    with (String (digitChar (n / 1000 mod 10)) (String (digitChar (n / 100 mod 10))
         (String (digitChar (n / 10 mod 10)) (String (digitChar (n / 1 mod 10)) rest)))).
  rewrite !readDigits_S by apply mod10_range.
  cbn [readDigits]. do 2 f_equal.
  change (10 ^ Z.of_nat 3) with 1000. change (10 ^ Z.of_nat 2) with 100.
  change (10 ^ Z.of_nat 1) with 10. change (10 ^ Z.of_nat 0) with 1.
  Z.to_euclidean_division_equations; lia.
Qed.

Lemma expect_app c rest : expect c (String c rest) = Some rest.
Proof. unfold expect. rewrite Ascii.eqb_refl. reflexivity. Qed.

(** ** Strings without ["T"] *)

Lemma noT_app a b : noT (a ++ b) = noT a && noT b.
Proof.
  induction a as [|c a IH]; simpl; [reflexivity|].
  rewrite IH, andb_assoc. reflexivity.
Qed.

Lemma noT_padDigits k n : noT (padDigits k n) = true.
Proof.
  induction k as [|k IH]; [reflexivity|].
  cbn [padDigits noT]. rewrite digitChar_not_T by apply mod10_range.
  exact IH.
Qed.

Lemma noT_isoDate y m d : noT (isoDate y m d) = true.
Proof.
  unfold isoDate, yearString.
  destruct ((0 <=? y) && (y <=? 9999)); [|destruct (y <? 0)];
    rewrite !noT_app, !noT_padDigits; reflexivity.
Qed.

Lemma split_T_0_app a b : noT a = true -> split_T_0 (a ++ String "T" b) = a.
Proof.
  induction a as [|c a IH]; simpl; [reflexivity|].
  intros H. apply andb_prop in H as [Hc Ha].
  destruct (Ascii.eqb c "T"); [discriminate|].
  rewrite IH by assumption. reflexivity.
Qed.

(** The string pushed for an instant is the calendar date of the
    instant in UTC. *)
Lemma fechaString_isoDate t :
  fechaString t = isoDate (YearFromTime t) (MonthFromTime t + 1) (DateFromTime t).
Proof.
  unfold fechaString, toISOString. apply split_T_0_app, noT_isoDate.
Qed.

Lemma fechaString_day n : fechaString (n * msPerDay) = iso (dateOfDay n).
Proof. apply fechaString_isoDate. Qed.

(** ** The runtime on known values *)

Example toISOString_epoch : toISOString 0 = "1970-01-01T00:00:00.000Z".
Proof. reflexivity. Qed.

Example toISOString_before_epoch : toISOString (-1) = "1969-12-31T23:59:59.999Z".
Proof. reflexivity. Qed.

Example toISOString_leap_day :
  toISOString 1709210096789 = "2024-02-29T12:34:56.789Z".
Proof. reflexivity. Qed.

Example toISOString_far : toISOString maxTime = "+275760-09-13T00:00:00.000Z".
Proof. reflexivity. Qed.

Example Date_parse_date : Date_parse utc "2024-06-01" = Some 1717200000000.
Proof. reflexivity. Qed.

Example Date_parse_offset :
  Date_parse utc "2024-06-01T22:00:00-04:00" = Some 1717293600000
  /\ toISOString 1717293600000 = "2024-06-02T02:00:00.000Z".
Proof. split; reflexivity. Qed.

Example Date_parse_local :
  Date_parse (atOffset (- 4 * msPerHour)) "2024-06-01T22:00:00"
  = Some 1717293600000.
Proof. reflexivity. Qed.

Example Date_parse_not_a_date : Date_parse utc "2024-02-30" = None.
Proof. reflexivity. Qed.

(** The step from the last day of a month, on a host four hours behind
    UTC: the local day 31 becomes the local day 32 of May, the first of
    June. *)
Example setDate_month_end :
  let host := atOffset (- 4 * msPerHour) in
  getDate host (Some 1717200000000) = Some 31
  /\ setDate host (Some 1717200000000) (Some 32) = Some 1717286400000.
Proof. split; reflexivity. Qed.

(** ** Years and days *)

Lemma DayFromYear_succ y : DayFromYear (y + 1) = DayFromYear y + DaysInYear y.
Proof.
  unfold DayFromYear, DaysInYear.
  destruct (Z.eqb_spec (y mod 4) 0); cbn [negb];
    [|Z.to_euclidean_division_equations; lia].
  destruct (Z.eqb_spec (y mod 100) 0); cbn [negb];
    [|Z.to_euclidean_division_equations; lia].
  destruct (Z.eqb_spec (y mod 400) 0); cbn [negb];
    Z.to_euclidean_division_equations; lia.
Qed.

Lemma DaysInYear_leap y : DaysInYear y = 365 + LeapOfYear y.
Proof.
  unfold LeapOfYear, DaysInYear.
  repeat match goal with |- context [negb ?b] => destruct b; cbn [negb] end;
    reflexivity.
Qed.

Lemma LeapOfYear_range y : 0 <= LeapOfYear y <= 1.
Proof. unfold LeapOfYear. destruct (DaysInYear y =? 366); lia. Qed.

(** [YearFromDay d] is the year that contains day [d]. *)
Lemma YearFromDay_spec d :
  DayFromYear (YearFromDay d) <= d < DayFromYear (YearFromDay d + 1).
Proof.
  unfold YearFromDay.
  set (y := 1970 + d * 400 / 146097).
  destruct (Z.leb_spec (DayFromYear (y + 1)) d) as [H1|H1];
    [|destruct (Z.leb_spec (DayFromYear y) d) as [H2|H2]].
  - split; [lia|]. revert H1. subst y. unfold DayFromYear.
    Z.to_euclidean_division_equations; lia.
  - lia.
  - replace (y - 1 + 1) with y by lia. split; [|lia].
    subst y. unfold DayFromYear in *. Z.to_euclidean_division_equations; lia.
Qed.

Lemma DayFromYear_mono a b : a <= b -> DayFromYear a <= DayFromYear b.
Proof.
  intros H. unfold DayFromYear. Z.to_euclidean_division_equations; lia.
Qed.

Lemma YearFromDay_unique y d :
  DayFromYear y <= d < DayFromYear (y + 1) -> YearFromDay d = y.
Proof.
  intros H. pose proof (YearFromDay_spec d) as S.
  destruct (Z.lt_trichotomy (YearFromDay d) y) as [Hlt|[Heq|Hgt]]; [|assumption|].
  - pose proof (DayFromYear_mono (YearFromDay d + 1) y ltac:(lia)). lia.
  - pose proof (DayFromYear_mono (y + 1) (YearFromDay d) ltac:(lia)). lia.
Qed.

Lemma YearFromDay_mono a b : a <= b -> YearFromDay a <= YearFromDay b.
Proof.
  intros H. pose proof (YearFromDay_spec a) as Sa. pose proof (YearFromDay_spec b) as Sb.
  destruct (Z.le_gt_cases (YearFromDay a) (YearFromDay b)) as [|Hgt]; [assumption|].
  pose proof (DayFromYear_mono (YearFromDay b + 1) (YearFromDay a) ltac:(lia)). lia.
Qed.

(** [YearFromTime t] is the largest year that starts at or before [t]. *)
Lemma YearFromTime_spec t :
  TimeFromYear (YearFromTime t) <= t < TimeFromYear (YearFromTime t + 1).
Proof.
  unfold TimeFromYear, YearFromTime. pose proof (YearFromDay_spec (Day t)) as S.
  unfold Day in *. unfold msPerDay in *.
  Z.to_euclidean_division_equations; lia.
Qed.

Lemma Day_mul n : Day (n * msPerDay) = n.
Proof. unfold Day. apply Z.div_mul. discriminate. Qed.

Lemma DayWithinYear_range t :
  0 <= DayWithinYear t < 365 + InLeapYear t.
Proof.
  unfold DayWithinYear, InLeapYear, YearFromTime.
  pose proof (YearFromDay_spec (Day t)) as S.
  rewrite DayFromYear_succ, DaysInYear_leap in S. lia.
Qed.

(** ** A calendar date and its day number *)

Ltac month_cases m Hm :=
  let M := fresh "M" in
  assert (m = 1 \/ m = 2 \/ m = 3 \/ m = 4 \/ m = 5 \/ m = 6 \/ m = 7
          \/ m = 8 \/ m = 9 \/ m = 10 \/ m = 11 \/ m = 12) as M by lia;
  clear Hm;
  repeat (destruct M as [->|M]); [..|subst m].

(** Evaluate the tests on literals. *)
Ltac eval_test c :=
  let v := eval vm_compute in c in change c with v in *.

Ltac eval_tests :=
  repeat match goal with
         | |- context [Zpos ?a - 1 =? ?b] => eval_test (Zpos a - 1 =? b)
         | |- context [Zpos ?a + 1 =? ?b] => eval_test (Zpos a + 1 =? b)
         | |- context [0 + 1 =? ?b] => eval_test (0 + 1 =? b)
         | |- context [Zpos ?a =? ?b] => eval_test (Zpos a =? b)
         | |- context [0 =? ?b] => eval_test (0 =? b)
         | H : context [Zpos ?a =? Zpos ?b] |- _ => eval_test (Zpos a =? Zpos b)
         end;
  cbn [orb] in *; cbv iota in *.

Ltac split_ltb :=
  repeat (match goal with
          | |- context [?a <? ?b] => destruct (Z.ltb_spec a b)
          end; try lia).

Lemma validDate_spec c :
  validDate c = true <->
  0 <= year c <= 9999 /\ 1 <= month c <= 12
  /\ 1 <= day c <= DaysInMonth (year c) (month c).
Proof.
  unfold validDate. rewrite !andb_true_iff, !Z.leb_le. lia.
Qed.

Lemma yearDay_of_date leap m d :
  0 <= leap <= 1 -> 1 <= m <= 12 ->
  1 <= d <= (if m =? 2 then 28 + leap
             else if (m =? 4) || (m =? 6) || (m =? 9) || (m =? 11) then 30 else 31) ->
  let o := MonthStart leap (m - 1) + d - 1 in
  0 <= o < 365 + leap /\ MonthOfYearDay leap o = m - 1.
Proof.
  intros Hl Hm Hd o. subst o.
  month_cases m Hm; unfold MonthStart, MonthOfYearDay; eval_tests;
    (split; [lia|split_ltb]).
Qed.

Lemma dayNumber_eq c :
  validDate c = true ->
  dayNumber c
  = DayFromYear (year c) + MonthStart (LeapOfYear (year c)) (month c - 1) + day c - 1.
Proof.
  intros H. apply validDate_spec in H. unfold dayNumber.
  apply MakeDay_in_year. lia.
Qed.

Lemma YearFromDay_dayNumber c :
  validDate c = true -> YearFromDay (dayNumber c) = year c.
Proof.
  intros H. rewrite dayNumber_eq by assumption.
  apply validDate_spec in H as (Hy & Hm & Hd).
  pose proof (yearDay_of_date _ _ _ (LeapOfYear_range (year c)) Hm Hd) as [Ho _].
  apply YearFromDay_unique.
  rewrite DayFromYear_succ, DaysInYear_leap. lia.
Qed.

(** From the date to its day and back. *)
Lemma dateOfDay_dayNumber c : validDate c = true -> dateOfDay (dayNumber c) = c.
Proof.
  intros H. pose proof (YearFromDay_dayNumber c H) as HY.
  pose proof (dayNumber_eq c H) as Hn.
  apply validDate_spec in H as (Hy & Hm & Hd).
  pose proof (yearDay_of_date _ _ _ (LeapOfYear_range (year c)) Hm Hd) as [Ho HM].
  assert (HMo : MonthFromTime (dayNumber c * msPerDay) = month c - 1).
  { unfold MonthFromTime, InLeapYear, DayWithinYear, YearFromTime.
    rewrite Day_mul, HY. rewrite <- HM. f_equal. lia. }
  unfold dateOfDay. destruct c as [y m d]. cbn [year month day] in *.
  f_equal.
  - unfold YearFromTime. rewrite Day_mul. exact HY.
  - lia.
  - unfold DateFromTime. rewrite HMo.
    unfold InLeapYear, DayWithinYear, YearFromTime. rewrite Day_mul, HY. lia.
Qed.

(** From the day to its date and back. *)
Lemma dayNumber_dateOfDay n : dayNumber (dateOfDay n) = n.
Proof.
  unfold dayNumber, dateOfDay. cbn [year month day].
  replace (MonthFromTime (n * msPerDay) + 1 - 1) with (MonthFromTime (n * msPerDay)) by lia.
  pose proof (MakeDay_DateFromTime (n * msPerDay) 0) as H.
  rewrite Z.add_0_r, Day_mul in H. lia.
Qed.

(** The date of a day is a date of the calendar. *)
Lemma validDate_dateOfDay n :
  0 <= YearFromDay n <= 9999 -> validDate (dateOfDay n) = true.
Proof.
  intros Hy. apply validDate_spec. unfold dateOfDay. cbn [year month day].
  set (t := n * msPerDay).
  assert (YearFromTime t = YearFromDay n) as HY
    by (unfold YearFromTime, t; rewrite Day_mul; reflexivity).
  pose proof (DayWithinYear_range t) as Hw.
  pose proof (MonthFromTime_range t) as Hm.
  split; [lia|]. split; [lia|].
  unfold DateFromTime, MonthFromTime, DaysInMonth in *.
  unfold InLeapYear in *. rewrite HY in *.
  pose proof (LeapOfYear_range (YearFromDay n)) as Hl.
  set (leap := LeapOfYear (YearFromDay n)) in *.
  set (w := DayWithinYear t) in *.
  unfold MonthOfYearDay. split_ltb; unfold MonthStart; eval_tests; lia.
Qed.

(** ** Reading a date back *)

Lemma dayNumber_range c :
  validDate c = true -> - 719528 <= dayNumber c <= 2932897.
Proof.
  intros H. rewrite dayNumber_eq by assumption.
  apply validDate_spec in H as (Hy & Hm & Hd).
  pose proof (yearDay_of_date _ _ _ (LeapOfYear_range (year c)) Hm Hd) as [Ho _].
  pose proof (LeapOfYear_range (year c)) as Hl.
  pose proof (DayFromYear_mono 0 (year c) ltac:(lia)) as H0.
  pose proof (DayFromYear_mono (year c) 9999 ltac:(lia)) as H1.
  change (DayFromYear 0) with (- 719528) in H0.
  change (DayFromYear 9999) with 2932532 in H1.
  lia.
Qed.

Lemma TimeClip_day n :
  - 100000000 <= n <= 100000000 -> TimeClip (n * msPerDay) = Some (n * msPerDay).
Proof.
  intros H. unfold TimeClip.
  destruct (Z.gtb_spec (Z.abs (n * msPerDay)) maxTime) as [Hbig|]; [|reflexivity].
  unfold msPerDay, maxTime in Hbig. lia.
Qed.

Lemma append_empty_r s : s ++ "" = s.
Proof. induction s as [|c s IH]; simpl; [|rewrite IH]; reflexivity. Qed.

(** [new Date("YYYY-MM-DD")] is midnight UTC at the start of that day. *)
Lemma Date_parse_iso host c :
  validDate c = true -> Date_parse host (iso c) = Some (dayNumber c * msPerDay).
Proof.
  intros H. pose proof (dayNumber_range c H) as Hr.
  apply validDate_spec in H as (Hy & Hm & Hd).
  assert (day c <= 31) as Hd31.
  { unfold DaysInMonth in Hd. pose proof (LeapOfYear_range (year c)).
    destruct (month c =? 2); [lia|].
    destruct ((month c =? 4) || (month c =? 6) || (month c =? 9) || (month c =? 11)); lia. }
  assert (parseDateTime host (iso c) = Some (dayNumber c * msPerDay)) as P.
  { unfold parseDateTime, iso, isoDate, yearString.
    destruct (Z.leb_spec 0 (year c)); [|lia].
    destruct (Z.leb_spec (year c) 9999); [|lia]. cbn [andb].
    rewrite readDigits_pad4 by lia.
    change ("-" ++ ?s) with (String "-" s). rewrite expect_app.
    rewrite readDigits_pad2 by lia.
    change ("-" ++ ?s) with (String "-" s). rewrite expect_app.
    rewrite <- (append_empty_r (padDigits 2 (day c))).
    rewrite readDigits_pad2 by lia.
    destruct (Z.leb_spec 1 (month c)); [|lia].
    destruct (Z.leb_spec (month c) 12); [|lia].
    destruct (Z.leb_spec 1 (day c)); [|lia].
    destruct (Z.leb_spec (day c) (DaysInMonth (year c) (month c))); [|lia].
    cbn [andb]. unfold MakeDate. rewrite Z.add_0_r. reflexivity. }
  unfold Date_parse. rewrite P. apply TimeClip_day. lia.
Qed.

Lemma iso_not_empty c : String.eqb (iso c) "" = false.
Proof.
  unfold iso, isoDate, yearString.
  destruct ((0 <=? year c) && (year c <=? 9999)); [reflexivity|].
  destruct (year c <? 0); reflexivity.
Qed.

(** Two dates of the calendar with the same string are the same. *)
Lemma iso_injective a b :
  validDate a = true -> validDate b = true -> iso a = iso b -> a = b.
Proof.
  intros Ha Hb E.
  pose proof (Date_parse_iso utc a Ha) as Pa. pose proof (Date_parse_iso utc b Hb) as Pb.
  rewrite E in Pa. rewrite Pa in Pb. injection Pb as Pb.
  assert (dayNumber a = dayNumber b) as Hn by (unfold msPerDay in Pb; lia).
  rewrite <- (dateOfDay_dayNumber a Ha), <- (dateOfDay_dayNumber b Hb), Hn.
  reflexivity.
Qed.

(** * Part 11. All-day events *)

Lemma In_daysFromTo n a b : In n (daysFromTo a b) <-> a <= n < b.
Proof.
  unfold daysFromTo. rewrite in_map_iff. split.
  - intros (k & <- & Hk). apply in_seq in Hk. lia.
  - intros H. exists (Z.to_nat (n - a)). split; [lia|].
    apply in_seq. lia.
Qed.

Lemma gap_days a b :
  gap (Some (a * msPerDay)) (Some (b * msPerDay)) = Z.to_nat (b - a).
Proof.
  unfold gap. f_equal. unfold msPerDay.
  Z.to_euclidean_division_equations; lia.
Qed.

Lemma visited_days a k :
  visited (a * msPerDay) k
  = map (fun n => n * msPerDay) (map (fun i => a + Z.of_nat i) (seq 0 k)).
Proof.
  unfold visited. rewrite map_map. apply map_ext. intros i. lia.
Qed.

Lemma fechasOcupadas_one host ev :
  fechasOcupadas host [ev] = forEvento host [] ev.
Proof. reflexivity. Qed.

(** The dates pushed for an all-day event, on a host with a fixed
    offset. *)
Lemma forEvento_allDay host acc ev s e :
  fixedOffset host ->
  validDate s = true -> validDate e = true ->
  date (start ev) = Some (iso s) -> date (end_ ev) = Some (iso e) ->
  forEvento host acc ev
  = (acc ++ map (fun n => iso (dateOfDay n)) (daysFromTo (dayNumber s) (dayNumber e)))%list.
Proof.
  intros Fx Hs He Es Ee. unfold forEvento, inicio, fin. rewrite Es, Ee.
  unfold or_else. rewrite !iso_not_empty. unfold newDate.
  rewrite !Date_parse_iso by assumption.
  pose proof (dayNumber_range s Hs). pose proof (dayNumber_range e He).
  rewrite walk_visited by (try exact Fx; unfold msPerDay, maxTime; lia).
  rewrite gap_days, visited_days, map_map. unfold daysFromTo.
  f_equal. apply map_ext. intros n. apply fechaString_day.
Qed.

Lemma In_allDay_dates s e c :
  validDate s = true -> validDate e = true -> validDate c = true ->
  In (iso c) (map (fun n => iso (dateOfDay n)) (daysFromTo (dayNumber s) (dayNumber e)))
  <-> dayNumber s <= dayNumber c < dayNumber e.
Proof.
  intros Hs He Hc. rewrite in_map_iff. split.
  - intros (n & E & Hn). apply In_daysFromTo in Hn.
    assert (validDate (dateOfDay n) = true) as Hv.
    { apply validDate_dateOfDay.
      pose proof (YearFromDay_mono (dayNumber s) n ltac:(lia)) as M1.
      pose proof (YearFromDay_mono n (dayNumber e) ltac:(lia)) as M2.
      rewrite YearFromDay_dayNumber in M1, M2 by assumption.
      apply validDate_spec in Hs, He. lia. }
    apply iso_injective in E; try assumption.
    rewrite <- E, dayNumber_dateOfDay. exact Hn.
  - intros H. exists (dayNumber c). split.
    + rewrite dateOfDay_dayNumber by assumption. reflexivity.
    + apply In_daysFromTo. exact H.
Qed.

Lemma existsb_eqb_In v s : existsb (String.eqb v) s = true <-> In v s.
Proof.
  rewrite existsb_exists. split.
  - intros (x & Hx & E). apply String.eqb_eq in E. subst. assumption.
  - intros H. exists v. split; [assumption|apply String.eqb_refl].
Qed.




(** The steps of the walk across the two changes: from 2024-09-08 at
    00:00 UTC, the evening of 7 September in Santiago, to 23:00 UTC of
    the same day, the same time of the evening of 8 September; and from
    2025-04-05 at 23:00 UTC to 2025-04-07 at 00:00 UTC. *)
Example santiago_steps :
  nextFecha santiago 1725753600000 = Some 1725836400000
  /\ toISOString 1725836400000 = "2024-09-08T23:00:00.000Z"
  /\ nextFecha santiago 1743894000000 = Some 1743984000000
  /\ toISOString 1743894000000 = "2025-04-05T23:00:00.000Z"
  /\ toISOString 1743984000000 = "2025-04-07T00:00:00.000Z".
Proof. repeat split; vm_compute; reflexivity. Qed.

(** * Part 12. The set of the occupied dates *)

Lemma Set_add_In s v x : In x (Set_add s v) <-> In x s \/ x = v.
Proof.
  unfold Set_add. destruct (existsb (String.eqb v) s) eqn:E.
  - apply existsb_eqb_In in E. split; [tauto|]. intros [H| ->]; assumption.
  - rewrite in_app_iff. simpl. intuition congruence.
Qed.

Lemma Set_add_NoDup s v : NoDup s -> NoDup (Set_add s v).
Proof.
  intros H. unfold Set_add. destruct (existsb (String.eqb v) s) eqn:E; [assumption|].
  assert (~ In v s) as Hv.
  { intros Hin. apply existsb_eqb_In in Hin. congruence. }
  clear E. induction H as [|x l Hx Hl IH]; simpl.
  - constructor; [tauto|constructor].
  - constructor.
    + rewrite in_app_iff. simpl in *. intuition congruence.
    + apply IH. simpl in Hv. tauto.
Qed.

Lemma fold_Set_add_NoDup values s :
  NoDup s -> NoDup (fold_left Set_add values s).
Proof.
  revert s. induction values as [|v values IH]; intros s H; simpl; [assumption|].
  apply IH, Set_add_NoDup, H.
Qed.

Lemma fold_Set_add_In values s x :
  In x (fold_left Set_add values s) <-> In x s \/ In x values.
Proof.
  revert s. induction values as [|v values IH]; intros s; simpl; [tauto|].
  rewrite IH, Set_add_In. intuition congruence.
Qed.

Lemma Set_from_NoDup values : NoDup (Set_from values).
Proof. apply fold_Set_add_NoDup. constructor. Qed.

Lemma Set_from_In values x : In x (Set_from values) <-> In x values.
Proof. unfold Set_from. rewrite fold_Set_add_In. simpl. tauto. Qed.

(** C2. The list of occupied dates that is returned has no date twice,
    whatever the events and the host, and holds the same dates as the
    walk pushed.  On a host with a fixed offset the events from
    2024-06-01 to 2024-06-03 and from 2024-06-02 to 2024-06-05 give the
    four dates 2024-06-01 to 2024-06-04.  On the time of Santiago the
    date that the walk of one event pushes twice is returned once. *)
Theorem C2_no_duplicate_dates :
  (forall host eventos,
      NoDup (fechasUnicas host eventos)
      /\ (forall x, In x (fechasUnicas host eventos)
                    <-> In x (fechasOcupadas host eventos)))
  /\ (forall host,
        fixedOffset host ->
        fechasUnicas host [allDay "2024-06-01" "2024-06-03";
                           allDay "2024-06-02" "2024-06-05"]
        = ["2024-06-01"; "2024-06-02"; "2024-06-03"; "2024-06-04"])
  /\ fechasUnicas santiago [allDay "2024-09-07" "2024-09-09"]
     = ["2024-09-07"; "2024-09-08"].
Proof.
  split; [|split].
  - intros tz eventos. split.
    + apply Set_from_NoDup.
    + intros x. apply Set_from_In.
  - intros tz Fx. unfold fechasUnicas, fechasOcupadas. cbn [fold_left].
    rewrite (forEvento_allDay tz _ (allDay "2024-06-02" "2024-06-05")
               {| year := 2024; month := 6; day := 2 |}
               {| year := 2024; month := 6; day := 5 |}) by (exact Fx || reflexivity).
    rewrite (forEvento_allDay tz _ (allDay "2024-06-01" "2024-06-03")
               {| year := 2024; month := 6; day := 1 |}
               {| year := 2024; month := 6; day := 3 |}) by (exact Fx || reflexivity).
    reflexivity.
  - vm_compute. reflexivity.
Qed.

Lemma C2_no_duplicate_dates_witness :
  fixedOffset (atOffset (- 4 * msPerHour))
  /\ fechasUnicas (atOffset (- 4 * msPerHour))
       [allDay "2024-06-01" "2024-06-03"; allDay "2024-06-02" "2024-06-05"]
     = ["2024-06-01"; "2024-06-02"; "2024-06-03"; "2024-06-04"].
Proof.
  split; [apply atOffset_fixed|].
  exact (proj1 (proj2 C2_no_duplicate_dates) (atOffset (- 4 * msPerHour))
           (atOffset_fixed (- 4 * msPerHour))).
Defined.

(** ** Insertion order *)

Lemma remove_filter x l :
  remove string_dec x l = filter (fun y => negb (String.eqb y x)) l.
Proof.
  induction l as [|y l IH]; simpl; [reflexivity|].
  destruct (string_dec x y) as [->|N].
  - rewrite String.eqb_refl. simpl. exact IH.
  - destruct (String.eqb_spec y x); [congruence|]. simpl. rewrite IH. reflexivity.
Qed.

Lemma notIn_remove_seen s x l :
  In x s -> notIn s (remove string_dec x l) = notIn s l.
Proof.
  intros Hx. unfold notIn. rewrite remove_filter.
  induction l as [|y l IH]; simpl; [reflexivity|].
  destruct (String.eqb_spec y x) as [->|N]; simpl.
  - apply existsb_eqb_In in Hx. rewrite Hx. simpl. exact IH.
  - rewrite IH. reflexivity.
Qed.

Lemma notIn_snoc s x l :
  notIn (s ++ [x]) l = notIn s (remove string_dec x l).
Proof.
  unfold notIn. rewrite remove_filter.
  induction l as [|y l IH]; simpl; [reflexivity|].
  rewrite existsb_app. simpl. rewrite orb_false_r.
  destruct (String.eqb y x); simpl.
  - rewrite orb_true_r. simpl. exact IH.
  - rewrite orb_false_r. destruct (existsb (String.eqb y) s); simpl; rewrite IH; reflexivity.
Qed.

Lemma notIn_cons s x l :
  notIn s (x :: l)
  = if existsb (String.eqb x) s then notIn s l else x :: notIn s l.
Proof. unfold notIn. simpl. destruct (existsb (String.eqb x) s); reflexivity. Qed.

Lemma fold_Set_add_keepFirst values s :
  fold_left Set_add values s = (s ++ notIn s (keepFirst values))%list.
Proof.
  revert s. induction values as [|v values IH]; intros s; cbn [fold_left keepFirst].
  - unfold notIn. simpl. rewrite app_nil_r. reflexivity.
  - rewrite IH. unfold Set_add.
    destruct (existsb (String.eqb v) s) eqn:E.
    + rewrite notIn_cons, E.
      rewrite notIn_remove_seen by (apply existsb_eqb_In; assumption).
      reflexivity.
    + rewrite notIn_cons, E.
      rewrite notIn_snoc, <- app_assoc. reflexivity.
Qed.

Lemma notIn_nil l : notIn [] l = l.
Proof.
  induction l as [|y l IH]; [reflexivity|].
  rewrite notIn_cons. simpl. rewrite IH. reflexivity.
Qed.

Lemma Set_from_keepFirst values : Set_from values = keepFirst values.
Proof.
  unfold Set_from. rewrite fold_Set_add_keepFirst, notIn_nil. reflexivity.
Qed.

Lemma flat_map_map {A B C : Type} (f : B -> list C) (g : A -> B) l :
  flat_map f (map g l) = flat_map (fun x => f (g x)) l.
Proof.
  induction l as [|x l IH]; simpl; [|rewrite IH]; reflexivity.
Qed.

Lemma notIn_keepFirst_positions seen l :
  notIn seen (keepFirst l) = firstOccurrencesAfter seen l.
Proof.
  revert seen. induction l as [|x r IH]; intros seen; [reflexivity|].
  cbn [keepFirst]. rewrite notIn_cons, <- notIn_snoc, IH.
  unfold firstOccurrencesAfter. cbn [List.length seq flat_map nth_error firstn].
  rewrite app_nil_r, <- seq_shift, flat_map_map.
  assert (flat_map
            (fun i => match nth_error (x :: r) (S i) with
                      | Some y =>
                          if existsb (String.eqb y) (seen ++ firstn (S i) (x :: r))%list
                          then [] else [y]
                      | None => []
                      end) (seq 0 (List.length r))
          = flat_map
              (fun i => match nth_error r i with
                        | Some y =>
                            if existsb (String.eqb y) ((seen ++ [x]) ++ firstn i r)%list
                            then [] else [y]
                        | None => []
                        end) (seq 0 (List.length r))) as ->.
  { apply flat_map_ext. intros i. cbn [nth_error firstn].
    rewrite <- app_assoc. reflexivity. }
  destruct (existsb (String.eqb x) seen); reflexivity.
Qed.

Lemma keepFirst_positions l : keepFirst l = firstOccurrences l.
Proof.
  rewrite <- (notIn_nil (keepFirst l)). apply notIn_keepFirst_positions.
Qed.

(** C9. The list that is returned is the sequence of the dates pushed
    by the walk with the later occurrences of each date removed; said by
    positions, it holds the pushed dates at the positions where they
    occur for the first time, in the order of these positions. *)
Theorem C9_first_discovery_order :
  forall host eventos,
    fechasUnicas host eventos = keepFirst (fechasOcupadas host eventos)
    /\ fechasUnicas host eventos
       = firstOccurrences (fechasOcupadas host eventos).
Proof.
  intros tz eventos. unfold fechasUnicas.
  generalize (fechasOcupadas tz eventos) as pushed. intros pushed.
  split.
  - apply Set_from_keepFirst.
  - rewrite Set_from_keepFirst. apply keepFirst_positions.
Qed.

(** * Part 13. Events with a time of day, empty and inverted events *)

Lemma TimeClip_range x t : TimeClip x = Some t -> - maxTime <= t <= maxTime.
Proof.
  unfold TimeClip. destruct (Z.gtb_spec (Z.abs x) maxTime); [discriminate|].
  intros [= <-]. lia.
Qed.

Lemma Date_parse_range host s t :
  Date_parse host s = Some t -> - maxTime <= t <= maxTime.
Proof.
  unfold Date_parse. destruct (parseDateTime host s); [apply TimeClip_range|].
  destruct (parseOther host s); [apply TimeClip_range|discriminate].
Qed.

Lemma newDate_range host v t :
  newDate host v = Some t -> - maxTime <= t <= maxTime.
Proof.
  destruct v as [s|]; [apply Date_parse_range|discriminate].
Qed.

Lemma Day_add t k : Day (t + k * msPerDay) = Day t + k.
Proof. unfold Day. apply Z.div_add. discriminate. Qed.

(** The string pushed for an instant depends on its day only. *)
Lemma fechaString_Day t : fechaString t = iso (dateOfDay (Day t)).
Proof.
  rewrite fechaString_isoDate. unfold iso, dateOfDay. cbn [year month day].
  unfold YearFromTime, MonthFromTime, DateFromTime, InLeapYear, DayWithinYear,
    MonthFromTime, InLeapYear, DayWithinYear, YearFromTime.
  rewrite !Day_mul. reflexivity.
Qed.

Lemma gap_daysToReach t f :
  gap (Some t) (Some f) = Z.to_nat (Day t + daysToReach t f - Day t).
Proof. unfold gap, daysToReach. lia. Qed.

(** The dates pushed by a walk from a valid date to a valid date, on a
    host with a fixed offset. *)
Lemma walk_dates host t f acc :
  fixedOffset host ->
  - maxTime <= t -> f <= maxTime ->
  walk host (Some t) (Some f) acc
  = (acc ++ map (fun n => iso (dateOfDay n))
               (daysFromTo (Day t) (Day t + daysToReach t f)))%list.
Proof.
  intros Fx Ht Hf. rewrite walk_visited by assumption. f_equal.
  unfold daysFromTo, visited. rewrite <- gap_daysToReach, !map_map.
  apply map_ext. intros k. rewrite fechaString_Day, Day_add. reflexivity.
Qed.

Lemma forEvento_dates host acc ev t f :
  fixedOffset host ->
  inicio host ev = Some t -> fin host ev = Some f ->
  forEvento host acc ev
  = (acc ++ map (fun n => iso (dateOfDay n))
               (daysFromTo (Day t) (Day t + daysToReach t f)))%list.
Proof.
  intros Fx Hi Hf. unfold forEvento. rewrite Hi, Hf.
  apply newDate_range in Hi, Hf. apply walk_dates; [exact Fx|lia|lia].
Qed.

Lemma daysFromTo_cons a b :
  a < b -> daysFromTo a b = a :: daysFromTo (a + 1) b.
Proof.
  intros H. unfold daysFromTo.
  replace (Z.to_nat (b - a)) with (S (Z.to_nat (b - (a + 1)))) by lia.
  cbn [seq map]. f_equal; [lia|].
  rewrite <- seq_shift, map_map. apply map_ext. intros k. lia.
Qed.

Lemma daysToReach_pos t f : t < f -> 0 < daysToReach t f.
Proof.
  intros H. unfold daysToReach, msPerDay.
  Z.to_euclidean_division_equations; lia.
Qed.




(** On a host with daylight saving the count of the dates can differ:
    on the time of Santiago the event from 23:30 on 2024-09-07 to 23:00
    on 2024-09-09, both UTC, has three dates, for two on a host with a
    fixed offset; the step across the change of 8 September is of 23
    hours. *)
Example timed_event_across_change :
  fechasOcupadas santiago [timed "2024-09-07T23:30:00Z" "2024-09-09T23:00:00Z"]
  = ["2024-09-07"; "2024-09-08"; "2024-09-09"]
  /\ fechasOcupadas utc [timed "2024-09-07T23:30:00Z" "2024-09-09T23:00:00Z"]
     = ["2024-09-07"; "2024-09-08"].
Proof. split; vm_compute; reflexivity. Qed.

(** The dates of these events, and of one that lies within a day. *)
Example timed_events :
  fechasOcupadas utc [timed "2024-06-01T10:00:00Z" "2024-06-02T05:00:00Z"]
  = ["2024-06-01"]
  /\ fechasOcupadas utc
       [startTruncated (timed "2024-06-01T10:00:00Z" "2024-06-02T05:00:00Z")]
     = ["2024-06-01"; "2024-06-02"]
  /\ fechasOcupadas utc
       [timed "2024-06-01T22:00:00-04:00" "2024-06-03T10:00:00-04:00"]
     = ["2024-06-02"; "2024-06-03"]
  /\ fechasOcupadas utc [timed "2024-06-01T10:00:00Z" "2024-06-01T12:00:00Z"]
     = ["2024-06-01"].
Proof. repeat split; vm_compute; reflexivity. Qed.

(** C7. An event whose start and end are the same, or more generally
    denote the same instant, pushes no date: the guard of the loop
    fails at once. *)
Theorem C7_zero_length_event :
  forall host ev,
    (start ev = end_ ev -> fechasOcupadas host [ev] = [])
    /\ (inicio host ev = fin host ev ->
        fechasOcupadas host [ev] = []
        /\ (forall acc, forEvento host acc ev = acc)).
Proof.
  intros tz ev.
  assert (inicio tz ev = fin tz ev -> forall acc, forEvento tz acc ev = acc) as G.
  { intros H acc. unfold forEvento. apply walk_not_lt. rewrite H.
    destruct (fin tz ev) as [f|]; simpl; [apply Z.ltb_irrefl|reflexivity]. }
  split.
  - intros H. apply G. unfold inicio, fin. rewrite H. reflexivity.
  - intros H. split; [apply G, H|exact (G H)].
Qed.

Lemma C7_zero_length_event_witness :
  start (allDay "2024-06-01" "2024-06-01") = end_ (allDay "2024-06-01" "2024-06-01")
  /\ inicio utc (timed "2024-06-01T10:00:00Z" "2024-06-01T06:00:00-04:00")
     = fin utc (timed "2024-06-01T10:00:00Z" "2024-06-01T06:00:00-04:00")
  /\ fechasOcupadas utc [allDay "2024-06-01" "2024-06-01"] = []
  /\ fechasOcupadas utc [timed "2024-06-01T10:00:00Z" "2024-06-01T06:00:00-04:00"] = [].
Proof.
  split; [reflexivity|]. split; [reflexivity|]. split.
  - exact (proj1 (C7_zero_length_event utc (allDay "2024-06-01" "2024-06-01")) eq_refl).
  - exact (proj1 (proj2 (C7_zero_length_event utc
                           (timed "2024-06-01T10:00:00Z" "2024-06-01T06:00:00-04:00"))
                    eq_refl)).
Defined.

(** C10. An event whose end is strictly before its start pushes no
    date: the guard of the loop fails at once, and the handler goes on
    to the next event. *)
Theorem C10_inverted_event :
  forall host ev t f,
    inicio host ev = Some t -> fin host ev = Some f -> f < t ->
    fechasOcupadas host [ev] = []
    /\ (forall acc, forEvento host acc ev = acc).
Proof.
  intros tz ev t f Hi Hf Hlt.
  assert (forall acc, forEvento tz acc ev = acc) as G.
  { intros acc. unfold forEvento. apply walk_not_lt. rewrite Hi, Hf. simpl.
    apply Z.ltb_ge. lia. }
  split; [apply G|exact G].
Qed.

Lemma C10_inverted_event_witness :
  inicio utc (allDay "2024-06-04" "2024-06-01") = Some 1717459200000
  /\ fin utc (allDay "2024-06-04" "2024-06-01") = Some 1717200000000
  /\ 1717200000000 < 1717459200000
  /\ fechasOcupadas utc [allDay "2024-06-04" "2024-06-01"] = [].
Proof.
  split; [reflexivity|]. split; [reflexivity|]. split; [reflexivity|].
  exact (proj1 (C10_inverted_event utc (allDay "2024-06-04" "2024-06-01")
                  1717459200000 1717200000000 eq_refl eq_refl eq_refl)).
Defined.

(** * Part 14. The validation of [POST /agendar] *)

Lemma truthy_false_iff v : truthy v = false <-> falsy v.
Proof.
  unfold falsy. destruct v as [| |b|n|s|l|o]; simpl.
  - tauto.
  - split; [tauto|reflexivity].
  - destruct b; split; intros H; try discriminate; try tauto.
    repeat destruct H as [H|H]; discriminate.
  - rewrite negb_false_iff, Z.eqb_eq. split.
    + intros ->. tauto.
    + intros H. repeat destruct H as [H|H]; try discriminate. congruence.
  - rewrite negb_false_iff, String.eqb_eq. split.
    + intros ->. tauto.
    + intros H. repeat destruct H as [H|H]; try discriminate. congruence.
  - split; [discriminate|]. intros H. repeat destruct H as [H|H]; discriminate.
  - split; [discriminate|]. intros H. repeat destruct H as [H|H]; discriminate.
Qed.

Lemma faltanCampos_iff b :
  faltanCampos b = true <-> Exists falsy (requiredFields b).
Proof.
  unfold faltanCampos, requiredFields.
  rewrite !orb_true_iff, !negb_true_iff, !truthy_false_iff.
  rewrite !Exists_cons, Exists_nil. tauto.
Qed.

Ltac invert_runs :=
  repeat match goal with
         | H : runs (Respond _ _) _ _ _ |- _ => inversion H; subst; clear H
         | H : runs (GetClient _ _) _ _ _ |- _ => inversion H; subst; clear H
         | H : runs (EventsList _ _) _ _ _ |- _ => inversion H; subst; clear H
         | H : runs (EventsInsert _ _) _ _ _ |- _ => inversion H; subst; clear H
         | H : runs (CalendarsGet _ _) _ _ _ |- _ => inversion H; subst; clear H
         | H : runs (NewDate _) _ _ _ |- _ => inversion H; subst; clear H
         | H : runs (DateNow _) _ _ _ |- _ => inversion H; subst; clear H
         | H : runs (MathRandom _) _ _ _ |- _ => inversion H; subst; clear H
         | H : runs (match ?x with Fulfilled _ => _ | Rejected _ => _ end) _ _ _ |- _ =>
             destruct x
         | H : runs (match ?x with Some _ => _ | None => _ end) _ _ _ |- _ =>
             destruct x
         | H : runs (agendar_catch _) _ _ _ |- _ => unfold agendar_catch in H
         | H : runs (disponibilidad_catch _) _ _ _ |- _ => unfold disponibilidad_catch in H
         end.

(** Whatever the answers, a handler ends with a response. *)
Lemma runs_total h : exists calls status body, runs h calls status body.
Proof.
  pose (e0 := {| error_message := JUndefined; error_code := JUndefined |}).
  induction h as [status body|auth k IH|params k IH|params k IH|params k IH|k IH|k IH|k IH].
  - eexists _, _, _. apply runs_Respond.
  - destruct (IH (Rejected e0)) as (c & s & b & R). eexists _, _, _.
    apply runs_GetClient, R.
  - destruct (IH (Rejected e0)) as (c & s & b & R). eexists _, _, _.
    apply runs_EventsList, R.
  - destruct (IH (Rejected e0)) as (c & s & b & R). eexists _, _, _.
    apply runs_EventsInsert, R.
  - destruct (IH (Rejected e0)) as (c & s & b & R). eexists _, _, _.
    apply runs_CalendarsGet, R.
  - destruct (IH 0) as (c & s & b & R). eexists _, _, _. apply runs_NewDate, R.
  - destruct (IH 0) as (c & s & b & R). eexists _, _, _. apply runs_DateNow, R.
  - destruct (IH oneHalf) as (c & s & b & R). eexists _, _, _.
    apply runs_MathRandom; [|exact R]. unfold Random_ok. simpl. lia.
Qed.

(** The runs of the handler when a field is missing, and when none is. *)
Lemma agendar_runs_missing host b calls status body :
  faltanCampos b = true ->
  runs (agendar host b) calls status body ->
  calls = [] /\ status = 400 /\ body = faltanCamposResponse.
Proof.
  intros Hf H. unfold agendar in H. rewrite Hf in H. invert_runs. auto.
Qed.

Lemma agendar_runs_complete host b calls status body :
  faltanCampos b = false ->
  runs (agendar host b) calls status body ->
  (status = 500 \/ status = 200)
  /\ exists answer rest,
      calls = CallGetClient agendarAuth answer :: rest
      /\ forall authClient, answer = Fulfilled authClient ->
           match event host b with
           | Some resource =>
               exists inserted rest',
                 rest = CallEventsInsert {| insert_auth := authClient;
                                            insert_calendarId := CALENDAR_ID;
                                            resource := resource |} inserted :: rest'
           | None =>
               rest = [] /\ status = 500
               /\ body = agendarError TypeError_not_primitive
           end.
Proof.
  intros Hf H. unfold agendar in H. rewrite Hf in H.
  inversion H as [|auth k answer rest st bd R| | | | | |]; subst; clear H.
  destruct answer as [authClient|error].
  - destruct (event host b) as [resource|] eqn:Ev.
    + invert_runs.
      * split; [right; reflexivity|]. eexists _, _. split; [reflexivity|].
        intros c [= <-]. eexists _, _. reflexivity.
      * split; [left; reflexivity|]. eexists _, _. split; [reflexivity|].
        intros c [= <-]. eexists _, _. reflexivity.
    + invert_runs. split; [left; reflexivity|]. eexists _, _.
      split; [reflexivity|]. intros c [= <-]. auto.
  - invert_runs. split; [left; reflexivity|]. eexists _, _. split; [reflexivity|].
    intros c [=].
Qed.

(** The event cannot be built exactly when one of the values put into
    its texts cannot be converted to a string. *)
Lemma event_None_iff host b :
  event host b = None
  <-> Exists (fun v => ToString host v = None)
             [name b; email b; phone b; guests b; checkInDate b; checkOutDate b;
              JS_or (message b) (JString "No especificado")].
Proof.
  unfold event. split.
  - intros H.
    repeat match goal with
           | H : match ToString host ?v with Some _ => _ | None => _ end = None |- _ =>
               destruct (ToString host v) eqn:?
           end; try discriminate;
      repeat (first [apply Exists_cons_hd; assumption|apply Exists_cons_tl]).
  - intros H.
    repeat match goal with
           | H : Exists _ (_ :: _) |- _ => apply Exists_cons in H as [H|H]
           | H : Exists _ [] |- _ => inversion H
           end;
      repeat match goal with
             | |- match ToString host ?v with Some _ => _ | None => _ end = None =>
                 destruct (ToString host v) eqn:?
             end; congruence.
Qed.

(** C4, as the code has it.  The handler answers 400 exactly when one
    of the six fields is falsy: absent, [null], [false], the number 0,
    or the empty string.  Then it makes no call at all, so no insert.
    Otherwise it asks for the credential first and, once it has it,
    builds the event from the fields as they are and inserts it: a
    count of guests other than 0 is not checked, and the dates are not
    compared.  The only request that stops there is one with a field
    that cannot be converted to a string for the texts of the event, an
    object with a property [toString] of its own: the handler then
    answers 500 and inserts nothing. *)
Theorem C4_validation_rejects_falsy_fields :
  forall host b calls status body,
    runs (agendar host b) calls status body ->
    (status = 400 <-> Exists falsy (requiredFields b))
    /\ (Exists falsy (requiredFields b) ->
        calls = [] /\ body = faltanCamposResponse)
    /\ (~ Exists falsy (requiredFields b) ->
        exists answer rest,
          calls = CallGetClient agendarAuth answer :: rest
          /\ forall authClient, answer = Fulfilled authClient ->
               match event host b with
               | Some resource =>
                   exists inserted rest',
                     rest = CallEventsInsert {| insert_auth := authClient;
                                                insert_calendarId := CALENDAR_ID;
                                                resource := resource |} inserted
                              :: rest'
               | None =>
                   rest = [] /\ status = 500
                   /\ body = agendarError TypeError_not_primitive
               end)
    /\ (event host b = None
        <-> Exists (fun v => ToString host v = None)
                   [name b; email b; phone b; guests b; checkInDate b;
                    checkOutDate b;
                    JS_or (message b) (JString "No especificado")]).
Proof.
  intros tz b calls status body H.
  split; [|split; [|split]]; [| | |apply event_None_iff];
    rewrite <- faltanCampos_iff;
    destruct (faltanCampos b) eqn:Hf.
  - destruct (agendar_runs_missing tz b calls status body Hf H) as (-> & -> & ->).
    tauto.
  - destruct (agendar_runs_complete tz b calls status body Hf H) as (Hs & Hc).
    split; [|discriminate]. intros ->. destruct Hs; discriminate.
  - destruct (agendar_runs_missing tz b calls status body Hf H) as (-> & -> & ->).
    auto.
  - discriminate.
  - intros N. exfalso. apply N. reflexivity.
  - destruct (agendar_runs_complete tz b calls status body Hf H) as (Hs & Hc).
    intros _. exact Hc.
Qed.

Lemma C4_validation_rejects_falsy_fields_witness :
  runs (agendar utc reservaSinHuespedes) [] 400 faltanCamposResponse
  /\ Exists falsy (requiredFields reservaSinHuespedes).
Proof.
  assert (runs (agendar utc reservaSinHuespedes) [] 400 faltanCamposResponse) as R
    by apply runs_Respond.
  split; [exact R|].
  apply (proj1 (C4_validation_rejects_falsy_fields utc reservaSinHuespedes [] 400
                  faltanCamposResponse R)).
  reflexivity.
Defined.

(** C4, as it is stated, fails: a request for 0 guests has every field
    present and not empty, and is answered with 400. *)
Lemma C4_counterexample :
  existsb absentOrEmpty (requiredFields reservaSinHuespedes) = false
  /\ agendar utc reservaSinHuespedes = Respond 400 faltanCamposResponse.
Proof. split; reflexivity. Qed.

(** A request whose name cannot be converted passes the validation,
    gets its credential, and is answered 500 without an insert. *)
Example reservaNombreObjeto_not_inserted :
  faltanCampos reservaNombreObjeto = false
  /\ event utc reservaNombreObjeto = None
  /\ runs (agendar utc reservaNombreObjeto)
          [CallGetClient agendarAuth (Fulfilled 1%nat)]
          500 (agendarError TypeError_not_primitive).
Proof.
  split; [reflexivity|]. split; [reflexivity|].
  apply (runs_GetClient agendarAuth _ (Fulfilled 1%nat)). apply runs_Respond.
Qed.

(** Dates in the wrong order and a negative count of guests pass the
    validation. *)
Example reservaInvertida_passes :
  faltanCampos reservaInvertida = false.
Proof. reflexivity. Qed.

(** * Part 15. A failed insert *)

(** C6. When the insert fails with [error], the handler answers 500
    with [{success: false, error, message, details: {code,
    calendarId}}]: [error] is the text of the error and [details] its
    code and the calendar identifier, as they are; [message] is the
    hint on permissions for the code 403, the hint on the calendar not
    found for 404, and the general message for any other code. *)
Theorem C6_insert_failure_response :
  forall host b calls status body params error,
    runs (agendar host b) calls status body ->
    In (CallEventsInsert params (Rejected error)) calls ->
    status = 500
    /\ exists errorMessage,
        body = JObject [
          ("success", JBool false);
          ("error", error_message error);
          ("message", JString errorMessage);
          ("details", JObject [("code", error_code error);
                               ("calendarId", JString CALENDAR_ID)])]
        /\ (error_code error = JNumber 403 ->
            errorMessage
            = "Error de permisos. Verifica que el Service Account tenga acceso al calendario.")
        /\ (error_code error = JNumber 404 ->
            errorMessage = "Calendario no encontrado. Verifica el Calendar ID.")
        /\ (error_code error <> JNumber 403 -> error_code error <> JNumber 404 ->
            errorMessage = "Error al crear la reserva en el calendario").
Proof.
  intros tz b calls status body params error H Hin.
  unfold agendar in H. destruct (faltanCampos b).
  - invert_runs. destruct Hin.
  - invert_runs; simpl in Hin;
      repeat destruct Hin as [Hin|Hin]; try discriminate; try contradiction.
    injection Hin as Hp He. subst.
    split; [reflexivity|]. eexists. split; [reflexivity|].
    destruct (error_code error) as [| |c|n|c|l|o]; simpl;
      try (repeat split; congruence).
    destruct (Z.eqb_spec n 403) as [->|N3].
    + repeat split; congruence.
    + destruct (Z.eqb_spec n 404) as [->|N4]; repeat split; congruence.
Qed.

Lemma C6_insert_failure_response_witness :
  runs (agendar utc reservaCompleta)
       [CallGetClient agendarAuth (Fulfilled 1%nat);
        CallEventsInsert {| insert_auth := 1%nat;
                            insert_calendarId := CALENDAR_ID;
                            resource := built (event utc reservaCompleta) |} (Rejected forbidden)]
       500
       (JObject [
          ("success", JBool false);
          ("error", JString "The caller does not have permission");
          ("message", JString "Error de permisos. Verifica que el Service Account tenga acceso al calendario.");
          ("details", JObject [("code", JNumber 403);
                               ("calendarId", JString CALENDAR_ID)])])
  /\ (500 = 500
      /\ exists errorMessage,
          JObject [
            ("success", JBool false);
            ("error", JString "The caller does not have permission");
            ("message", JString "Error de permisos. Verifica que el Service Account tenga acceso al calendario.");
            ("details", JObject [("code", JNumber 403);
                                 ("calendarId", JString CALENDAR_ID)])]
          = JObject [
              ("success", JBool false);
              ("error", error_message forbidden);
              ("message", JString errorMessage);
              ("details", JObject [("code", error_code forbidden);
                                   ("calendarId", JString CALENDAR_ID)])]
          /\ (error_code forbidden = JNumber 403 ->
              errorMessage
              = "Error de permisos. Verifica que el Service Account tenga acceso al calendario.")
          /\ (error_code forbidden = JNumber 404 ->
              errorMessage = "Calendario no encontrado. Verifica el Calendar ID.")
          /\ (error_code forbidden <> JNumber 403 -> error_code forbidden <> JNumber 404 ->
              errorMessage = "Error al crear la reserva en el calendario")).
Proof.
  assert (runs (agendar utc reservaCompleta)
       [CallGetClient agendarAuth (Fulfilled 1%nat);
        CallEventsInsert {| insert_auth := 1%nat;
                            insert_calendarId := CALENDAR_ID;
                            resource := built (event utc reservaCompleta) |} (Rejected forbidden)]
       500
       (JObject [
          ("success", JBool false);
          ("error", JString "The caller does not have permission");
          ("message", JString "Error de permisos. Verifica que el Service Account tenga acceso al calendario.");
          ("details", JObject [("code", JNumber 403);
                               ("calendarId", JString CALENDAR_ID)])])) as R.
  { apply (runs_GetClient agendarAuth _ (Fulfilled 1%nat)).
    apply (runs_EventsInsert _ _ (Rejected forbidden)).
    apply runs_Respond. }
  split; [exact R|].
  exact (C6_insert_failure_response utc reservaCompleta _ _ _ _ forbidden R
           (or_intror (or_introl eq_refl))).
Defined.

(** * Part 16. The reservation code *)

Lemma fractionDigits_zero fuel den : fractionDigits fuel 0 den = "".
Proof. destruct fuel; reflexivity. Qed.

Lemma pow2_divide a b : 0 <= a <= b -> (2 ^ a | 2 ^ b).
Proof.
  intros H. exists (2 ^ (b - a)). rewrite <- Z.pow_add_r by lia. f_equal. lia.
Qed.

Lemma fractionDigits_more fuel : forall e j n extra,
  0 <= j -> 0 <= e -> 0 <= n < 2 ^ e -> (2 ^ j | n) -> e <= j + 2 * Z.of_nat fuel ->
  fractionDigits (fuel + extra) n (2 ^ e) = fractionDigits fuel n (2 ^ e).
Proof.
  induction fuel as [|fuel IH]; intros e j n extra Hj He Hn Hd Hfuel.
  - assert (n = 0) as ->.
    { assert (2 ^ e | n) as Hdiv
        by (apply Z.divide_trans with (2 ^ j); [apply pow2_divide; lia|assumption]).
      assert (0 < 2 ^ e) by (apply Z.pow_pos_nonneg; lia).
      apply Z.mod_divide in Hdiv; [|lia].
      rewrite Z.mod_small in Hdiv by assumption. exact Hdiv. }
    rewrite !fractionDigits_zero. reflexivity.
  - cbn [Nat.add fractionDigits]. destruct (n =? 0); [reflexivity|]. f_equal.
    assert (0 < 2 ^ e) as Hpos by (apply Z.pow_pos_nonneg; lia).
    apply (IH e (j + 2)); try lia.
    + apply Z.mod_pos_bound. exact Hpos.
    + destruct (Z.le_gt_cases (j + 2) e) as [Hle|Hgt].
      * rewrite Z.mod_eq by lia.
        apply Z.divide_sub_r.
        -- rewrite Z.pow_add_r by lia. destruct Hd as [q ->].
           exists (q * 9). change (2 ^ 2) with 4. lia.
        -- apply Z.divide_mul_l. apply pow2_divide. lia.
      * assert (n * 36 mod 2 ^ e = 0) as ->; [|apply Z.divide_0_r].
        apply Z.mod_divide; [lia|].
        apply Z.divide_trans with (2 ^ (j + 2)); [apply pow2_divide; lia|].
        rewrite Z.pow_add_r by lia. destruct Hd as [q ->].
        exists (q * 9). change (2 ^ 2) with 4. lia.
Qed.

(** The digits that [toString36] gives are all the digits: more fuel
    gives no more of them. *)
Lemma toString36_all_digits x extra :
  Random_ok x ->
  fractionDigits (halvings x + extra) (numerator x) (2 ^ Z.of_nat (halvings x))
  = fractionDigits (halvings x) (numerator x) (2 ^ Z.of_nat (halvings x)).
Proof.
  intros Hx. apply (fractionDigits_more _ _ 0); try lia.
  - exact Hx.
  - apply Z.divide_1_l.
Qed.

Lemma substring_length_le n m s : (String.length (substring n m s) <= m)%nat.
Proof.
  revert n m. induction s as [|c s IH]; intros n m.
  - destruct n, m; simpl; lia.
  - destruct n as [|n].
    + destruct m as [|m]; simpl; [lia|]. specialize (IH O m). lia.
    + simpl. apply IH.
Qed.

Lemma toUpperCase_length s : String.length (toUpperCase s) = String.length s.
Proof. induction s as [|c s IH]; simpl; [|rewrite IH]; reflexivity. Qed.

Lemma digit36_upper d :
  0 <= d < 36 -> isUpperAlnum (upperChar (digit36 d)) = true.
Proof.
  intros H.
  assert (forallb (fun k => isUpperAlnum (upperChar (digit36 (Z.of_nat k)))) (seq 0 36)
          = true) as A by reflexivity.
  rewrite forallb_forall in A.
  specialize (A (Z.to_nat d)). rewrite Z2Nat.id in A by lia.
  apply A, in_seq. lia.
Qed.

Lemma fractionDigits_upper fuel n den :
  0 <= n < den -> allUpperAlnum (toUpperCase (fractionDigits fuel n den)) = true.
Proof.
  revert n. induction fuel as [|fuel IH]; intros n H; [reflexivity|].
  cbn [fractionDigits]. destruct (n =? 0); [reflexivity|].
  unfold allUpperAlnum in *. cbn [toUpperCase list_ascii_of_string forallb].
  rewrite digit36_upper.
  - apply IH. apply Z.mod_pos_bound. lia.
  - split; [apply Z.div_pos; lia|]. apply Z.div_lt_upper_bound; lia.
Qed.

Lemma allUpperAlnum_substring n m s :
  allUpperAlnum s = true -> allUpperAlnum (substring n m s) = true.
Proof.
  unfold allUpperAlnum. revert n m. induction s as [|c s IH]; intros n m H.
  - destruct n, m; reflexivity.
  - cbn [list_ascii_of_string forallb] in H. apply andb_prop in H as [Hc Hs].
    destruct n as [|n].
    + destruct m as [|m]; [reflexivity|].
      cbn [substring list_ascii_of_string forallb]. rewrite Hc. apply IH, Hs.
    + cbn [substring]. apply IH, Hs.
Qed.

Lemma toUpperCase_substring n m s :
  toUpperCase (substring n m s) = substring n m (toUpperCase s).
Proof.
  revert n m. induction s as [|c s IH]; intros n m.
  - destruct n, m; reflexivity.
  - destruct n as [|n].
    + destruct m as [|m]; [reflexivity|]. cbn [substring toUpperCase].
      rewrite IH. reflexivity.
    + cbn [substring toUpperCase]. apply IH.
Qed.

Lemma isDigit36_upper c : isDigit36 c = true -> isUpperAlnum (upperChar c) = true.
Proof.
  destruct c as [[] [] [] [] [] [] [] []]; intros H; try discriminate H; reflexivity.
Qed.

Lemma digit36_isDigit36 d : 0 <= d < 36 -> isDigit36 (digit36 d) = true.
Proof.
  intros H.
  assert (forallb (fun k => isDigit36 (digit36 (Z.of_nat k))) (seq 0 36) = true) as A
    by reflexivity.
  rewrite forallb_forall in A.
  specialize (A (Z.to_nat d)). rewrite Z2Nat.id in A by lia.
  apply A, in_seq. lia.
Qed.

Lemma fractionDigits_isDigit36 fuel n den :
  0 <= n < den ->
  forallb isDigit36 (list_ascii_of_string (fractionDigits fuel n den)) = true.
Proof.
  revert n. induction fuel as [|fuel IH]; intros n H; [reflexivity|].
  cbn [fractionDigits]. destruct (n =? 0); [reflexivity|].
  cbn [list_ascii_of_string forallb]. rewrite digit36_isDigit36.
  - apply IH. apply Z.mod_pos_bound. lia.
  - split; [apply Z.div_pos; lia|]. apply Z.div_lt_upper_bound; lia.
Qed.

(** The numeral of a result with a short expansion is a numeral in
    radix 36, on every host. *)
Lemma toString36_short host x :
  Random_ok x -> (halvings x <= 12)%nat ->
  radix36Numeral (toString36 host x) = true.
Proof.
  intros Hx Hh. unfold toString36.
  destruct (numerator x =? 0); [reflexivity|].
  destruct (Nat.leb_spec (halvings x) 12); [|lia].
  change ("0." ++ ?d) with (String "0" (String "." d)). cbn [radix36Numeral].
  apply fractionDigits_isDigit36, Hx.
Qed.

Lemma allUpperAlnum_upper digits :
  forallb isDigit36 (list_ascii_of_string digits) = true ->
  allUpperAlnum (toUpperCase digits) = true.
Proof.
  unfold allUpperAlnum. induction digits as [|c digits IH]; [reflexivity|].
  cbn [list_ascii_of_string forallb toUpperCase]. intros H.
  apply andb_prop in H as [Hc Hd]. rewrite isDigit36_upper, IH by assumption.
  reflexivity.
Qed.

(** The characters taken from a numeral in radix 36 are digits or
    capital letters. *)
Lemma suffix_upper s :
  radix36Numeral s = true ->
  allUpperAlnum (toUpperCase (substring 2 6 s)) = true.
Proof.
  intros H. rewrite toUpperCase_substring.
  destruct s as [|c0 [|c1 digits]].
  - reflexivity.
  - reflexivity.
  - cbn [toUpperCase substring]. apply allUpperAlnum_substring.
    apply allUpperAlnum_upper.
    destruct c0 as [[] [] [] [] [] [] [] []]; try exact H;
      try (cbn in H; destruct digits; discriminate H).
    destruct c1 as [[] [] [] [] [] [] [] []]; try exact H;
      try (cbn in H; destruct digits; discriminate H).
Qed.

(** What holds of the code for every result of [Math.random()]: after
    ["CB-"], the year and ["-"] come at most six characters; they are
    digits or capital letters when the numeral of the result is ["0"],
    ["1"] or ["0."] and digits. *)
Lemma reservationCode_shape host fullYear x :
  exists suffix,
    reservationCodeOf host fullYear x
    = "CB-" ++ NumberToString host fullYear ++ "-" ++ suffix
    /\ (String.length suffix <= 6)%nat
    /\ (radix36Numeral (toString36 host x) = true -> allUpperAlnum suffix = true).
Proof.
  eexists. split; [reflexivity|]. split.
  - rewrite toUpperCase_length. apply substring_length_le.
  - apply suffix_upper.
Qed.

(** C5 fails on the code.  When [Math.random()] returns one half, whose
    numeral in radix 36 is ["0.i"], the code of a reservation made in
    2024 is ["CB-2024-I"], with one character after the year and not
    six; the handler returns it. *)
Theorem C5_short_reservation_code :
  Random_ok oneHalf
  /\ toString36 utc oneHalf = "0.i"
  /\ reservationCodeOf utc 2024 oneHalf = "CB-2024-I"
  /\ matchesCodePattern "CB-2024-I" = false
  /\ runs (agendar utc reservaCompleta)
          [CallGetClient agendarAuth (Fulfilled 1%nat);
           CallEventsInsert {| insert_auth := 1%nat;
                               insert_calendarId := CALENDAR_ID;
                               resource := built (event utc reservaCompleta) |} (Fulfilled insertado);
           CallNewDate 1717200000000;
           CallMathRandom oneHalf]
          200
          (JObject [
             ("success", JBool true);
             ("eventId", JString "evt1");
             ("reservationCode", JString "CB-2024-I");
             ("message", JString "Reserva creada exitosamente en Google Calendar");
             ("eventLink", JString "https://calendar.example/evt1")]).
Proof.
  assert (Random_ok oneHalf) as Hok by (unfold Random_ok; simpl; lia).
  split; [exact Hok|]. split; [reflexivity|]. split; [reflexivity|].
  split; [reflexivity|].
  apply (runs_GetClient agendarAuth _ (Fulfilled 1%nat)).
  apply (runs_EventsInsert _ _ (Fulfilled insertado)).
  apply (runs_NewDate _ 1717200000000).
  apply (runs_MathRandom _ oneHalf); [exact Hok|].
  apply runs_Respond.
Qed.

(** A result of [Math.random()] with six digits gives a code of the
    expected form. *)
Example code_of_six :
  toString36 utc {| numerator := 2049; halvings := 12 |} = "0.i0be29"
  /\ reservationCodeOf utc 2024 {| numerator := 2049; halvings := 12 |}
     = "CB-2024-I0BE29"
  /\ matchesCodePattern "CB-2024-I0BE29" = true.
Proof. repeat split; reflexivity. Qed.

(** * Part 17. The scopes of the credentials *)

Lemma disponibilidad_only_reads host calls status body :
  runs (disponibilidad host) calls status body -> existsb isWrite calls = false.
Proof.
  intros H. unfold disponibilidad in H. invert_runs; reflexivity.
Qed.

(** C8 fails on the code.  [GET /disponibilidad] only lists events, yet
    it asks for its credential with the scope [calendar], which allows
    writing; [GET /test-calendar], which also only reads, asks for
    [calendar.readonly], and [POST /agendar] for [calendar.readonly] and
    [calendar.events]. *)
Theorem C8_listing_credential_allows_write :
  forall host,
    credentialScopes (disponibilidad host)
    = ["https://www.googleapis.com/auth/calendar"]
    /\ existsb scopeAllowsWrite (credentialScopes (disponibilidad host)) = true
    /\ (forall calls status body,
          runs (disponibilidad host) calls status body ->
          existsb isWrite calls = false)
    /\ credentialScopes test_calendar
       = ["https://www.googleapis.com/auth/calendar.readonly"]
    /\ existsb scopeAllowsWrite (credentialScopes test_calendar) = false
    /\ credentialScopes (agendar host reservaCompleta)
       = ["https://www.googleapis.com/auth/calendar.readonly";
          "https://www.googleapis.com/auth/calendar.events"].
Proof.
  intros tz. repeat split; try reflexivity.
  apply disponibilidad_only_reads.
Qed.

(** * Part 18. The dates of a list of events *)

(** What one event adds to the array does not depend on the array. *)
Lemma forEvento_acc host acc ev :
  forEvento host acc ev = (acc ++ fechasOcupadas host [ev])%list.
Proof. rewrite fechasOcupadas_one. unfold forEvento. apply walk_acc. Qed.

Lemma fold_forEvento host eventos acc :
  fold_left (forEvento host) eventos acc
  = (acc ++ flat_map (fun e => fechasOcupadas host [e]) eventos)%list.
Proof.
  revert acc. induction eventos as [|ev eventos IH]; intros acc; cbn [fold_left flat_map].
  - rewrite app_nil_r. reflexivity.
  - rewrite IH, forEvento_acc, app_assoc. reflexivity.
Qed.

Lemma fechasOcupadas_flat_map host eventos :
  fechasOcupadas host eventos = flat_map (fun e => fechasOcupadas host [e]) eventos.
Proof. unfold fechasOcupadas at 1. apply fold_forEvento. Qed.

Lemma fechasOcupadas_app host l1 l2 :
  fechasOcupadas host (l1 ++ l2)
  = (fechasOcupadas host l1 ++ fechasOcupadas host l2)%list.
Proof. rewrite !fechasOcupadas_flat_map. apply flat_map_app. Qed.

(** X2. The dates of a list of events are those of its events one
    after the other: what an event pushes does not depend on the events
    before it, and the dates of two lists in a row are the dates of the
    first followed by the dates of the second. *)
Theorem X2_dates_event_by_event :
  forall host l1 l2 acc ev,
    fechasOcupadas host (l1 ++ l2)
    = (fechasOcupadas host l1 ++ fechasOcupadas host l2)%list
    /\ forEvento host acc ev = (acc ++ fechasOcupadas host [ev])%list
    /\ fechasOcupadas host l1 = flat_map (fun e => fechasOcupadas host [e]) l1.
Proof.
  intros host l1 l2 acc ev. split; [|split].
  - apply fechasOcupadas_app.
  - apply forEvento_acc.
  - apply fechasOcupadas_flat_map.
Qed.

Lemma In_fechasOcupadas host eventos x :
  In x (fechasOcupadas host eventos)
  <-> exists ev, In ev eventos /\ In x (fechasOcupadas host [ev]).
Proof. rewrite fechasOcupadas_flat_map. apply in_flat_map. Qed.

(** X3. Which dates are returned does not depend on the order in which
    the service lists the events, nor on an event listed more than
    once: two lists with the same events give the same dates, and as
    many of them. *)
Theorem X3_dates_do_not_depend_on_order :
  forall host eventos eventos',
    (forall ev, In ev eventos <-> In ev eventos') ->
    (forall x, In x (fechasUnicas host eventos) <-> In x (fechasUnicas host eventos'))
    /\ List.length (fechasUnicas host eventos) = List.length (fechasUnicas host eventos').
Proof.
  intros host eventos eventos' Same.
  assert (forall x, In x (fechasUnicas host eventos) <-> In x (fechasUnicas host eventos'))
    as Mem.
  { intros x. unfold fechasUnicas. rewrite !Set_from_In, !In_fechasOcupadas.
    split; intros (ev & Hev & Hx); exists ev; (split; [apply Same; exact Hev|exact Hx]). }
  split; [exact Mem|].
  apply Permutation_length, NoDup_Permutation; try apply Set_from_NoDup. exact Mem.
Qed.

Lemma X3_dates_do_not_depend_on_order_witness :
  (forall ev, In ev [allDay "2024-06-01" "2024-06-03"; allDay "2024-06-02" "2024-06-05"]
              <-> In ev [allDay "2024-06-02" "2024-06-05"; allDay "2024-06-01" "2024-06-03";
                         allDay "2024-06-02" "2024-06-05"])
  /\ List.length (fechasUnicas utc [allDay "2024-06-01" "2024-06-03";
                                    allDay "2024-06-02" "2024-06-05"])
     = List.length (fechasUnicas utc [allDay "2024-06-02" "2024-06-05";
                                      allDay "2024-06-01" "2024-06-03";
                                      allDay "2024-06-02" "2024-06-05"]).
Proof.
  assert (forall ev, In ev [allDay "2024-06-01" "2024-06-03"; allDay "2024-06-02" "2024-06-05"]
              <-> In ev [allDay "2024-06-02" "2024-06-05"; allDay "2024-06-01" "2024-06-03";
                         allDay "2024-06-02" "2024-06-05"]) as Same.
  { intros ev. simpl. tauto. }
  split; [exact Same|].
  exact (proj2 (X3_dates_do_not_depend_on_order utc _ _ Same)).
Defined.

(** X4. An event whose start or end is missing or is not a date, or
    whose start is not before its end, is passed over: the handler does
    not fail on it, and the dates that are returned are those of the
    list without this event, in the same order. *)
Theorem X4_event_without_dates_is_skipped :
  forall host l1 ev l2,
    Date_lt (inicio host ev) (fin host ev) = false ->
    fechasOcupadas host (l1 ++ ev :: l2) = fechasOcupadas host (l1 ++ l2)
    /\ fechasUnicas host (l1 ++ ev :: l2) = fechasUnicas host (l1 ++ l2).
Proof.
  intros host l1 ev l2 H.
  assert (fechasOcupadas host [ev] = []) as E.
  { rewrite fechasOcupadas_one. unfold forEvento. apply walk_not_lt, H. }
  assert (fechasOcupadas host (l1 ++ ev :: l2) = fechasOcupadas host (l1 ++ l2)) as G.
  { rewrite !fechasOcupadas_flat_map, !flat_map_app. cbn [flat_map]. rewrite E.
    reflexivity. }
  split; [exact G|]. unfold fechasUnicas. rewrite G. reflexivity.
Qed.

Lemma X4_event_without_dates_is_skipped_witness :
  Date_lt (inicio utc sinInicio) (fin utc sinInicio) = false
  /\ fechasUnicas utc ([allDay "2024-06-01" "2024-06-03"] ++ sinInicio
                         :: [allDay "2024-06-02" "2024-06-05"])
     = ["2024-06-01"; "2024-06-02"; "2024-06-03"; "2024-06-04"].
Proof.
  split; [reflexivity|].
  rewrite (proj2 (X4_event_without_dates_is_skipped utc
                    [allDay "2024-06-01" "2024-06-03"] sinInicio
                    [allDay "2024-06-02" "2024-06-05"] eq_refl)).
  vm_compute. reflexivity.
Defined.

(** ** Ascending order, on a host with a fixed offset *)

(** What one event adds to the array. *)
Lemma forEvento_eventDays host acc ev :
  fixedOffset host ->
  forEvento host acc ev = (acc ++ map dayString (eventDays host ev))%list.
Proof.
  intros Fx. unfold eventDays.
  destruct (inicio host ev) as [t|] eqn:Hi; [destruct (fin host ev) as [f|] eqn:Hf|].
  - apply forEvento_dates; assumption.
  - unfold forEvento. rewrite Hi, Hf, walk_NaN_r, app_nil_r. reflexivity.
  - unfold forEvento. rewrite Hi, walk_NaN_l, app_nil_r. reflexivity.
Qed.

Lemma fechasOcupadas_eventDays host eventos :
  fixedOffset host ->
  fechasOcupadas host eventos = map dayString (flat_map (eventDays host) eventos).
Proof.
  intros Fx. rewrite fechasOcupadas_flat_map.
  induction eventos as [|e l IH]; [reflexivity|].
  cbn [flat_map]. rewrite map_app, IH, fechasOcupadas_one, forEvento_eventDays by exact Fx.
  reflexivity.
Qed.

Lemma StronglySorted_snoc acc d :
  StronglySorted Z.lt acc -> (forall y, In y acc -> y < d) ->
  StronglySorted Z.lt (acc ++ [d]).
Proof.
  intros S H. induction S as [|x l Sl IH Hx]; cbn [app].
  - constructor; constructor.
  - constructor.
    + apply IH. intros y Hy. apply H. right. exact Hy.
    + apply Forall_app. split; [exact Hx|].
      constructor; [apply H; left; reflexivity|constructor].
Qed.

Lemma Set_add_dayString acc d :
  Set_add (map dayString acc) (dayString d)
  = if existsb (String.eqb (dayString d)) (map dayString acc)
    then map dayString acc else map dayString (acc ++ [d]).
Proof. unfold Set_add. rewrite map_app. reflexivity. Qed.

(** Adding the days of an interval to a set of days in ascending order,
    when every day met so far is below every day from [a] on that was
    not met. *)
Lemma add_interval n : forall a b acc (seen : Z -> Prop),
  Z.to_nat (b - a) = n ->
  StronglySorted Z.lt acc ->
  (forall y, In y acc -> seen y) ->
  (forall d, seen d -> In (dayString d) (map dayString acc)) ->
  (forall y d, seen y -> a <= d -> ~ seen d -> y < d) ->
  exists acc',
    fold_left Set_add (map dayString (daysFromTo a b)) (map dayString acc)
    = map dayString acc'
    /\ StronglySorted Z.lt acc'
    /\ (forall y, In y acc' -> seen y \/ a <= y < b)
    /\ (forall d, seen d \/ a <= d < b -> In (dayString d) (map dayString acc')).
Proof.
  induction n as [|n IH]; intros a b acc seen Hn S Hacc Hseen Hkey.
  - unfold daysFromTo. rewrite Hn. cbn [seq map fold_left].
    exists acc. repeat split; auto.
    intros d [Hd|Hd]; [auto|lia].
  - assert (a < b) as Hab by lia.
    rewrite daysFromTo_cons by assumption. cbn [map fold_left].
    rewrite Set_add_dayString.
    set (seen' := fun d => seen d \/ d = a).
    assert (Hkey' : forall y d, seen' y -> a + 1 <= d -> ~ seen' d -> y < d).
    { intros y d [Hy| ->] Hd Hnot; [|lia].
      apply Hkey; [assumption|lia|]. intros C. apply Hnot. left. exact C. }
    destruct (existsb (String.eqb (dayString a)) (map dayString acc)) eqn:E.
    + apply existsb_eqb_In in E.
      destruct (IH (a + 1) b acc seen') as (acc' & F & S' & In1 & In2); try assumption.
      * lia.
      * intros y Hy. left. apply Hacc, Hy.
      * intros d [Hd| ->]; [apply Hseen, Hd|exact E].
      * exists acc'. split; [exact F|]. split; [exact S'|]. split.
        -- intros y Hy. destruct (In1 y Hy) as [[Hs| ->]|Hr]; [left; exact Hs|right; lia|right; lia].
        -- intros d [Hd|Hd]; apply In2.
           ++ left. left. exact Hd.
           ++ destruct (Z.eq_dec d a) as [->|N]; [left; right; reflexivity|right; lia].
    + assert (~ seen a) as Hna.
      { intros C. apply Hseen, existsb_eqb_In in C. congruence. }
      destruct (IH (a + 1) b (acc ++ [a])%list seen') as (acc' & F & S' & In1 & In2).
      * lia.
      * apply StronglySorted_snoc; [exact S|].
        intros y Hy. apply (Hkey y a); [apply Hacc, Hy|lia|exact Hna].
      * intros y Hy. apply in_app_or in Hy as [Hy|[<-|[]]];
          [left; apply Hacc, Hy|right; reflexivity].
      * intros d [Hd| ->]; rewrite map_app; apply in_or_app.
        -- left. apply Hseen, Hd.
        -- right. left. reflexivity.
      * exact Hkey'.
      * exists acc'. split; [exact F|]. split; [exact S'|]. split.
        -- intros y Hy. destruct (In1 y Hy) as [[Hs| ->]|Hr]; [left; exact Hs|right; lia|right; lia].
        -- intros d [Hd|Hd]; apply In2.
           ++ left. left. exact Hd.
           ++ destruct (Z.eq_dec d a) as [->|N]; [left; right; reflexivity|right; lia].
Qed.

Lemma eventDays_interval host ev :
  exists a b, eventDays host ev = daysFromTo a b
              /\ (forall t, inicio host ev = Some t -> a = Day t).
Proof.
  unfold eventDays.
  destruct (inicio host ev) as [t|]; [destruct (fin host ev) as [f|]|].
  - eexists _, _. split; [reflexivity|]. intros t' [= <-]. reflexivity.
  - exists (Day t), (Day t). split.
    + unfold daysFromTo. rewrite Z.sub_diag. reflexivity.
    + intros t' [= <-]. reflexivity.
  - exists 0, 0. split; [reflexivity|discriminate].
Qed.

Lemma Day_mono x y : x <= y -> Day x <= Day y.
Proof. intros H. unfold Day. apply Z.div_le_mono; [reflexivity|exact H]. Qed.

Lemma eventDays_from_start host ev d t :
  In d (eventDays host ev) -> inicio host ev = Some t -> Day t <= d.
Proof.
  intros Hd Hi. unfold eventDays in Hd. rewrite Hi in Hd.
  destruct (fin host ev); [|destruct Hd].
  apply In_daysFromTo in Hd. lia.
Qed.

Lemma eventDays_has_start host ev d :
  In d (eventDays host ev) -> exists t, inicio host ev = Some t.
Proof.
  unfold eventDays. destruct (inicio host ev) as [t|]; [eauto|intros []].
Qed.

(** The days of an event are an interval: a day between two of them is
    one of them. *)
Lemma eventDays_convex host ev x d y :
  In x (eventDays host ev) -> In y (eventDays host ev) -> x <= d <= y ->
  In d (eventDays host ev).
Proof.
  destruct (eventDays_interval host ev) as (a & b & -> & _).
  rewrite !In_daysFromTo. lia.
Qed.

Lemma add_events host : forall rest (done : list Event) acc,
  StronglySorted (startsNoLater host) rest ->
  (forall e' e, In e' done -> In e rest -> startsNoLater host e' e) ->
  StronglySorted Z.lt acc ->
  (forall y, In y acc -> exists e, In e done /\ In y (eventDays host e)) ->
  (forall e d, In e done -> In d (eventDays host e) ->
               In (dayString d) (map dayString acc)) ->
  exists acc',
    fold_left Set_add (map dayString (flat_map (eventDays host) rest)) (map dayString acc)
    = map dayString acc'
    /\ StronglySorted Z.lt acc'.
Proof.
  induction rest as [|ev rest IH]; intros done acc Srest Hdone Sacc Hacc Hseen.
  - exists acc. split; [reflexivity|exact Sacc].
  - cbn [flat_map]. rewrite map_app, fold_left_app.
    apply StronglySorted_inv in Srest as [Srest Hev].
    rewrite Forall_forall in Hev.
    set (seen := fun d => exists e, In e done /\ In d (eventDays host e)).
    destruct (eventDays_interval host ev) as (a & b & Eab & Ha).
    assert (exists acc1,
      fold_left Set_add (map dayString (eventDays host ev)) (map dayString acc)
      = map dayString acc1
      /\ StronglySorted Z.lt acc1
      /\ (forall y, In y acc1 -> seen y \/ In y (eventDays host ev))
      /\ (forall d, seen d \/ In d (eventDays host ev) ->
                    In (dayString d) (map dayString acc1))) as (acc1 & F1 & S1 & I1 & I2).
    { destruct (eventDays host ev) as [|d0 ds] eqn:Edays.
      - exists acc. cbn [map fold_left].
        split; [reflexivity|]. split; [exact Sacc|]. split.
        + intros y Hy. left. apply Hacc, Hy.
        + intros d [(e & He & Hd)|[]]. apply (Hseen e d He Hd).
      - rewrite Eab.
        destruct (add_interval (Z.to_nat (b - a)) a b acc seen eq_refl Sacc)
          as (acc1 & F1 & S1 & I1 & I2).
        + exact Hacc.
        + intros d (e & He & Hd). apply (Hseen e d He Hd).
        + intros y d (e & He & Hy) Had Hnot.
          destruct (Z.lt_ge_cases y d) as [|Hge]; [assumption|exfalso].
          apply Hnot. exists e. split; [exact He|].
          destruct (eventDays_has_start host e y Hy) as (t' & Ht').
          assert (exists t, inicio host ev = Some t) as (t & Ht).
          { apply (eventDays_has_start host ev d0). rewrite Edays. left. reflexivity. }
          pose proof (Hdone e ev He (or_introl eq_refl)) as Hle.
          unfold startsNoLater in Hle. rewrite Ht', Ht in Hle.
          apply (eventDays_convex host e (Day t') d y).
          * pose proof (eventDays_from_start host e y t' Hy Ht').
            destruct (eventDays_interval host e) as (a' & b' & E' & Ha').
            rewrite E' in *. apply In_daysFromTo in Hy. apply In_daysFromTo.
            rewrite (Ha' t' Ht') in *. lia.
          * exact Hy.
          * rewrite (Ha t Ht) in Had. pose proof (Day_mono t' t Hle). lia.
        + exists acc1. split; [exact F1|]. split; [exact S1|]. split.
          * intros y Hy. destruct (I1 y Hy) as [|Hr]; [left; assumption|right].
            apply In_daysFromTo. exact Hr.
          * intros d [Hd|Hd]; apply I2; [left; exact Hd|right].
            apply In_daysFromTo in Hd. exact Hd. }
    rewrite F1.
    apply (IH (ev :: done) acc1); try assumption.
    + intros e' e [<-|He'] He; [apply Hev, He|].
      apply Hdone; [exact He'|right; exact He].
    + intros y Hy. destruct (I1 y Hy) as [(e & He & Hd)|Hd].
      * exists e. split; [right; exact He|exact Hd].
      * exists ev. split; [left; reflexivity|exact Hd].
    + intros e d [<-|He] Hd; apply I2; [right; exact Hd|].
      left. exists e. split; assumption.
Qed.

(** X1. On a host with a fixed offset, when the service lists the
    events in the order of their start, as the handler asks it to
    ([orderBy: 'startTime']), the dates are returned in ascending
    order: they are the dates of days that increase strictly, whether
    the events overlap or not. *)
Theorem X1_dates_ascend_when_events_ordered_by_start :
  forall host eventos,
    fixedOffset host ->
    StronglySorted (startsNoLater host) eventos ->
    exists days,
      StronglySorted Z.lt days
      /\ fechasUnicas host eventos = map dayString days.
Proof.
  intros host eventos Fx S.
  destruct (add_events host eventos [] [] S) as (days & F & Sd).
  - intros e' e [].
  - constructor.
  - intros y [].
  - intros e d [].
  - exists days. split; [exact Sd|].
    unfold fechasUnicas, Set_from. rewrite fechasOcupadas_eventDays by exact Fx.
    exact F.
Qed.

Lemma X1_dates_ascend_when_events_ordered_by_start_witness :
  fixedOffset utc
  /\ StronglySorted (startsNoLater utc)
    [allDay "2024-06-01" "2024-06-05"; allDay "2024-06-02" "2024-06-03";
     timed "2024-06-02T15:00:00Z" "2024-06-07T11:00:00Z"]
  /\ exists days,
      StronglySorted Z.lt days
      /\ fechasUnicas utc
           [allDay "2024-06-01" "2024-06-05"; allDay "2024-06-02" "2024-06-03";
            timed "2024-06-02T15:00:00Z" "2024-06-07T11:00:00Z"]
         = map dayString days.
Proof.
  assert (StronglySorted (startsNoLater utc)
    [allDay "2024-06-01" "2024-06-05"; allDay "2024-06-02" "2024-06-03";
     timed "2024-06-02T15:00:00Z" "2024-06-07T11:00:00Z"]) as S.
  { repeat constructor; vm_compute; discriminate. }
  split; [exact (atOffset_fixed 0)|]. split; [exact S|].
  exact (X1_dates_ascend_when_events_ordered_by_start utc _ (atOffset_fixed 0) S).
Defined.

(** On a host with daylight saving the order can be lost: on the time
    of Santiago the event from 2024-09-01 to 2025-04-10 leaves out
    2025-04-06, and a later event brings this date after 2025-04-09. *)
Example dates_out_of_order_on_santiago :
  let dates := fechasUnicas santiago [allDay "2024-09-01" "2025-04-10";
                                      allDay "2025-04-05" "2025-04-08"] in
  skipn (List.length dates - 3) dates = ["2025-04-08"; "2025-04-09"; "2025-04-06"].
Proof. vm_compute. reflexivity. Qed.

(** ** The dates that are returned are dates of the calendar *)

(** X5. When the events lie in the years 0 to 9999, every date that is
    returned is a date of the calendar written ["YYYY-MM-DD"], which
    [new Date] reads back as the start of that day in UTC, and it is
    the date of a day that an event touches: the day does not end
    before the event starts, and it starts before the event ends. *)
Theorem X5_returned_dates_are_calendar_dates_of_events :
  forall host eventos,
    (forall ev t f, In ev eventos ->
        inicio host ev = Some t -> fin host ev = Some f ->
        0 <= YearFromTime t /\ YearFromTime f <= 9999) ->
    forall x, In x (fechasUnicas host eventos) ->
      exists c ev t f,
        validDate c = true /\ x = iso c
        /\ Date_parse host x = Some (dayNumber c * msPerDay)
        /\ In ev eventos /\ inicio host ev = Some t /\ fin host ev = Some f
        /\ t < (dayNumber c + 1) * msPerDay /\ dayNumber c * msPerDay < f.
Proof.
  intros host eventos Hyears x Hx.
  unfold fechasUnicas in Hx.
  apply (proj1 (Set_from_In _ _)) in Hx.
  apply (proj1 (In_fechasOcupadas _ _ _)) in Hx as (ev & Hev & Hx).
  rewrite fechasOcupadas_one in Hx. unfold forEvento in Hx.
  destruct (inicio host ev) as [t|] eqn:Hi;
    [|rewrite walk_NaN_l in Hx; destruct Hx].
  destruct (fin host ev) as [f|] eqn:Hf;
    [|rewrite walk_NaN_r in Hx; destruct Hx].
  apply walk_instants in Hx as (u & Hu & ->).
  destruct (Hyears ev t f Hev Hi Hf) as [Hy0 Hy1].
  assert (Day t <= Day u <= Day f) as Hd
    by (unfold Day, msPerDay; Z.to_euclidean_division_equations; lia).
  assert (validDate (dateOfDay (Day u)) = true) as Hv.
  { apply validDate_dateOfDay. unfold YearFromTime in *.
    pose proof (YearFromDay_mono (Day t) (Day u) ltac:(lia)).
    pose proof (YearFromDay_mono (Day u) (Day f) ltac:(lia)). lia. }
  exists (dateOfDay (Day u)), ev, t, f.
  rewrite dayNumber_dateOfDay, fechaString_Day.
  split; [exact Hv|]. split; [reflexivity|]. split.
  - rewrite Date_parse_iso by exact Hv.
    rewrite dayNumber_dateOfDay. reflexivity.
  - repeat split; try assumption;
      unfold Day, msPerDay in *; Z.to_euclidean_division_equations; lia.
Qed.

Lemma X5_returned_dates_are_calendar_dates_of_events_witness :
  In "2024-06-02" (fechasUnicas utc [timed "2024-06-01T22:00:00-04:00"
                                           "2024-06-03T10:00:00-04:00"])
  /\ exists c ev t f,
      validDate c = true /\ "2024-06-02" = iso c
      /\ Date_parse utc "2024-06-02" = Some (dayNumber c * msPerDay)
      /\ In ev [timed "2024-06-01T22:00:00-04:00" "2024-06-03T10:00:00-04:00"]
      /\ inicio utc ev = Some t /\ fin utc ev = Some f
      /\ t < (dayNumber c + 1) * msPerDay /\ dayNumber c * msPerDay < f.
Proof.
  assert (In "2024-06-02" (fechasUnicas utc [timed "2024-06-01T22:00:00-04:00"
                                                   "2024-06-03T10:00:00-04:00"])) as I
    by (vm_compute; left; reflexivity).
  split; [exact I|].
  apply (X5_returned_dates_are_calendar_dates_of_events utc
           [timed "2024-06-01T22:00:00-04:00" "2024-06-03T10:00:00-04:00"]);
    [|exact I].
  intros ev t f [<-|[]] Hi Hf.
  vm_compute in Hi. vm_compute in Hf.
  injection Hi as <-. injection Hf as <-. vm_compute. split; discriminate.
Defined.

(** * Part 19. Instants written and read back *)

Lemma readDigits_pad3 n rest :
  0 <= n <= 999 -> readDigits 3 (padDigits 3 n ++ rest) = Some (n, rest).
Proof.
  intros H.
  change (padDigits 3 n ++ rest)
    with (String (digitChar (n / 100 mod 10)) (String (digitChar (n / 10 mod 10))
         (String (digitChar (n / 1 mod 10)) rest))).
  rewrite !readDigits_S by apply mod10_range.
  cbn [readDigits]. do 2 f_equal.
  change (10 ^ Z.of_nat 2) with 100.
  change (10 ^ Z.of_nat 1) with 10. change (10 ^ Z.of_nat 0) with 1.
  Z.to_euclidean_division_equations; lia.
Qed.

Lemma append_assoc_r (a b c : string) : (a ++ b) ++ c = a ++ (b ++ c).
Proof. induction a as [|x a IH]; simpl; [|rewrite IH]; reflexivity. Qed.

(** The time of day of [toISOString], read back. *)
Lemma parseTime_written t rest :
  parseTime (padDigits 2 (HourFromTime t) ++ ":" ++ padDigits 2 (MinFromTime t)
             ++ ":" ++ padDigits 2 (SecFromTime t)
             ++ "." ++ padDigits 3 (msFromTime t) ++ rest)
  = Some (TimeWithinDay t, rest).
Proof.
  assert (0 <= HourFromTime t <= 23) as Hh
    by (unfold HourFromTime; pose proof (Z.mod_pos_bound (t / msPerHour) 24); lia).
  assert (0 <= MinFromTime t <= 59) as Hm
    by (unfold MinFromTime; pose proof (Z.mod_pos_bound (t / msPerMinute) 60); lia).
  assert (0 <= SecFromTime t <= 59) as Hs
    by (unfold SecFromTime; pose proof (Z.mod_pos_bound (t / msPerSecond) 60); lia).
  assert (0 <= msFromTime t <= 999) as Hms
    by (unfold msFromTime, msPerSecond; pose proof (Z.mod_pos_bound t 1000); lia).
  unfold parseTime.
  rewrite readDigits_pad2 by lia.
  change (":" ++ ?s) with (String ":" s). rewrite expect_app.
  rewrite readDigits_pad2 by lia.
  change (":" ++ ?s) with (String ":" s). rewrite expect_app.
  rewrite readDigits_pad2 by lia.
  change ("." ++ ?s) with (String "." s). rewrite expect_app.
  rewrite readDigits_pad3 by lia.
  destruct (Z.leb_spec (HourFromTime t) 23); [|lia].
  destruct (Z.leb_spec (MinFromTime t) 59); [|lia].
  destruct (Z.leb_spec (SecFromTime t) 59); [|lia].
  cbn [andb]. do 2 f_equal.
  unfold MakeTime, TimeWithinDay, HourFromTime, MinFromTime, SecFromTime, msFromTime,
    msPerHour, msPerMinute, msPerSecond, msPerDay.
  Z.to_euclidean_division_equations; lia.
Qed.

Lemma fourDigitYears_range t :
  inFourDigitYears t -> - maxTime <= t <= maxTime.
Proof.
  unfold inFourDigitYears, YearFromTime. intros H.
  pose proof (YearFromDay_spec (Day t)) as S.
  pose proof (DayFromYear_mono 0 (YearFromDay (Day t)) ltac:(lia)) as H0.
  pose proof (DayFromYear_mono (YearFromDay (Day t) + 1) 10000 ltac:(lia)) as H1.
  change (DayFromYear 0) with (- 719528) in H0.
  change (DayFromYear 10000) with 2932897 in H1.
  unfold Day, msPerDay, maxTime in *. Z.to_euclidean_division_equations; lia.
Qed.

Lemma validDate_of_time t :
  inFourDigitYears t ->
  1 <= MonthFromTime t + 1 <= 12
  /\ 1 <= DateFromTime t <= DaysInMonth (YearFromTime t) (MonthFromTime t + 1).
Proof.
  intros H.
  assert (validDate (dateOfDay (Day t)) = true) as V
    by (apply validDate_dateOfDay; exact H).
  apply validDate_spec in V. unfold dateOfDay in V. cbn [year month day] in V.
  unfold YearFromTime, MonthFromTime, DateFromTime, InLeapYear, DayWithinYear,
    MonthFromTime, InLeapYear, DayWithinYear, YearFromTime in *.
  rewrite !Day_mul in V. lia.
Qed.

(** [new Date(d.toISOString())] is [d] again. *)
Lemma Date_parse_toISOString host t :
  inFourDigitYears t -> Date_parse host (toISOString t) = Some t.
Proof.
  intros H. pose proof (fourDigitYears_range t H) as Hr.
  destruct (validDate_of_time t H) as [Hm Hd].
  assert (DateFromTime t <= 31) as Hd31.
  { unfold DaysInMonth in Hd. pose proof (LeapOfYear_range (YearFromTime t)).
    destruct (MonthFromTime t + 1 =? 2); [lia|].
    destruct ((MonthFromTime t + 1 =? 4) || (MonthFromTime t + 1 =? 6)
              || (MonthFromTime t + 1 =? 9) || (MonthFromTime t + 1 =? 11)); lia. }
  unfold inFourDigitYears in H.
  assert (parseDateTime host (toISOString t) = Some t) as P.
  { unfold parseDateTime, toISOString, isoDate, yearString.
    destruct (Z.leb_spec 0 (YearFromTime t)); [|lia].
    destruct (Z.leb_spec (YearFromTime t) 9999); [|lia]. cbn [andb].
    rewrite !append_assoc_r.
    rewrite readDigits_pad4 by lia.
    change ("-" ++ ?s) with (String "-" s). rewrite expect_app.
    rewrite readDigits_pad2 by lia.
    change ("-" ++ ?s) with (String "-" s). rewrite expect_app.
    rewrite readDigits_pad2 by lia.
    destruct (Z.leb_spec 1 (MonthFromTime t + 1)); [|lia].
    destruct (Z.leb_spec (MonthFromTime t + 1) 12); [|lia].
    destruct (Z.leb_spec 1 (DateFromTime t)); [|lia].
    destruct (Z.leb_spec (DateFromTime t)
                (DaysInMonth (YearFromTime t) (MonthFromTime t + 1))); [|lia].
    cbn [andb].
    change ("T" ++ ?s) with (String "T" s). cbv iota.
    change (Ascii.eqb "T" "T") with true. cbv iota.
    rewrite parseTime_written. cbn [parseZone].
    change (Ascii.eqb "Z" "Z") with true. cbv iota. f_equal.
    replace (MonthFromTime t + 1 - 1) with (MonthFromTime t) by lia.
    pose proof (MakeDay_DateFromTime t 0) as E. rewrite Z.add_0_r in E. rewrite E.
    rewrite Z.add_0_r in *. 
    pose proof (MakeDate_Day_TimeWithinDay t 0) as E2. rewrite Z.add_0_r in E2.
    rewrite E2. lia. }
  unfold Date_parse. rewrite P. unfold TimeClip.
  destruct (Z.gtb_spec (Z.abs t) maxTime); [lia|reflexivity].
Qed.

(** * Part 20. The runs of [GET /disponibilidad] *)

Ltac step H := inversion H; subst; clear H.

(** The three ways in which the handler runs: the credential fails; the
    date 90 days from now is no time value; the events are asked for,
    from the date of the first reading of the clock up to 90 days after
    the second. *)
Lemma disponibilidad_runs host calls status body :
  runs (disponibilidad host) calls status body ->
  (exists error,
      calls = [CallGetClient disponibilidadAuth (Rejected error)]
      /\ status = 500 /\ body = disponibilidadError error)
  \/ (exists authClient now now',
        calls = [CallGetClient disponibilidadAuth (Fulfilled authClient);
                 CallNewDate now; CallDateNow now']
        /\ TimeClip (now' + ninetyDays) = None
        /\ status = 500 /\ body = disponibilidadError RangeError_invalid_time)
  \/ (exists authClient now now' answer,
        calls = [CallGetClient disponibilidadAuth (Fulfilled authClient);
                 CallNewDate now; CallDateNow now';
                 CallEventsList {| list_auth := authClient;
                                   list_calendarId := CALENDAR_ID;
                                   timeMin := toISOString now;
                                   timeMax := toISOString (now' + ninetyDays);
                                   singleEvents := true;
                                   orderBy := "startTime" |} answer]
        /\ TimeClip (now' + ninetyDays) = Some (now' + ninetyDays)
        /\ match answer with
           | Rejected error => status = 500 /\ body = disponibilidadError error
           | Fulfilled eventos =>
               status = 200
               /\ body = JObject [
                    ("success", JBool true);
                    ("fechasOcupadas", JArray (map JString (fechasUnicas host eventos)));
                    ("totalEventos", JNumber (Z.of_nat (List.length eventos)));
                    ("calendarId", JString CALENDAR_ID)]
           end).
Proof.
  intros H. unfold disponibilidad in H. step H.
  match goal with
  | R : runs (match ?a with Fulfilled _ => _ | Rejected _ => _ end) _ _ _ |- _ =>
      destruct a as [authClient|error]; step R
  end.
  - match goal with R : runs (DateNow _) _ _ _ |- _ => step R end.
    match goal with
    | R : runs (match TimeClip (?n' + ?d) with Some _ => _ | None => _ end) _ _ _ |- _ =>
        change (TimeClip (n' + d)) with (TimeClip (n' + ninetyDays)) in R;
        destruct (TimeClip (n' + ninetyDays)) as [later|] eqn:E; step R
    end.
    + pose proof (TimeClip_Some _ _ E) as ->.
      match goal with
      | R : runs (match ?a with Fulfilled _ => _ | Rejected _ => _ end) _ _ _ |- _ =>
          destruct a as [eventos|error]; step R
      end;
        (right; right; eexists _, _, _, _;
         split; [reflexivity|]; split; [exact E|]; split; reflexivity).
    + right. left. eexists _, _, _. auto.
  - left. exists error. auto.
Qed.

(** X6. The events are asked for in a window that starts at the first
    reading of the clock and ends 90 days after the second: the two
    limits sent to the calendar, read back as dates, are these two
    instants to the millisecond.  The request is for single events in
    the order of their start, in the calendar of the application, with
    the credential just obtained. *)
Theorem X6_listing_window :
  forall host calls status body auth authClient now now' params answer,
    runs (disponibilidad host) calls status body ->
    In (CallGetClient auth (Fulfilled authClient)) calls ->
    In (CallNewDate now) calls ->
    In (CallDateNow now') calls ->
    In (CallEventsList params answer) calls ->
    inFourDigitYears now ->
    inFourDigitYears (now' + ninetyDays) ->
    Date_parse host (timeMin params) = Some now
    /\ Date_parse host (timeMax params) = Some (now' + ninetyDays)
    /\ list_auth params = authClient
    /\ list_calendarId params = CALENDAR_ID
    /\ singleEvents params = true
    /\ orderBy params = "startTime".
Proof.
  intros host calls status body auth authClient now now' params answer
         H Hc Hn Hn' Hl Y Y'.
  destruct (disponibilidad_runs host calls status body H)
    as [(error & -> & _)|[(c & n & n' & -> & _)|(c & n & n' & a & -> & _)]].
  - cbn [In] in Hl. destruct Hl as [Hl|[]]. discriminate.
  - cbn [In] in Hl. repeat destruct Hl as [Hl|Hl]; try discriminate. destruct Hl.
  - cbn [In] in Hc, Hn, Hn', Hl.
    repeat destruct Hc as [Hc|Hc]; try discriminate; try contradiction.
    repeat destruct Hn as [Hn|Hn]; try discriminate; try contradiction.
    repeat destruct Hn' as [Hn'|Hn']; try discriminate; try contradiction.
    repeat destruct Hl as [Hl|Hl]; try discriminate; try contradiction.
    injection Hc as _ ->. injection Hn as ->. injection Hn' as ->.
    injection Hl as <- _. cbn [timeMin timeMax list_auth list_calendarId singleEvents orderBy].
    rewrite !Date_parse_toISOString by assumption. repeat split; reflexivity.
Qed.

Lemma X6_listing_window_witness :
  Date_parse utc "2024-06-01T00:00:00.000Z" = Some 1717200000000
  /\ Date_parse utc "2024-08-30T00:00:00.005Z" = Some (1717200000005 + ninetyDays).
Proof.
  assert (runs (disponibilidad utc)
            [CallGetClient disponibilidadAuth (Fulfilled 1%nat);
             CallNewDate 1717200000000; CallDateNow 1717200000005;
             CallEventsList {| list_auth := 1%nat;
                               list_calendarId := CALENDAR_ID;
                               timeMin := "2024-06-01T00:00:00.000Z";
                               timeMax := "2024-08-30T00:00:00.005Z";
                               singleEvents := true;
                               orderBy := "startTime" |} (Fulfilled [])]
            200
            (JObject [
               ("success", JBool true);
               ("fechasOcupadas", JArray []);
               ("totalEventos", JNumber 0);
               ("calendarId", JString CALENDAR_ID)])) as R.
  { apply (runs_GetClient _ _ (Fulfilled 1%nat)).
    apply (runs_NewDate _ 1717200000000).
    apply (runs_DateNow _ 1717200000005).
    apply (runs_EventsList _ _ (Fulfilled [])).
    apply runs_Respond. }
  pose proof (X6_listing_window utc _ _ _ disponibilidadAuth 1%nat
                1717200000000 1717200000005
                {| list_auth := 1%nat;
                   list_calendarId := CALENDAR_ID;
                   timeMin := "2024-06-01T00:00:00.000Z";
                   timeMax := "2024-08-30T00:00:00.005Z";
                   singleEvents := true;
                   orderBy := "startTime" |} (Fulfilled []) R) as H.
  cbn [In timeMin timeMax] in H.
  destruct H as (H1 & H2 & _); auto 6.
  - unfold inFourDigitYears. vm_compute. split; discriminate.
  - unfold inFourDigitYears. vm_compute. split; discriminate.
Defined.

(** X7. [GET /disponibilidad] answers 200 exactly when the calendar
    returned the events, and otherwise 500.  The body of a 200 holds
    the dates of the events returned, each once, and the number of
    these events, whether they add a date or not.  Whenever a call
    fails, the body holds the message of its error under [error] and no
    date; the only other failure is a clock less than 90 days from the
    last time value, on which no event is asked for. *)
Theorem X7_availability_answer :
  forall host calls status body,
    runs (disponibilidad host) calls status body ->
    (status = 200 \/ status = 500)
    /\ (status = 200
        <-> exists params eventos, In (CallEventsList params (Fulfilled eventos)) calls)
    /\ (forall params eventos,
          In (CallEventsList params (Fulfilled eventos)) calls ->
          body = JObject [
                   ("success", JBool true);
                   ("fechasOcupadas", JArray (map JString (fechasUnicas host eventos)));
                   ("totalEventos", JNumber (Z.of_nat (List.length eventos)));
                   ("calendarId", JString CALENDAR_ID)])
    /\ (forall c error,
          In c calls -> rejection c = Some error ->
          status = 500 /\ body = disponibilidadError error)
    /\ (status = 500 ->
        (exists c error, In c calls /\ rejection c = Some error)
        \/ (existsb isList calls = false
            /\ body = disponibilidadError RangeError_invalid_time
            /\ exists now', In (CallDateNow now') calls
                            /\ maxTime < Z.abs (now' + ninetyDays))).
Proof.
  intros host calls status body H.
  destruct (disponibilidad_runs host calls status body H)
    as [(error & -> & -> & ->)
       |[(c & n & n' & -> & E & -> & ->)|(c & n & n' & a & -> & E & Ha)]].
  - split; [right; reflexivity|]. split; [|split; [|split]].
    + split; [discriminate|]. intros (p & ev & [Hin|[]]). discriminate.
    + intros p ev [Hin|[]]. discriminate.
    + intros c e [<-|[]] [= <-]. auto.
    + intros _. left. eexists _, _. split; [left; reflexivity|reflexivity].
  - split; [right; reflexivity|]. split; [|split; [|split]].
    + split; [discriminate|]. intros (p & ev & Hin). cbn [In] in Hin.
      repeat destruct Hin as [Hin|Hin]; try discriminate. destruct Hin.
    + intros p ev Hin. cbn [In] in Hin.
      repeat destruct Hin as [Hin|Hin]; try discriminate. destruct Hin.
    + intros c0 e Hin. cbn [In] in Hin.
      repeat destruct Hin as [Hin|Hin]; subst; try discriminate. destruct Hin.
    + intros _. right. split; [reflexivity|]. split; [reflexivity|].
      exists n'. split; [cbn [In]; auto|].
      unfold TimeClip in E.
      destruct (Z.gtb_spec (Z.abs (n' + ninetyDays)) maxTime); [lia|discriminate].
  - destruct a as [eventos|error]; destruct Ha as [-> ->].
    + split; [left; reflexivity|]. split; [|split; [|split]].
      * split; [|reflexivity]. intros _. eexists _, _. cbn [In]. auto 6.
      * intros p ev Hin. cbn [In] in Hin.
        repeat destruct Hin as [Hin|Hin]; try discriminate; try contradiction.
        injection Hin as _ <-. reflexivity.
      * intros c0 e Hin. cbn [In] in Hin.
        repeat destruct Hin as [Hin|Hin]; subst; try discriminate. destruct Hin.
      * discriminate.
    + split; [right; reflexivity|]. split; [|split; [|split]].
      * split; [discriminate|]. intros (p & ev & Hin). cbn [In] in Hin.
        repeat destruct Hin as [Hin|Hin]; try discriminate. destruct Hin.
      * intros p ev Hin. cbn [In] in Hin.
        repeat destruct Hin as [Hin|Hin]; try discriminate. destruct Hin.
      * intros c0 e Hin. cbn [In] in Hin.
        repeat destruct Hin as [Hin|Hin]; subst; try discriminate; try contradiction.
        intros [= <-]. auto.
      * intros _. left. eexists _, _.
        split; [do 3 right; left; reflexivity|reflexivity].
Qed.

Lemma X7_availability_answer_witness :
  runs (disponibilidad utc)
       [CallGetClient disponibilidadAuth (Fulfilled 1%nat);
        CallNewDate 1717200000000; CallDateNow 1717200000005;
        CallEventsList {| list_auth := 1%nat;
                          list_calendarId := CALENDAR_ID;
                          timeMin := toISOString 1717200000000;
                          timeMax := toISOString (1717200000005 + ninetyDays);
                          singleEvents := true;
                          orderBy := "startTime" |}
                       (Rejected forbidden)]
       500 (disponibilidadError forbidden)
  /\ (500 = 200 \/ 500 = 500).
Proof.
  assert (runs (disponibilidad utc)
       [CallGetClient disponibilidadAuth (Fulfilled 1%nat);
        CallNewDate 1717200000000; CallDateNow 1717200000005;
        CallEventsList {| list_auth := 1%nat;
                          list_calendarId := CALENDAR_ID;
                          timeMin := toISOString 1717200000000;
                          timeMax := toISOString (1717200000005 + ninetyDays);
                          singleEvents := true;
                          orderBy := "startTime" |}
                       (Rejected forbidden)]
       500 (disponibilidadError forbidden)) as R.
  { apply (runs_GetClient _ _ (Fulfilled 1%nat)).
    apply (runs_NewDate _ 1717200000000).
    apply (runs_DateNow _ 1717200000005).
    apply (runs_EventsList _ _ (Rejected forbidden)).
    apply runs_Respond. }
  split; [exact R|].
  exact (proj1 (X7_availability_answer utc _ _ _ R)).
Defined.

(** * Part 21. The runs of [POST /agendar] *)

(** The five ways in which the handler runs. *)
Lemma agendar_runs host b calls status body :
  runs (agendar host b) calls status body ->
  (faltanCampos b = true
   /\ calls = [] /\ status = 400 /\ body = faltanCamposResponse)
  \/ (faltanCampos b = false
      /\ exists error,
          calls = [CallGetClient agendarAuth (Rejected error)]
          /\ status = 500 /\ body = agendarError error)
  \/ (faltanCampos b = false
      /\ event host b = None
      /\ exists authClient,
          calls = [CallGetClient agendarAuth (Fulfilled authClient)]
          /\ status = 500 /\ body = agendarError TypeError_not_primitive)
  \/ (faltanCampos b = false
      /\ exists resource authClient error,
          event host b = Some resource
          /\ calls = [CallGetClient agendarAuth (Fulfilled authClient);
                      CallEventsInsert {| insert_auth := authClient;
                                          insert_calendarId := CALENDAR_ID;
                                          resource := resource |} (Rejected error)]
          /\ status = 500 /\ body = agendarError error)
  \/ (faltanCampos b = false
      /\ exists resource authClient data now x,
          event host b = Some resource
          /\ Random_ok x
          /\ calls = [CallGetClient agendarAuth (Fulfilled authClient);
                      CallEventsInsert {| insert_auth := authClient;
                                          insert_calendarId := CALENDAR_ID;
                                          resource := resource |} (Fulfilled data);
                      CallNewDate now; CallMathRandom x]
          /\ status = 200
          /\ body = JObject [
               ("success", JBool true);
               ("eventId", id data);
               ("reservationCode",
                JString (reservationCodeOf host (getFullYear host now) x));
               ("message", JString "Reserva creada exitosamente en Google Calendar");
               ("eventLink", htmlLink data)]).
Proof.
  intros H. unfold agendar in H. destruct (faltanCampos b) eqn:Hf.
  - left. step H. auto.
  - right. step H.
    match goal with
    | R : runs (match ?a with Fulfilled _ => _ | Rejected _ => _ end) _ _ _ |- _ =>
        destruct a as [authClient|error]
    end.
    + destruct (event host b) as [resource|] eqn:Ev.
      * match goal with R : runs (EventsInsert _ _) _ _ _ |- _ => step R end.
        match goal with
        | R : runs (match ?a with Fulfilled _ => _ | Rejected _ => _ end) _ _ _ |- _ =>
            destruct a as [data|error]; step R
        end.
        -- match goal with R : runs (MathRandom _) _ _ _ |- _ => step R end.
           match goal with R : runs (Respond _ _) _ _ _ |- _ => step R end.
           do 3 right. split; [reflexivity|]. eexists _, _, _, _, _.
           split; [reflexivity|]. split; [eassumption|].
           split; [reflexivity|]. split; reflexivity.
        -- do 2 right. left. split; [reflexivity|]. eexists _, _, _.
           split; [reflexivity|]. split; [reflexivity|]. split; reflexivity.
      * match goal with R : runs (agendar_catch _) _ _ _ |- _ => step R end.
        right. left. split; [reflexivity|]. split; [reflexivity|]. eexists.
        split; [reflexivity|]. split; reflexivity.
    + match goal with R : runs (agendar_catch _) _ _ _ |- _ => step R end.
      left. split; [reflexivity|]. eexists. split; [reflexivity|]. split; reflexivity.
Qed.

(** Splitting the runs of the handler into these five. *)
Ltac agendar_cases host b calls status body H :=
  destruct (agendar_runs host b calls status body H)
    as [(?Hf & -> & -> & ->)
       |[(?Hf & ?error & -> & -> & ->)
        |[(?Hf & ?Ev & ?authClient & -> & -> & ->)
         |[(?Hf & ?resource & ?authClient & ?error & ?Ev & -> & -> & ->)
          |(?Hf & ?resource & ?authClient & ?data & ?now & ?x & ?Ev & ?Hx
            & -> & -> & ->)]]]].

Ltac in_calls H :=
  cbn [In] in H; try contradiction H;
  repeat (destruct H as [H|H]; try discriminate H; try contradiction H).

(** X8. A reservation is answered with 200 exactly when its event was
    inserted: after the insert nothing can fail, so no event is left in
    the calendar behind an answer of failure.  A run inserts at most
    once, into the calendar of the application, the event built from
    the request; the answer gives the identifier and the link that the
    calendar returned for it, and the code made from the year of the
    clock and the random number drawn after the insert. *)
Theorem X8_event_inserted_exactly_on_success :
  forall host b calls status body,
    runs (agendar host b) calls status body ->
    (List.length (filter isInsert calls) <= 1)%nat
    /\ (status = 200
        <-> exists params data, In (CallEventsInsert params (Fulfilled data)) calls)
    /\ (forall params answer,
          In (CallEventsInsert params answer) calls ->
          event host b = Some (resource params)
          /\ insert_calendarId params = CALENDAR_ID
          /\ exists authClient,
               In (CallGetClient agendarAuth (Fulfilled authClient)) calls
               /\ insert_auth params = authClient)
    /\ (forall params data,
          In (CallEventsInsert params (Fulfilled data)) calls ->
          prop "success" body = JBool true
          /\ prop "eventId" body = id data
          /\ prop "eventLink" body = htmlLink data
          /\ exists now x,
               calls = [CallGetClient agendarAuth (Fulfilled (insert_auth params));
                        CallEventsInsert params (Fulfilled data);
                        CallNewDate now; CallMathRandom x]
               /\ prop "reservationCode" body
                  = JString (reservationCodeOf host (getFullYear host now) x)).
Proof.
  intros host b calls status body H.
  agendar_cases host b calls status body H.
  - split; [cbn; lia|]. split; [|split].
    + split; [discriminate|]. intros (p & d & []).
    + intros p a [].
    + intros p d [].
  - split; [cbn; lia|]. split; [|split].
    + split; [discriminate|]. intros (p & d & Hin). in_calls Hin.
    + intros p a Hin. in_calls Hin.
    + intros p d Hin. in_calls Hin.
  - split; [cbn; lia|]. split; [|split].
    + split; [discriminate|]. intros (p & d & Hin). in_calls Hin.
    + intros p a Hin. in_calls Hin.
    + intros p d Hin. in_calls Hin.
  - split; [cbn; lia|]. split; [|split].
    + split; [discriminate|]. intros (p & d & Hin). in_calls Hin.
    + intros p a Hin. in_calls Hin. injection Hin as <- _.
      split; [exact Ev|]. split; [reflexivity|].
      exists authClient. split; [left; reflexivity|reflexivity].
    + intros p d Hin. in_calls Hin.
  - split; [cbn; lia|]. split; [|split].
    + split; [|reflexivity]. intros _. eexists _, _. right. left. reflexivity.
    + intros p a Hin. in_calls Hin. injection Hin as <- _.
      split; [exact Ev|]. split; [reflexivity|].
      exists authClient. split; [left; reflexivity|reflexivity].
    + intros p d Hin. in_calls Hin. injection Hin as <- <-.
      split; [reflexivity|]. split; [reflexivity|]. split; [reflexivity|].
      exists now, x. split; reflexivity.
Qed.

Lemma X8_event_inserted_exactly_on_success_witness :
  runs (agendar utc reservaCompleta)
       [CallGetClient agendarAuth (Fulfilled 1%nat);
        CallEventsInsert {| insert_auth := 1%nat;
                            insert_calendarId := CALENDAR_ID;
                            resource := built (event utc reservaCompleta) |} (Fulfilled insertado);
        CallNewDate 1717200000000;
        CallMathRandom oneHalf]
       200
       (JObject [
          ("success", JBool true);
          ("eventId", JString "evt1");
          ("reservationCode", JString "CB-2024-I");
          ("message", JString "Reserva creada exitosamente en Google Calendar");
          ("eventLink", JString "https://calendar.example/evt1")])
  /\ (1 <= 1)%nat.
Proof.
  assert (runs (agendar utc reservaCompleta)
       [CallGetClient agendarAuth (Fulfilled 1%nat);
        CallEventsInsert {| insert_auth := 1%nat;
                            insert_calendarId := CALENDAR_ID;
                            resource := built (event utc reservaCompleta) |} (Fulfilled insertado);
        CallNewDate 1717200000000;
        CallMathRandom oneHalf]
       200
       (JObject [
          ("success", JBool true);
          ("eventId", JString "evt1");
          ("reservationCode", JString "CB-2024-I");
          ("message", JString "Reserva creada exitosamente en Google Calendar");
          ("eventLink", JString "https://calendar.example/evt1")])) as R.
  { apply (runs_GetClient agendarAuth _ (Fulfilled 1%nat)).
    apply (runs_EventsInsert _ _ (Fulfilled insertado)).
    apply (runs_NewDate _ 1717200000000).
    apply (runs_MathRandom _ oneHalf); [unfold Random_ok; simpl; lia|].
    apply runs_Respond. }
  split; [exact R|].
  exact (proj1 (X8_event_inserted_exactly_on_success utc reservaCompleta _ _ _ R)).
Defined.

(** X9. When the credential of [POST /agendar] cannot be obtained, the
    handler inserts nothing and answers 500 with the body of a failed
    insert: the message of the error, its code under [details], and
    the hint chosen by this code. *)
Theorem X9_no_insert_without_credential :
  forall host b calls status body auth error,
    runs (agendar host b) calls status body ->
    In (CallGetClient auth (Rejected error)) calls ->
    calls = [CallGetClient agendarAuth (Rejected error)]
    /\ existsb isInsert calls = false
    /\ status = 500
    /\ body = agendarError error
    /\ prop "error" body = error_message error
    /\ prop "code" (prop "details" body) = error_code error.
Proof.
  intros host b calls status body auth error0 H Hin.
  agendar_cases host b calls status body H; in_calls Hin.
  injection Hin as _ <-. repeat split; reflexivity.
Qed.

Lemma X9_no_insert_without_credential_witness :
  runs (agendar utc reservaCompleta)
       [CallGetClient agendarAuth (Rejected forbidden)] 500 (agendarError forbidden)
  /\ existsb isInsert [CallGetClient agendarAuth (Rejected forbidden)] = false.
Proof.
  assert (runs (agendar utc reservaCompleta)
            [CallGetClient agendarAuth (Rejected forbidden)] 500
            (agendarError forbidden)) as R.
  { apply (runs_GetClient agendarAuth _ (Rejected forbidden)). apply runs_Respond. }
  split; [exact R|].
  destruct (X9_no_insert_without_credential utc reservaCompleta _ _ _
              agendarAuth forbidden R (or_introl eq_refl)) as (_ & E & _).
  exact E.
Defined.

(** * Part 22. The form of the reservation code *)

Ltac digit_cases k H :=
  assert (k = 0 \/ k = 1 \/ k = 2 \/ k = 3 \/ k = 4 \/ k = 5 \/ k = 6 \/ k = 7
          \/ k = 8 \/ k = 9) as H by lia;
  repeat destruct H as [H|H]; subst k.

Lemma string_of_digitUint k rest :
  0 <= k <= 9 ->
  NilEmpty.string_of_uint (digitUint k rest)
  = String (digitChar k) (NilEmpty.string_of_uint rest).
Proof. intros H. digit_cases k C; reflexivity. Qed.

Lemma of_uint_acc_digitUint k rest acc :
  0 <= k <= 9 ->
  exists q, Pos.of_uint_acc (digitUint k rest) acc = Pos.of_uint_acc rest q
            /\ Z.pos q = k + 10 * Z.pos acc.
Proof.
  intros H. digit_cases k C; cbn [digitUint Pos.of_uint_acc];
    (eexists; split; [reflexivity|lia]).
Qed.

Lemma leading_digitUint a rest :
  1 <= a <= 9 ->
  Pos.of_uint (digitUint a rest) = N.pos (Pos.of_uint_acc rest (Z.to_pos a))
  /\ Decimal.unorm (digitUint a rest) = digitUint a rest
  /\ NilZero.string_of_uint (digitUint a rest)
     = NilEmpty.string_of_uint (digitUint a rest).
Proof. intros H. digit_cases a C; try lia; repeat split; reflexivity. Qed.

(** The numeral of a year of four digits. *)
Lemma NumberToString_year host y :
  1000 <= y <= 9999 -> NumberToString host y = padDigits 4 y.
Proof.
  intros H. unfold NumberToString.
  destruct (Z.leb_spec (Z.abs y) MAX_SAFE_INTEGER) as [_|Hbig];
    [|unfold MAX_SAFE_INTEGER in Hbig; lia].
  set (a := y / 1000 mod 10). set (b := y / 100 mod 10).
  set (c := y / 10 mod 10). set (e := y / 1 mod 10).
  assert (1 <= a <= 9) as Ha by (unfold a; Z.to_euclidean_division_equations; lia).
  pose proof (mod10_range (y / 100)) as Hb. pose proof (mod10_range (y / 10)) as Hc.
  pose proof (mod10_range (y / 1)) as He. fold b in Hb. fold c in Hc. fold e in He.
  set (d := digitUint a (digitUint b (digitUint c (digitUint e Decimal.Nil)))).
  assert (Z.of_int (Decimal.Pos d) = y) as E.
  { unfold Z.of_int, Z.of_uint, d.
    destruct (leading_digitUint a (digitUint b (digitUint c (digitUint e Decimal.Nil))) Ha)
      as (-> & _ & _).
    destruct (of_uint_acc_digitUint b (digitUint c (digitUint e Decimal.Nil))
                (Z.to_pos a) Hb) as (q1 & -> & E1).
    destruct (of_uint_acc_digitUint c (digitUint e Decimal.Nil) q1 Hc) as (q2 & -> & E2).
    destruct (of_uint_acc_digitUint e Decimal.Nil q2 He) as (q3 & -> & E3).
    cbn [Pos.of_uint_acc Z.of_N]. rewrite E3, E2, E1, Z2Pos.id by lia.
    unfold a, b, c, e. Z.to_euclidean_division_equations; lia. }
  rewrite <- E at 1. rewrite DecimalZ.to_of.
  cbn [Decimal.norm NilZero.string_of_int].
  destruct (leading_digitUint a (digitUint b (digitUint c (digitUint e Decimal.Nil))) Ha)
    as (_ & U & S).
  fold d in U, S. rewrite U, S. unfold d.
  rewrite !string_of_digitUint by lia. reflexivity.
Qed.

Lemma isDigit_digitChar d : 0 <= d <= 9 -> isDigit (digitChar d) = true.
Proof.
  intros H.
  assert (d = 0 \/ d = 1 \/ d = 2 \/ d = 3 \/ d = 4 \/ d = 5 \/ d = 6 \/ d = 7
          \/ d = 8 \/ d = 9) as C by lia.
  repeat destruct C as [->|C]; try subst d; reflexivity.
Qed.

(** A code with a year of four digits is of the expected form exactly
    when six characters follow the year. *)
Lemma matchesCodePattern_year y suffix :
  allUpperAlnum suffix = true ->
  matchesCodePattern ("CB-" ++ padDigits 4 y ++ "-" ++ suffix)
  = (String.length suffix =? 6)%nat.
Proof.
  intros U.
  change ("CB-" ++ padDigits 4 y ++ "-" ++ suffix)
    with (String "C" (String "B" (String "-"
          (String (digitChar (y / 1000 mod 10)) (String (digitChar (y / 100 mod 10))
          (String (digitChar (y / 10 mod 10)) (String (digitChar (y / 1 mod 10))
          (String "-" suffix)))))))).
  unfold matchesCodePattern.
  cbn [String.length substring String.eqb Ascii.eqb Bool.eqb list_ascii_of_string forallb
       Nat.eqb andb].
  rewrite !isDigit_digitChar by apply mod10_range. cbn [andb].
  rewrite allUpperAlnum_substring by exact U.
  replace (substring 0 0 suffix) with "" by (destruct suffix; reflexivity).
  change (String.eqb "" "") with true.
  rewrite !Bool.andb_true_r. reflexivity.
Qed.

(** X10. The code of a reservation made in a year of four digits on the
    clock of the server is [CB-], the four digits of this year in the
    time zone of the server, [-], and the characters 3 to 8 of the
    numeral of the random number in radix 36, in capitals: at most six
    characters.  When this numeral is ["0"], ["1"] or ["0."] followed
    by digits, as the engine prints the numbers from 0 to 1, these
    characters are digits or capital letters, and the code is of the
    form [CB-YYYY-XXXXXX] exactly when six of them follow the year.
    The numeral of a multiple of [2 ^ -12] is of this kind on every
    host. *)
Theorem X10_reservation_code_form :
  forall host b calls status body now x,
    runs (agendar host b) calls status body ->
    In (CallNewDate now) calls ->
    In (CallMathRandom x) calls ->
    1000 <= getFullYear host now <= 9999 ->
    exists code suffix,
      prop "reservationCode" body = JString code
      /\ code = "CB-" ++ padDigits 4 (getFullYear host now) ++ "-" ++ suffix
      /\ suffix = toUpperCase (substring 2 6 (toString36 host x))
      /\ (String.length suffix <= 6)%nat
      /\ (radix36Numeral (toString36 host x) = true ->
          allUpperAlnum suffix = true
          /\ (matchesCodePattern code = true <-> String.length suffix = 6%nat))
      /\ ((halvings x <= 12)%nat -> radix36Numeral (toString36 host x) = true).
Proof.
  intros host b calls status body now0 x0 H Hn Hx0 Hy.
  agendar_cases host b calls status body H; in_calls Hn.
  in_calls Hx0. injection Hn as ->. injection Hx0 as ->.
  assert (reservationCodeOf host (getFullYear host now0) x0
          = "CB-" ++ padDigits 4 (getFullYear host now0) ++ "-"
            ++ toUpperCase (substring 2 6 (toString36 host x0))) as E
    by (unfold reservationCodeOf; rewrite NumberToString_year by exact Hy; reflexivity).
  eexists _, _. split; [reflexivity|]. split; [exact E|].
  split; [reflexivity|].
  split; [rewrite toUpperCase_length; apply substring_length_le|].
  split.
  - intros Hnum. pose proof (suffix_upper _ Hnum) as U. split; [exact U|].
    rewrite E, matchesCodePattern_year by exact U. apply Nat.eqb_eq.
  - intros Hh. apply toString36_short; assumption.
Qed.

Lemma X10_reservation_code_form_witness :
  exists code suffix,
    JString "CB-2024-I" = JString code
    /\ code = "CB-" ++ padDigits 4 (getFullYear utc 1717200000000) ++ "-" ++ suffix
    /\ suffix = toUpperCase (substring 2 6 (toString36 utc oneHalf))
    /\ (String.length suffix <= 6)%nat
    /\ (radix36Numeral (toString36 utc oneHalf) = true ->
        allUpperAlnum suffix = true
        /\ (matchesCodePattern code = true <-> String.length suffix = 6%nat))
    /\ ((halvings oneHalf <= 12)%nat -> radix36Numeral (toString36 utc oneHalf) = true).
Proof.
  assert (runs (agendar utc reservaCompleta)
       [CallGetClient agendarAuth (Fulfilled 1%nat);
        CallEventsInsert {| insert_auth := 1%nat;
                            insert_calendarId := CALENDAR_ID;
                            resource := built (event utc reservaCompleta) |}
                         (Fulfilled insertado);
        CallNewDate 1717200000000;
        CallMathRandom oneHalf]
       200
       (JObject [
          ("success", JBool true);
          ("eventId", JString "evt1");
          ("reservationCode", JString "CB-2024-I");
          ("message", JString "Reserva creada exitosamente en Google Calendar");
          ("eventLink", JString "https://calendar.example/evt1")])) as R.
  { apply (runs_GetClient agendarAuth _ (Fulfilled 1%nat)).
    apply (runs_EventsInsert _ _ (Fulfilled insertado)).
    apply (runs_NewDate _ 1717200000000).
    apply (runs_MathRandom _ oneHalf); [unfold Random_ok; simpl; lia|].
    apply runs_Respond. }
  apply (X10_reservation_code_form utc reservaCompleta _ _ _ 1717200000000 oneHalf R).
  - cbn [In]. auto.
  - cbn [In]. auto.
  - vm_compute. split; discriminate.
Defined.

(** * Part 23. [GET /test-calendar] and the other routes *)

Lemma test_calendar_runs calls status body :
  runs test_calendar calls status body ->
  (exists error,
      calls = [CallGetClient testCalendarAuth (Rejected error)]
      /\ status = 500 /\ body = testCalendarError error)
  \/ (exists authClient error,
        calls = [CallGetClient testCalendarAuth (Fulfilled authClient);
                 CallCalendarsGet {| get_auth := authClient;
                                     get_calendarId := CALENDAR_ID |} (Rejected error)]
        /\ status = 500 /\ body = testCalendarError error)
  \/ (exists authClient data,
        calls = [CallGetClient testCalendarAuth (Fulfilled authClient);
                 CallCalendarsGet {| get_auth := authClient;
                                     get_calendarId := CALENDAR_ID |} (Fulfilled data)]
        /\ status = 200
        /\ body = JObject [
             ("success", JBool true);
             ("calendar", JObject [
                ("id", calendar_id data);
                ("summary", calendar_summary data);
                ("timeZone", calendar_timeZone data);
                ("access", accessRole data)])]).
Proof.
  intros H. unfold test_calendar in H. step H.
  match goal with
  | R : runs (match ?a with Fulfilled _ => _ | Rejected _ => _ end) _ _ _ |- _ =>
      destruct a as [authClient|error]; step R
  end.
  - match goal with
    | R : runs (match ?a with Fulfilled _ => _ | Rejected _ => _ end) _ _ _ |- _ =>
        destruct a as [data|error]; step R
    end.
    + right. right. eexists _, _. split; [reflexivity|]. split; reflexivity.
    + right. left. eexists _, _. split; [reflexivity|]. split; reflexivity.
  - left. eexists. split; [reflexivity|]. split; reflexivity.
Qed.

(** X11. [GET /test-calendar] reads the calendar of the application and
    nothing else: it lists no event and inserts none.  It answers 200
    exactly when the calendar was read, with its identifier, summary
    and time zone and the role of the service account under [access];
    when the credential or the reading fails it answers 500 with the
    message of the error. *)
Theorem X11_calendar_test_answer :
  forall calls status body,
    runs test_calendar calls status body ->
    existsb isWrite calls = false
    /\ existsb isList calls = false
    /\ (status = 200
        <-> exists params data, In (CallCalendarsGet params (Fulfilled data)) calls)
    /\ (forall params data,
          In (CallCalendarsGet params (Fulfilled data)) calls ->
          get_calendarId params = CALENDAR_ID
          /\ prop "success" body = JBool true
          /\ prop "calendar" body
             = JObject [("id", calendar_id data);
                        ("summary", calendar_summary data);
                        ("timeZone", calendar_timeZone data);
                        ("access", accessRole data)])
    /\ (forall c error,
          In c calls -> rejection c = Some error ->
          status = 500 /\ body = testCalendarError error)
    /\ (status = 200
        \/ status = 500 /\ exists c error, In c calls /\ rejection c = Some error).
Proof.
  intros calls status body H.
  destruct (test_calendar_runs calls status body H)
    as [(e & -> & -> & ->)|[(a & e & -> & -> & ->)|(a & d & -> & -> & ->)]].
  - split; [reflexivity|]. split; [reflexivity|]. split; [|split; [|split]].
    + split; [discriminate|]. intros (p & x & Hin). in_calls Hin.
    + intros p x Hin. in_calls Hin.
    + intros c err Hin. in_calls Hin. subst c. intros [= <-]. auto.
    + right. split; [reflexivity|]. eexists _, _. split; [left; reflexivity|reflexivity].
  - split; [reflexivity|]. split; [reflexivity|]. split; [|split; [|split]].
    + split; [discriminate|]. intros (p & x & Hin). in_calls Hin.
    + intros p x Hin. in_calls Hin.
    + intros c err Hin. cbn [In] in Hin.
      destruct Hin as [<-|[<-|[]]]; [discriminate|]. intros [= <-]. auto.
    + right. split; [reflexivity|]. eexists _, _.
      split; [right; left; reflexivity|reflexivity].
  - split; [reflexivity|]. split; [reflexivity|]. split; [|split; [|split]].
    + split; [|reflexivity]. intros _. eexists _, _. right. left. reflexivity.
    + intros p x Hin. in_calls Hin. injection Hin as <- <-. repeat split; reflexivity.
    + intros c err Hin. cbn [In] in Hin.
      destruct Hin as [<-|[<-|[]]]; discriminate.
    + left. reflexivity.
Qed.

Lemma X11_calendar_test_answer_witness :
  runs test_calendar [CallGetClient testCalendarAuth (Rejected forbidden)] 500
       (testCalendarError forbidden)
  /\ existsb isWrite [CallGetClient testCalendarAuth (Rejected forbidden)] = false.
Proof.
  assert (runs test_calendar [CallGetClient testCalendarAuth (Rejected forbidden)] 500
            (testCalendarError forbidden)) as R.
  { apply (runs_GetClient testCalendarAuth _ (Rejected forbidden)). apply runs_Respond. }
  split; [exact R|].
  exact (proj1 (X11_calendar_test_answer _ _ _ R)).
Defined.

(** X12. Every answer with a [success] flag tells the truth about its
    status: for the three routes of the calendar, the error handler and
    the route for unknown paths, [success] is [true] exactly when the
    status is 200.  The status is 200, 400, 404 or 500; an answer other
    than 200 carries a message; and as soon as a call to the calendar
    or for its credential fails, the answer is 500. *)
Theorem X12_success_flag_follows_status :
  forall host b error h calls status body,
    In h [disponibilidad host; agendar host b; test_calendar;
          errorGlobal error; notFound] ->
    runs h calls status body ->
    prop "success" body = JBool (status =? 200)
    /\ In status [200; 400; 404; 500]
    /\ (status <> 200 -> exists m, prop "message" body = JString m)
    /\ (forall c e, In c calls -> rejection c = Some e -> status = 500).
Proof.
  intros host b error h calls status body Hh H. cbn [In] in Hh.
  assert (forall calls status body,
             prop "success" body = JBool (status =? 200) ->
             In status [200; 400; 404; 500] ->
             (status <> 200 -> exists m, prop "message" body = JString m) ->
             Forall (fun c => forall e, rejection c = Some e -> status = 500) calls ->
             prop "success" body = JBool (status =? 200)
             /\ In status [200; 400; 404; 500]
             /\ (status <> 200 -> exists m, prop "message" body = JString m)
             /\ (forall c e, In c calls -> rejection c = Some e -> status = 500)) as G.
  { intros cs st bd H1 H2 H3 H4. repeat (split; [assumption|]).
    rewrite Forall_forall in H4. intros c e Hin. apply H4, Hin. }
  destruct Hh as [<-|[<-|[<-|[<-|[<-|[]]]]]].
  - destruct (disponibilidad_runs host calls status body H)
      as [(e & -> & -> & ->)
         |[(c & n & n' & -> & E & -> & ->)|(c & n & n' & a & -> & E & Ha)]];
      [| |destruct a as [eventos|e]; destruct Ha as [-> ->]];
      (apply G;
       [reflexivity
       |cbn [In]; tauto
       |first [intros N; exfalso; apply N; reflexivity|intros _; eexists; reflexivity]
       |repeat constructor; cbn [rejection]; intros e0 R;
        first [reflexivity|discriminate R]]).
  - agendar_cases host b calls status body H;
      (apply G;
       [reflexivity
       |cbn [In]; tauto
       |first [intros N; exfalso; apply N; reflexivity|intros _; eexists; reflexivity]
       |repeat constructor; cbn [rejection]; intros e0 R;
        first [reflexivity|discriminate R]]).
  - destruct (test_calendar_runs calls status body H)
      as [(e & -> & -> & ->)|[(a & e & -> & -> & ->)|(a & d & -> & -> & ->)]];
      (apply G;
       [reflexivity
       |cbn [In]; tauto
       |first [intros N; exfalso; apply N; reflexivity|intros _; eexists; reflexivity]
       |repeat constructor; cbn [rejection]; intros e0 R;
        first [reflexivity|discriminate R]]).
  - unfold errorGlobal in H. step H. apply G;
      [reflexivity|cbn [In]; tauto|intros _; eexists; reflexivity|constructor].
  - unfold notFound in H. step H. apply G;
      [reflexivity|cbn [In]; tauto|intros _; eexists; reflexivity|constructor].
Qed.

Lemma X12_success_flag_follows_status_witness :
  runs notFound [] 404
       (JObject [("success", JBool false); ("message", JString "Ruta no encontrada")])
  /\ prop "success"
       (JObject [("success", JBool false); ("message", JString "Ruta no encontrada")])
     = JBool (404 =? 200).
Proof.
  assert (runs notFound [] 404
            (JObject [("success", JBool false);
                      ("message", JString "Ruta no encontrada")])) as R
    by apply runs_Respond.
  split; [exact R|].
  refine (proj1 (X12_success_flag_follows_status utc reservaCompleta forbidden
                   notFound _ _ _ _ R)).
  cbn [In]. auto 6.
Defined.

(** X13. The two routes of health answer 200 whatever the state of the
    calendar: they read the clock once and make no call to the calendar
    or for a credential.  Their [timestamp] is the instant read, which
    a client gets back to the millisecond by reading it as a date. *)
Theorem X13_health_without_calendar :
  forall host h calls status body,
    In h [root; health] ->
    runs h calls status body ->
    status = 200
    /\ existsb isCalendarCall calls = false
    /\ exists now,
         calls = [CallNewDate now]
         /\ prop "timestamp" body = JString (toISOString now)
         /\ (inFourDigitYears now -> Date_parse host (toISOString now) = Some now).
Proof.
  intros host h calls status body Hh H. cbn [In] in Hh.
  destruct Hh as [<-|[<-|[]]].
  - unfold root in H. step H.
    match goal with R : runs (Respond _ _) _ _ _ |- _ => step R end.
    split; [reflexivity|]. split; [reflexivity|]. eexists.
    split; [reflexivity|]. split; [reflexivity|]. apply Date_parse_toISOString.
  - unfold health in H. step H.
    match goal with R : runs (Respond _ _) _ _ _ |- _ => step R end.
    split; [reflexivity|]. split; [reflexivity|]. eexists.
    split; [reflexivity|]. split; [reflexivity|]. apply Date_parse_toISOString.
Qed.

Lemma X13_health_without_calendar_witness :
  runs health [CallNewDate 1717200000000] 200
       (JObject [
          ("status", JString "healthy");
          ("service", JString "reservas-backend");
          ("timestamp", JString "2024-06-01T00:00:00.000Z")])
  /\ 200 = 200.
Proof.
  assert (runs health [CallNewDate 1717200000000] 200
            (JObject [
               ("status", JString "healthy");
               ("service", JString "reservas-backend");
               ("timestamp", JString "2024-06-01T00:00:00.000Z")])) as R.
  { apply (runs_NewDate _ 1717200000000). apply runs_Respond. }
  split; [exact R|].
  refine (proj1 (X13_health_without_calendar utc health _ _ _ _ R)).
  cbn [In]. auto.
Defined.

(** * Part 24. From a reservation to the occupied dates *)

Lemma keepFirst_NoDup l : NoDup l -> keepFirst l = l.
Proof.
  induction 1 as [|x l Hx Hl IH]; cbn [keepFirst]; [reflexivity|].
  rewrite IH, notin_remove by exact Hx. reflexivity.
Qed.

Lemma Set_from_NoDup_id l : NoDup l -> Set_from l = l.
Proof. intros H. rewrite Set_from_keepFirst. apply keepFirst_NoDup, H. Qed.

Lemma daysFromTo_nil a b : b <= a -> daysFromTo a b = [].
Proof.
  intros H. unfold daysFromTo. replace (Z.to_nat (b - a)) with O by lia. reflexivity.
Qed.

(** The strings of the days of an interval of dates are distinct. *)
Lemma NoDup_dayStrings n : forall a b,
  Z.to_nat (b - a) = n ->
  (forall d, a <= d < b -> validDate (dateOfDay d) = true) ->
  NoDup (map dayString (daysFromTo a b)).
Proof.
  induction n as [|n IH]; intros a b Hn V.
  - rewrite daysFromTo_nil by lia. constructor.
  - rewrite daysFromTo_cons by lia. cbn [map]. constructor.
    + rewrite in_map_iff. intros (d & E & Hd). apply In_daysFromTo in Hd.
      apply iso_injective in E; [|apply V; lia|apply V; lia].
      apply (f_equal dayNumber) in E. rewrite !dayNumber_dateOfDay in E. lia.
    + apply IH; [lia|]. intros d Hd. apply V. lia.
Qed.

Lemma validDate_between s e d :
  validDate s = true -> validDate e = true ->
  dayNumber s <= d < dayNumber e -> validDate (dateOfDay d) = true.
Proof.
  intros Hs He Hd. apply validDate_dateOfDay.
  pose proof (YearFromDay_mono (dayNumber s) d ltac:(lia)) as M1.
  pose proof (YearFromDay_mono d (dayNumber e) ltac:(lia)) as M2.
  rewrite YearFromDay_dayNumber in M1, M2 by assumption.
  apply validDate_spec in Hs, He. lia.
Qed.

(** The dates of the event built from a request. *)
Lemma event_dates host b resource :
  event host b = Some resource ->
  storedEvent resource
  = {| start := {| date := asString (checkInDate b); dateTime := None |};
       end_ := {| date := asString (checkOutDate b); dateTime := None |} |}.
Proof.
  unfold event. intros H.
  repeat match goal with
         | H : match ToString host ?v with Some _ => _ | None => _ end = Some _ |- _ =>
             destruct (ToString host v); [|discriminate H]
         end.
  injection H as <-. reflexivity.
Qed.

(** X14. A reservation whose dates are calendar dates is inserted as an
    all-day event from the date of arrival to the date of departure.
    Once the calendar lists this event as it was sent, [GET
    /disponibilidad] on a host with a fixed offset reports for it the
    dates from the arrival up to but not including the departure, each
    once and in order.  A reservation whose departure is not after its
    arrival is inserted all the same and occupies no date. *)
Theorem X14_reservation_occupies_its_nights :
  forall host b s e calls status body params answer,
    fixedOffset host ->
    validDate s = true -> validDate e = true ->
    checkInDate b = JString (iso s) ->
    checkOutDate b = JString (iso e) ->
    runs (agendar host b) calls status body ->
    In (CallEventsInsert params answer) calls ->
    storedEvent (resource params) = allDay (iso s) (iso e)
    /\ fechasUnicas host [storedEvent (resource params)]
       = map dayString (daysFromTo (dayNumber s) (dayNumber e))
    /\ (forall c, validDate c = true ->
          (In (iso c) (fechasUnicas host [storedEvent (resource params)])
           <-> dayNumber s <= dayNumber c < dayNumber e))
    /\ (dayNumber e <= dayNumber s ->
        fechasUnicas host [storedEvent (resource params)] = []).
Proof.
  intros host b s e calls status body params answer Fx Hs He Ei Eo H Hin.
  assert (event host b = Some (resource params)) as Er.
  { agendar_cases host b calls status body H;
      in_calls Hin; injection Hin as <- _; exact Ev. }
  assert (storedEvent (resource params) = allDay (iso s) (iso e)) as Ev.
  { rewrite (event_dates host b _ Er), Ei, Eo. reflexivity. }
  assert (fechasUnicas host [storedEvent (resource params)]
          = map dayString (daysFromTo (dayNumber s) (dayNumber e))) as F.
  { rewrite Ev. unfold fechasUnicas.
    rewrite fechasOcupadas_one, (forEvento_allDay host [] _ s e)
      by (assumption || reflexivity).
    cbn [app]. apply Set_from_NoDup_id.
    apply (NoDup_dayStrings _ _ _ eq_refl).
    intros d Hd. apply (validDate_between s e); assumption. }
  split; [exact Ev|]. split; [exact F|]. split.
  - intros c Hc. rewrite F. apply In_allDay_dates; assumption.
  - intros Hle. rewrite F, daysFromTo_nil by exact Hle. reflexivity.
Qed.

Lemma X14_reservation_occupies_its_nights_witness :
  fixedOffset utc
  /\ fechasUnicas utc [storedEvent (built (event utc reservaCompleta))]
     = map dayString (daysFromTo 19875 19878).
Proof.
  assert (runs (agendar utc reservaCompleta)
       [CallGetClient agendarAuth (Fulfilled 1%nat);
        CallEventsInsert {| insert_auth := 1%nat;
                            insert_calendarId := CALENDAR_ID;
                            resource := built (event utc reservaCompleta) |}
                         (Rejected forbidden)]
       500 (agendarError forbidden)) as R.
  { apply (runs_GetClient agendarAuth _ (Fulfilled 1%nat)).
    apply (runs_EventsInsert _ _ (Rejected forbidden)).
    apply runs_Respond. }
  split; [exact (atOffset_fixed 0)|].
  pose proof (X14_reservation_occupies_its_nights utc reservaCompleta
                {| year := 2024; month := 6; day := 1 |}
                {| year := 2024; month := 6; day := 4 |}
                _ _ _
                {| insert_auth := 1%nat;
                   insert_calendarId := CALENDAR_ID;
                   resource := built (event utc reservaCompleta) |} (Rejected forbidden)
                (atOffset_fixed 0) eq_refl eq_refl eq_refl eq_refl R) as H.
  cbn [In] in H. destruct H as (_ & H & _); [auto|]. exact H.
Defined.

(** * Part 25. Dates found are kept *)

(** X15. Events listed after others change nothing to the dates
    already found: the dates of the first events stay where they are,
    and the later events add, after them, their dates that were not
    found before, each once. *)
Theorem X15_later_events_only_add_dates :
  forall host eventos later,
    exists added,
      fechasUnicas host (eventos ++ later) = (fechasUnicas host eventos ++ added)%list
      /\ NoDup added
      /\ (forall x, In x added
                    <-> In x (fechasOcupadas host later)
                        /\ ~ In x (fechasOcupadas host eventos)).
Proof.
  intros host eventos later.
  exists (notIn (fechasUnicas host eventos) (Set_from (fechasOcupadas host later))).
  split; [|split].
  - unfold fechasUnicas at 1. rewrite fechasOcupadas_app.
    unfold Set_from at 1. rewrite fold_left_app.
    rewrite fold_Set_add_keepFirst, <- Set_from_keepFirst. reflexivity.
  - unfold notIn. apply NoDup_filter, Set_from_NoDup.
  - intros x. unfold notIn. rewrite filter_In, Set_from_In.
    unfold fechasUnicas. rewrite Bool.negb_true_iff.
    split.
    + intros [Hl Hn]. split; [exact Hl|]. intros C.
      apply (proj2 (Set_from_In _ _)) in C.
      apply (proj2 (existsb_eqb_In _ _)) in C. congruence.
    + intros [Hl Hn]. split; [exact Hl|].
      destruct (existsb (String.eqb x) (Set_from (fechasOcupadas host eventos))) eqn:E;
        [|reflexivity].
      apply existsb_eqb_In in E. apply (proj1 (Set_from_In _ _)) in E.
      exfalso. apply Hn, E.
Qed.

(** * Part 26. Reservations are not checked against the calendar *)

(** X16. [POST /agendar] never reads the calendar: it inserts the
    event without looking at the events already there, so the dates of
    a reservation are not compared with the dates that are occupied.
    A request with its six fields from which the event can be built is
    answered 200 whenever the credential and the insert succeed,
    whatever the calendar holds. *)
Theorem X16_reservation_without_reading_calendar :
  forall host b,
    (forall calls status body,
        runs (agendar host b) calls status body -> existsb isRead calls = false)
    /\ (faltanCampos b = false ->
        forall resource,
          event host b = Some resource ->
          forall authClient data now x,
            Random_ok x ->
            runs (agendar host b)
                 [CallGetClient agendarAuth (Fulfilled authClient);
                  CallEventsInsert {| insert_auth := authClient;
                                      insert_calendarId := CALENDAR_ID;
                                      resource := resource |} (Fulfilled data);
                  CallNewDate now; CallMathRandom x]
                 200
                 (JObject [
                    ("success", JBool true);
                    ("eventId", id data);
                    ("reservationCode",
                     JString (reservationCodeOf host (getFullYear host now) x));
                    ("message", JString "Reserva creada exitosamente en Google Calendar");
                    ("eventLink", htmlLink data)])).
Proof.
  intros host b. split.
  - intros calls status body H.
    agendar_cases host b calls status body H; reflexivity.
  - intros Hf resource Ev authClient data now x Hx. unfold agendar. rewrite Hf.
    apply (runs_GetClient _ _ (Fulfilled authClient)). rewrite Ev.
    apply (runs_EventsInsert _ _ (Fulfilled data)).
    apply (runs_NewDate _ now).
    apply (runs_MathRandom _ x); [exact Hx|].
    apply runs_Respond.
Qed.

Lemma X16_reservation_without_reading_calendar_witness :
  faltanCampos reservaInvertida = false
  /\ event utc reservaInvertida = Some (built (event utc reservaInvertida))
  /\ Random_ok oneHalf
  /\ runs (agendar utc reservaInvertida)
          [CallGetClient agendarAuth (Fulfilled 1%nat);
           CallEventsInsert {| insert_auth := 1%nat;
                               insert_calendarId := CALENDAR_ID;
                               resource := built (event utc reservaInvertida) |}
                            (Fulfilled insertado);
           CallNewDate 1717200000000; CallMathRandom oneHalf]
          200
          (JObject [
             ("success", JBool true);
             ("eventId", id insertado);
             ("reservationCode",
              JString (reservationCodeOf utc (getFullYear utc 1717200000000) oneHalf));
             ("message", JString "Reserva creada exitosamente en Google Calendar");
             ("eventLink", htmlLink insertado)]).
Proof.
  assert (Random_ok oneHalf) as Hx by (unfold Random_ok; simpl; lia).
  split; [reflexivity|]. split; [reflexivity|]. split; [exact Hx|].
  exact (proj2 (X16_reservation_without_reading_calendar utc reservaInvertida)
           eq_refl _ eq_refl 1%nat insertado 1717200000000 oneHalf Hx).
Defined.
